(** * Weather service: a shallow embedding and its verified properties

    The development follows the repository file by file:
    - [Py]              the Python values and builtins the code relies on
                        (floats, [round], [range], [datetime]);
    - [WeatherService]  [services/weather_service.py];
    - [WeatherDatabase] [database.py];
    - [ExcelService]    [services/excel_service.py];
    - [PDFService]      [services/pdf_service.py];
    - [App]             the request handlers of [app.py].

    Numbers.  A Python float is modelled by the rational number it denotes,
    extended with NaN ([pyfloat]); a value known not to be NaN is a [Q].
    Infinities, signed zeros and the rounding error of binary floating-point
    arithmetic are outside the model.

    Effects.  The weather table and the log of calls to the weather API form
    the [world]; handlers are written in a small state-and-exception monad
    over it.  What the environment decides (the clock, the answers of the
    weather API, the local time zone, the date parsers of SQLite and pandas,
    the chart renderer) is an explicit argument. *)

From Stdlib Require Import List ZArith QArith Qround Qabs Qfield Bool Lia Lqa Arith.
From Stdlib Require Import Ascii String DecimalString Permutation Sorted.
Import ListNotations.

Set Implicit Arguments.

Local Open Scope Z_scope.

(* ================================================================== *)
(** * Python values and builtins *)
(* ================================================================== *)

Module Py.

(** Exceptions.  Only the class matters to the handlers ([except ValueError]
    before [except Exception]); the message keeps the source's text, without
    the interpolated values. *)
Inductive exn : Type :=
| ValueError (msg : string)
| IntegrityError (msg : string)
| Exception (msg : string).

Definition str_of_exn (e : exn) : string :=
  match e with
  | ValueError m | IntegrityError m | Exception m => m
  end.

Definition is_ValueError (e : exn) : bool :=
  match e with ValueError _ => true | _ => false end.

Inductive result (A : Type) : Type :=
| Ok (a : A)
| Raise (e : exn).

Arguments Ok {A} a.
Arguments Raise {A} e.

Definition bind {A B} (r : result A) (k : A -> result B) : result B :=
  match r with
  | Ok a => k a
  | Raise e => Raise e
  end.

(** [[f(x) for x in l]], stopping at the first exception. *)
Fixpoint traverse {A B} (f : A -> result B) (l : list A) : result (list B) :=
  match l with
  | [] => Ok []
  | x :: rest =>
      bind (f x) (fun y =>
      bind (traverse f rest) (fun ys => Ok (y :: ys)))
  end.

(** ** Floats *)

Inductive pyfloat : Type :=
| NaN
| Fin (q : Q).


(** [a <= x <= b] on floats: every comparison with NaN is false. *)
Definition between (a : Q) (x : pyfloat) (b : Q) : bool :=
  match x with
  | NaN => false
  | Fin q => Qle_bool a q && Qle_bool q b
  end.

(** ** Rounding: [round(x, ndigits)] and the [%.nf] formats

    Both round the exact value to the nearest multiple of [10^-ndigits],
    a tie going to the even neighbour. *)

Definition round_half_even (x : Q) : Z :=
  let f := Qfloor x in
  match Qcompare (x - inject_Z f)%Q (1 # 2)%Q with
  | Lt => f
  | Gt => (f + 1)%Z
  | Eq => if Z.even f then f else (f + 1)%Z
  end.

Fixpoint pow10 (n : nat) : positive :=
  match n with
  | O => 1%positive
  | S k => (10 * pow10 k)%positive
  end.

Definition round (x : Q) (ndigits : nat) : Q :=
  Qmake (round_half_even (x * inject_Z (Zpos (pow10 ndigits)))%Q) (pow10 ndigits).

(** ** [range(start, stop, step)] *)

Definition range_len (start stop step : Z) : Z :=
  (if 0 <? step then
     if start <? stop then (stop - start - 1) / step + 1 else 0
   else
     if stop <? start then (start - stop - 1) / (- step) + 1 else 0)%Z.

Definition range (start stop step : Z) : result (list Z) :=
  if (step =? 0)%Z then Raise (ValueError "range() arg 3 must not be zero")
  else Ok (map (fun k => (start + Z.of_nat k * step)%Z)
               (seq 0 (Z.to_nat (range_len start stop step)))).

(** ** [datetime]: [fromtimestamp] and [isoformat]

    A naive datetime as [datetime.fromtimestamp] builds it from a number of
    seconds since the epoch: the local civil date and time of day, whole
    seconds only. *)

Record datetime : Type := mkDatetime
  { year : Z; month : Z; day : Z; hour : Z; minute : Z; second : Z }.

(** The civil date of a day of the 400-year cycle that starts on 1 March
    of a year divisible by 400; the year is counted within the cycle. *)
Definition civil_of_doe (doe : Z) : Z * Z * Z :=
  let yoe := (doe - doe / 1460 + doe / 36524 - doe / 146096) / 365 in
  let doy := doe - (365 * yoe + yoe / 4 - yoe / 100) in
  let mp := (5 * doy + 2) / 153 in
  let d := doy - (153 * mp + 2) / 5 + 1 in
  let m := if mp <? 10 then mp + 3 else mp - 9 in
  ((if m <=? 2 then yoe + 1 else yoe), m, d).

(** The civil date of a number of days since 1970-01-01. *)
Definition civil_from_days (days : Z) : Z * Z * Z :=
  let z := days + 719468 in
  let '(y, m, d) := civil_of_doe (z mod 146097) in
  (y + 400 * (z / 146097), m, d).

(** [utcoffset t] is the offset of local time from UTC, in seconds, at the
    instant [t]: the time zone of the machine. *)
Definition fromtimestamp (utcoffset : Z -> Z) (timestamp : Z) : result datetime :=
  let local := timestamp + utcoffset timestamp in
  let '(y, m, d) := civil_from_days (local / 86400) in
  let s := local mod 86400 in
  if (1 <=? y) && (y <=? 9999) then
    Ok {| year := y; month := m; day := d;
          hour := s / 3600; minute := s mod 3600 / 60; second := s mod 60 |}
  else Raise (ValueError "year is out of range").

Definition digit (n : Z) : ascii := ascii_of_nat (48 + Z.to_nat (n mod 10)).

Definition pad2 (n : Z) : string :=
  String (digit (n / 10)) (String (digit n) EmptyString).

Definition pad4 (n : Z) : string :=
  String (digit (n / 1000)) (String (digit (n / 100)) (pad2 n)).

(** [YYYY-MM-DDTHH:MM:SS]: the microsecond is always 0 here. *)
Definition isoformat (dt : datetime) : string :=
  (pad4 (year dt) ++ "-" ++ pad2 (month dt) ++ "-" ++ pad2 (day dt) ++ "T"
   ++ pad2 (hour dt) ++ ":" ++ pad2 (minute dt) ++ ":" ++ pad2 (second dt))%string.

(** [YYYY-MM-DD HH:MM:SS] of a naive datetime given in seconds:
    [strftime('%Y-%m-%d %H:%M:%S')], and SQLite's [CURRENT_TIMESTAMP] in UTC. *)
Definition strftime_seconds (now : Z) : string :=
  let '(y, m, d) := civil_from_days (now / 86400) in
  let s := now mod 86400 in
  (pad4 y ++ "-" ++ pad2 m ++ "-" ++ pad2 d ++ " "
   ++ pad2 (s / 3600) ++ ":" ++ pad2 (s mod 3600 / 60) ++ ":" ++ pad2 (s mod 60))%string.

(** ** Recognising an ISO-8601 calendar date and time *)

Definition is_leap (y : Z) : bool :=
  ((y mod 4 =? 0) && negb (y mod 100 =? 0)) || (y mod 400 =? 0).

Definition days_in_month (y m : Z) : Z :=
  if m =? 2 then (if is_leap y then 29 else 28)
  else if (m =? 4) || (m =? 6) || (m =? 9) || (m =? 11) then 30
  else 31.

Definition valid_date (y m d : Z) : bool :=
  (1 <=? m) && (m <=? 12) && (1 <=? d) && (d <=? days_in_month y m).

Definition valid_time (h mi s : Z) : bool :=
  (0 <=? h) && (h <? 24) && (0 <=? mi) && (mi <? 60) && (0 <=? s) && (s <? 60).

Definition digit_val (c : ascii) : option Z :=
  let n := nat_of_ascii c in
  if ((48 <=? n) && (n <=? 57))%nat then Some (Z.of_nat (n - 48)) else None.

(** Reads exactly [k] decimal digits. *)
Fixpoint digits (k : nat) (acc : Z) (s : string) : option (Z * string) :=
  match k with
  | O => Some (acc, s)
  | S k' =>
      match s with
      | String c rest =>
          match digit_val c with
          | Some v => digits k' (10 * acc + v) rest
          | None => None
          end
      | EmptyString => None
      end
  end.

Definition expect (c : ascii) (s : string) : option string :=
  match s with
  | String c' rest => if Ascii.eqb c c' then Some rest else None
  | EmptyString => None
  end.

Definition obind {A B} (o : option A) (k : A -> option B) : option B :=
  match o with Some a => k a | None => None end.

(** The fields of a text of the shape [YYYY-MM-DDTHH:MM:SS]. *)
Definition parse_iso8601 (s : string) : option datetime :=
  obind (digits 4 0 s) (fun '(y, s) =>
  obind (expect "-" s) (fun s =>
  obind (digits 2 0 s) (fun '(m, s) =>
  obind (expect "-" s) (fun s =>
  obind (digits 2 0 s) (fun '(d, s) =>
  obind (expect "T" s) (fun s =>
  obind (digits 2 0 s) (fun '(h, s) =>
  obind (expect ":" s) (fun s =>
  obind (digits 2 0 s) (fun '(mi, s) =>
  obind (expect ":" s) (fun s =>
  obind (digits 2 0 s) (fun '(sec, s) =>
  match s with
  | EmptyString => Some (mkDatetime y m d h mi sec)
  | _ => None
  end))))))))))).

Definition valid_datetime (dt : datetime) : bool :=
  valid_date (year dt) (month dt) (day dt)
  && valid_time (hour dt) (minute dt) (second dt).

(** An ISO-8601 calendar date and time of day: the fields are there and
    name a day of the calendar and a second of the day. *)
Definition is_iso8601 (s : string) : bool :=
  match parse_iso8601 s with
  | Some dt => valid_datetime dt
  | None => false
  end.

(** The days from 1970-01-01 to a civil date, and the seconds to a naive
    datetime: the inverse of [civil_from_days]. *)
Definition days_from_civil (y m d : Z) : Z :=
  let y := if m <=? 2 then y - 1 else y in
  let era := y / 400 in
  let yoe := y - era * 400 in
  let doy := (153 * (if 2 <? m then m - 3 else m + 9) + 2) / 5 + d - 1 in
  let doe := yoe * 365 + yoe / 4 - yoe / 100 + doy in
  era * 146097 + doe - 719468.

Definition seconds_of_datetime (dt : datetime) : Z :=
  days_from_civil (year dt) (month dt) (day dt) * 86400
  + hour dt * 3600 + minute dt * 60 + second dt.

(** ** Formatting: [str(n)], [f"{x:.nf}"], [strftime] *)

Definition str_of_Z (n : Z) : string :=
  DecimalString.NilZero.string_of_int (Z.to_int n).

(** The last [d] decimal digits of [n], most significant first. *)
Fixpoint frac_digits (d : nat) (n : Z) : string :=
  match d with
  | O => EmptyString
  | S k => (frac_digits k (n / 10) ++ String (digit n) EmptyString)%string
  end.

(** [f"{x:.df}"] *)
Definition format_f (d : nat) (x : pyfloat) : string :=
  match x with
  | NaN => "nan"%string
  | Fin q =>
      let n := Z.abs (round_half_even (q * inject_Z (Zpos (pow10 d)))%Q) in
      ((if Qle_bool 0 q then "" else "-")
       ++ str_of_Z (n / Zpos (pow10 d))
       ++ (match d with O => "" | _ => "." ++ frac_digits d n end))%string
  end.

(** [strftime('%Y-%m-%d %H:%M')] of a naive datetime given in seconds. *)
Definition strftime_minutes (t : Z) : string :=
  let '(y, m, d) := civil_from_days (t / 86400) in
  let s := t mod 86400 in
  (pad4 y ++ "-" ++ pad2 m ++ "-" ++ pad2 d ++ " "
   ++ pad2 (s / 3600) ++ ":" ++ pad2 (s mod 3600 / 60))%string.

End Py.

(* ================================================================== *)
(** * Stateful code: state passing with exceptions *)
(* ================================================================== *)

(** A computation over a state [St] returns a value or raises, and leaves a
    state behind either way: what a Python function has done before it raises
    stays done. *)
Module Eff.
Import Py.

Definition M (St A : Type) : Type := St -> result A * St.

Definition ret {St A} (a : A) : M St A := fun s => (Ok a, s).

Definition raise {St A} (e : exn) : M St A := fun s => (Raise e, s).

Definition mbind {St A B} (m : M St A) (k : A -> M St B) : M St B :=
  fun s =>
    match m s with
    | (Ok a, s') => k a s'
    | (Raise e, s') => (Raise e, s')
    end.

(** [try: m except ... as e: h e] *)
Definition catch {St A} (m : M St A) (h : exn -> M St A) : M St A :=
  fun s =>
    match m s with
    | (Ok a, s') => (Ok a, s')
    | (Raise e, s') => h e s'
    end.

Definition lift_result {St A} (r : result A) : M St A := fun s => (r, s).

Definition gets {St A} (f : St -> A) : M St A := fun s => (Ok (f s), s).

Definition modify {St} (f : St -> St) : M St unit := fun s => (Ok tt, f s).

(** Runs a computation on one component of a larger state. *)
Definition zoom {St T A} (proj : St -> T) (upd : T -> St -> St) (m : M T A) : M St A :=
  fun s => let '(r, t) := m (proj s) in (r, upd t s).

Declare Scope eff_scope.
Delimit Scope eff_scope with eff.

Notation "x <- m ;; k" := (mbind m (fun x => k))
  (at level 100, m at next level, right associativity) : eff_scope.
Notation "m ;;; k" := (mbind m (fun _ => k))
  (at level 100, right associativity) : eff_scope.

End Eff.

(* ================================================================== *)
(** * services/weather_service.py *)
(* ================================================================== *)

Module WeatherService.
Import Py Eff.

(** ** The answer of the weather API (the accessors of [openmeteo_sdk]) *)

Record VariableWithValues : Type := mkVariable
  { ValuesAsNumpy : list pyfloat }.

Record VariablesWithTime : Type := mkHourly
  { Time : Z;
    TimeEnd : Z;
    Interval : Z;
    Variables : list VariableWithValues }.

Definition VariablesLength (hourly : VariablesWithTime) : nat :=
  List.length (Variables hourly).

Record WeatherApiResponse : Type := mkApiResponse
  { Latitude : pyfloat;
    Longitude : pyfloat;
    Elevation : pyfloat;
    UtcOffsetSeconds : Z;
    Hourly : option VariablesWithTime }.

(** ** The records and the result of a fetch *)

(** One normalized observation: the dictionary built in [_process_response].
    [latitude] and [longitude] are the coordinates of the request, which
    [fetch_weather_data] has validated. *)
Record weather_record : Type := mkRecord
  { timestamp : string;
    temperature_2m : option Q;
    relative_humidity_2m : option Q;
    latitude : Q;
    longitude : Q }.

(** ["metadata"]; the fields [latitude] ... [timezone_offset] of the source
    carry the prefix [meta_]. *)
Record metadata : Type := mkMetadata
  { meta_latitude : pyfloat;
    meta_longitude : pyfloat;
    meta_elevation : pyfloat;
    meta_timezone_offset : Z;
    total_records : nat;
    valid_records : nat;
    date_range_start : option string;
    date_range_end : option string }.

Record weather_result : Type := mkResult
  { status : string;
    meta : metadata;
    data : list weather_record;
    sample_data : list weather_record }.

(** ** The calls to the weather API *)

(** The request parameters; ["hourly"] and ["timezone"] are constants.
    Dates are days since 1970-01-01. *)
Record api_params : Type := mkParams
  { param_latitude : Q;
    param_longitude : Q;
    start_date : Z;
    end_date : Z }.

Inductive api_call : Type :=
| DirectGet (params : api_params)       (* requests.get(url, params) *)
| ClientCall (params : api_params).     (* self.openmeteo.weather_api(url, params) *)

Section Service.

(** The time zone of the machine. *)
Variable utcoffset : Z -> Z.

(** The weather API: the status code of the direct request (or what
    [requests.get] or the decoding of its JSON body raises), and the answer
    of the client. *)
Variable http_get : api_params -> result Z.
Variable weather_api : api_params -> result (list WeatherApiResponse).

(** [float(x) if not np.isnan(x) else None] *)
Definition float_or_None (x : pyfloat) : option Q :=
  match x with
  | NaN => None
  | Fin q => Some q
  end.

Definition is_not_None {A} (o : option A) : bool :=
  match o with Some _ => true | None => false end.

(** The body of the loop for an index within both arrays. *)
Definition make_record (lat lon : Q) (time : Z) (temp humidity : option Q)
  : result weather_record :=
  bind (fromtimestamp utcoffset time) (fun dt =>
  Ok {| timestamp := isoformat dt;
        temperature_2m := option_map (fun t => round t 2) temp;
        relative_humidity_2m := option_map (fun h => round h 1) humidity;
        latitude := lat;
        longitude := lon |}).

(** [for i, timestamp in enumerate(hourly_time): ...], from index [i] on,
    with the two lists built so far. *)
Fixpoint process_loop (temp_data humidity_data : list pyfloat) (lat lon : Q)
    (hourly_time : list Z) (i : nat) (records valid : list weather_record)
  : result (list weather_record * list weather_record) :=
  match hourly_time with
  | [] => Ok (records, valid)
  | time :: rest =>
      match nth_error temp_data i, nth_error humidity_data i with
      | Some t, Some h =>
          (* i < len(temp_data) and i < len(humidity_data) *)
          let temp := float_or_None t in
          let humidity := float_or_None h in
          bind (make_record lat lon time temp humidity) (fun record =>
          let records := records ++ [record] in
          let valid :=
            if is_not_None temp && is_not_None humidity
            then valid ++ [record] else valid in
          process_loop temp_data humidity_data lat lon rest (S i) records valid)
      | _, _ =>
          process_loop temp_data humidity_data lat lon rest (S i) records valid
      end
  end.

Definition _process_response (response : WeatherApiResponse) (lat lon : Q)
  : result weather_result :=
  match Hourly response with
  | None => Raise (Exception "No hourly data in response")
  | Some hourly =>
      bind (range (Time hourly) (TimeEnd hourly) (Interval hourly))
        (fun hourly_time =>
      if (VariablesLength hourly <? 2)%nat then
        Raise (Exception "Expected 2 variables (temperature, humidity)")
      else
        match Variables hourly with
        | v0 :: v1 :: _ =>
            let temp_data := ValuesAsNumpy v0 in
            let humidity_data := ValuesAsNumpy v1 in
            if (List.length temp_data =? 0)%nat || (List.length humidity_data =? 0)%nat then
              Raise (Exception "No temperature or humidity data received")
            else
              bind (process_loop temp_data humidity_data lat lon hourly_time 0 [] [])
                (fun '(records, valid) =>
              Ok {| status := "success";
                    meta :=
                      {| meta_latitude := Latitude response;
                         meta_longitude := Longitude response;
                         meta_elevation := Elevation response;
                         meta_timezone_offset := UtcOffsetSeconds response;
                         total_records := List.length records;
                         valid_records := List.length valid;
                         date_range_start := option_map timestamp (hd_error records);
                         date_range_end := option_map timestamp (last (map Some records) None) |};
                    data := valid;
                    sample_data := firstn 5 valid |})
        | _ => Raise (Exception "Expected 2 variables (temperature, humidity)")
        end)
  end.

(** [fetch_weather_data(latitude, longitude, days)] at the instant [now].
    [isinstance(latitude, (int, float))] holds of every [pyfloat]. *)
Definition fetch_weather_data (now : Z) (latitude longitude : pyfloat) (days : Z)
  : M (list api_call) weather_result :=
  (if negb (between (-90 # 1) latitude (90 # 1)) then
     raise (ValueError "Invalid latitude (must be between -90 and 90)")
   else if negb (between (-180 # 1) longitude (180 # 1)) then
     raise (ValueError "Invalid longitude (must be between -180 and 180)")
   else
     match latitude, longitude with
     | Fin lat, Fin lon =>
         let today := (now + utcoffset now) / 86400 in
         let params := {| param_latitude := lat; param_longitude := lon;
                          start_date := today - days; end_date := today |} in
         catch
           (modify (fun log => log ++ [DirectGet params]) ;;;
            status_code <- lift_result (http_get params) ;;
            if negb (status_code =? 200) then
              raise (Exception "API request failed with status")
            else
              modify (fun log => log ++ [ClientCall params]) ;;;
              responses <- lift_result (weather_api params) ;;
              match responses with
              | [] => raise (Exception "No responses received from API")
              | response :: _ => lift_result (_process_response response lat lon)
              end)
           (fun e => raise (Exception ("Weather API error: " ++ str_of_exn e)))
     | _, _ =>
         (* not reached: a NaN is outside both intervals *)
         raise (ValueError "Invalid coordinate types")
     end)%eff.

End Service.

End WeatherService.

(* ================================================================== *)
(** * database.py *)
(* ================================================================== *)

Module WeatherDatabase.
Import Py Eff WeatherService.

(** ** The table [weather_data] *)

Inductive sqltype : Type := INTEGER | TEXT | REAL.

Record column : Type := mkColumn
  { name : string;
    type : sqltype;
    not_null : bool;          (* NOT NULL, or PRIMARY KEY *)
    has_default : bool }.     (* AUTOINCREMENT, or DEFAULT *)

(** [CREATE TABLE IF NOT EXISTS weather_data (...)] *)
Definition weather_data_columns : list column :=
  [ mkColumn "id" INTEGER true true;
    mkColumn "timestamp" TEXT true false;
    mkColumn "latitude" REAL true false;
    mkColumn "longitude" REAL true false;
    mkColumn "temperature_2m" REAL false false;
    mkColumn "relative_humidity_2m" REAL false false;
    mkColumn "created_at" TEXT false true ].

Definition is_not_null (col : string) : bool :=
  existsb (fun c => String.eqb (name c) col && not_null c) weather_data_columns.

(** A row of the table; the columns that the table declares NOT NULL hold a
    value, the nullable ones an [option]. *)
Record weather_row : Type := mkRow
  { id : Z;
    row_timestamp : string;
    row_latitude : Q;
    row_longitude : Q;
    row_temperature_2m : option Q;
    row_relative_humidity_2m : option Q;
    created_at : string }.

(** The database file: the rows in the order of insertion, and the largest
    row id handed out so far (AUTOINCREMENT). *)
Record database : Type := mkDatabase
  { weather_data : list weather_row;
    last_rowid : Z }.

(** [init_database] on a fresh file. *)
Definition init_database : database :=
  {| weather_data := []; last_rowid := 0 |}.

(** ** [INSERT INTO weather_data (timestamp, latitude, longitude,
       temperature_2m, relative_humidity_2m) VALUES (?, ?, ?, ?, ?)]

    A bound parameter is a value or NULL (Python's [None]). *)
Record insert_params : Type := mkInsert
  { bind_timestamp : option string;
    bind_latitude : option Q;
    bind_longitude : option Q;
    bind_temperature_2m : option Q;
    bind_relative_humidity_2m : option Q }.

Definition constraint_failed {A} (col : string) : result A :=
  Raise (IntegrityError ("NOT NULL constraint failed: weather_data." ++ col)).

(** The value of a column that holds one. *)
Definition required {A} (col : string) (v : option A) : result A :=
  match v with
  | Some a => Ok a
  | None => constraint_failed col
  end.

(** The value of a column that may be NULL: the table decides. *)
Definition nullable {A} (col : string) (v : option A) : result (option A) :=
  if is_not_null col && negb (is_not_None v) then constraint_failed col else Ok v.

(** One INSERT within the open transaction, at the instant [now]. *)
Definition execute_insert (now : Z) (p : insert_params) (db : database)
  : result database :=
  bind (required "timestamp" (bind_timestamp p)) (fun ts =>
  bind (required "latitude" (bind_latitude p)) (fun lat =>
  bind (required "longitude" (bind_longitude p)) (fun lon =>
  bind (nullable "temperature_2m" (bind_temperature_2m p)) (fun temp =>
  bind (nullable "relative_humidity_2m" (bind_relative_humidity_2m p)) (fun hum =>
  let rowid := last_rowid db + 1 in
  Ok {| weather_data :=
          weather_data db ++
          [ {| id := rowid;
               row_timestamp := ts;
               row_latitude := lat;
               row_longitude := lon;
               row_temperature_2m := temp;
               row_relative_humidity_2m := hum;
               created_at := strftime_seconds now |} ];
        last_rowid := rowid |}))))).

(** The tuple bound for a record: [record['timestamp']], ... *)
Definition params_of_record (record : weather_record) : insert_params :=
  {| bind_timestamp := Some (timestamp record);
     bind_latitude := Some (latitude record);
     bind_longitude := Some (longitude record);
     bind_temperature_2m := temperature_2m record;
     bind_relative_humidity_2m := relative_humidity_2m record |}.

(** [for record in records: cursor.execute(...); count += 1] *)
Fixpoint insert_loop (now : Z) (records : list weather_record) (db : database)
    (count : nat) : result (database * nat) :=
  match records with
  | [] => Ok (db, count)
  | record :: rest =>
      bind (execute_insert now (params_of_record record) db) (fun db' =>
      insert_loop now rest db' (S count))
  end.

(** [store_weather_data(records)]: the inserts are committed together; when
    one of them raises, the transaction is never committed and the file
    keeps its rows. *)
Definition store_weather_data (now : Z) (records : list weather_record)
  : M database nat :=
  fun db =>
    match insert_loop now records db 0 with
    | Ok (db', count) => (Ok count, db')
    | Raise e => (Raise e, db)
    end.

(** ** Queries *)

Section Queries.

(** SQLite's verdict on
    [datetime(timestamp) >= datetime('now', '-{hours} hours')]
    at the instant [now]. *)
Variable within_hours : Z -> Z -> string -> bool.

Fixpoint insert_desc (r : weather_row) (sorted : list weather_row) : list weather_row :=
  match sorted with
  | [] => [r]
  | x :: rest =>
      if String.leb (row_timestamp x) (row_timestamp r)
      then r :: sorted
      else x :: insert_desc r rest
  end.

(** [ORDER BY timestamp DESC]: the comparison of TEXT values.  Rows with
    equal timestamps keep their order of insertion. *)
Definition order_by_timestamp_desc (rows : list weather_row) : list weather_row :=
  fold_right insert_desc [] rows.

(** [get_recent_data(hours)] *)
Definition get_recent_data (now : Z) (hours : Z) : M database (list weather_row) :=
  gets (fun db =>
    firstn 1000
      (order_by_timestamp_desc
         (filter (fun r => within_hours now hours (row_timestamp r))
                 (weather_data db)))).

End Queries.

(** [get_data_summary()] *)
Record data_summary : Type := mkSummary
  { summary_total_records : nat;
    unique_locations : nat;
    oldest : option string;
    latest : option string;
    locations : list (Q * Q) }.

Definition same_location (a b : Q * Q) : bool :=
  Qeq_bool (fst a) (fst b) && Qeq_bool (snd a) (snd b).

Fixpoint distinct (seen : list (Q * Q)) (l : list (Q * Q)) : list (Q * Q) :=
  match l with
  | [] => []
  | x :: rest =>
      if existsb (same_location x) seen then distinct seen rest
      else x :: distinct (x :: seen) rest
  end.

Definition min_string (l : list string) : option string :=
  fold_right (fun s acc =>
    match acc with
    | None => Some s
    | Some m => Some (if String.ltb s m then s else m)
    end) None l.

Definition max_string (l : list string) : option string :=
  fold_right (fun s acc =>
    match acc with
    | None => Some s
    | Some m => Some (if String.ltb m s then s else m)
    end) None l.

Definition get_data_summary : M database data_summary :=
  gets (fun db =>
    let rows := weather_data db in
    let locs := firstn 10 (distinct [] (map (fun r => (row_latitude r, row_longitude r)) rows)) in
    {| summary_total_records := List.length rows;
       unique_locations := List.length locs;
       oldest := min_string (map row_timestamp rows);
       latest := max_string (map row_timestamp rows);
       locations := locs |}).

End WeatherDatabase.

(* ================================================================== *)
(** * The pandas operations the report services use *)
(* ================================================================== *)

Module Pd.
Import Py.

(** A column of floats: a missing value is [None] (pandas' NaN). *)
Definition dropna (col : list (option Q)) : list Q :=
  flat_map (fun v => match v with Some q => [q] | None => [] end) col.

Definition qmax (a b : Q) : Q := if Qle_bool a b then b else a.
Definition qmin (a b : Q) : Q := if Qle_bool a b then a else b.

Definition qsum (vs : list Q) : Q := fold_left Qplus vs (0 # 1)%Q.

(** [Series.mean()], [Series.max()], [Series.min()]: missing values are
    skipped; of no value at all the result is NaN. *)
Definition mean (col : list (option Q)) : pyfloat :=
  match dropna col with
  | [] => NaN
  | vs => Fin (qsum vs / inject_Z (Z.of_nat (List.length vs)))%Q
  end.

Definition max (col : list (option Q)) : pyfloat :=
  match dropna col with
  | [] => NaN
  | v :: vs => Fin (fold_left qmax vs v)
  end.

Definition min (col : list (option Q)) : pyfloat :=
  match dropna col with
  | [] => NaN
  | v :: vs => Fin (fold_left qmin vs v)
  end.

(** [df.sort_values('timestamp')]: ascending in the parsed timestamp, which
    is the first component of a row of the frame. *)
Section Frame.
Variable R : Type.

Fixpoint insert_asc (r : Z * R) (sorted : list (Z * R)) : list (Z * R) :=
  match sorted with
  | [] => [r]
  | x :: rest =>
      if fst r <? fst x then r :: sorted else x :: insert_asc r rest
  end.

Definition sort_values (df : list (Z * R)) : list (Z * R) :=
  fold_right insert_asc [] df.

End Frame.

(** [pd.to_datetime(column)], value by value. *)
Definition to_datetime_all (to_datetime : string -> result Z) (col : list string)
  : result (list Z) :=
  traverse to_datetime col.

Definition zmin (l : list Z) (d : Z) : Z := fold_right Z.min d l.
Definition zmax (l : list Z) (d : Z) : Z := fold_right Z.max d l.

End Pd.

(* ================================================================== *)
(** * services/excel_service.py *)
(* ================================================================== *)

Module ExcelService.
Import Py Eff WeatherService WeatherDatabase.

(** The sheet that is written: its name, the header row and the data rows
    (timestamp, temperature, humidity).  Fonts, fills and column widths do
    not change the cells and are left out. *)
Record workbook : Type := mkWorkbook
  { sheet_name : string;
    header : list string;
    cells : list (Z * option Q * option Q) }.

Section Excel.

Variable within_hours : Z -> Z -> string -> bool.
(** [pd.to_datetime] on one value; pandas raises a [ValueError] on a string
    that it cannot parse. *)
Variable to_datetime : string -> result Z.

Definition no_data : exn :=
  ValueError "No weather data available for the last hours".

(** [generate_excel_report(db, hours)] *)
Definition generate_excel_report (now : Z) (hours : Z) : M database workbook :=
  (recent_data <- get_recent_data within_hours now hours ;;
   match recent_data with
   | [] => raise no_data
   | _ :: _ =>
       (* columns_to_export = ['timestamp', 'temperature_2m', 'relative_humidity_2m'] *)
       times <- lift_result
                  (Pd.to_datetime_all to_datetime (map row_timestamp recent_data)) ;;
       let df_export :=
         combine times
           (map (fun r => (row_temperature_2m r, row_relative_humidity_2m r))
                recent_data) in
       let df_export := Pd.sort_values df_export in
       (* to_excel(..., index=False, float_format='%.2f') *)
       ret {| sheet_name := "Weather Data";
              header := ["timestamp"; "temperature_2m"; "relative_humidity_2m"]%string;
              cells := map (fun '(t, (temp, hum)) =>
                              (t, option_map (fun x => round x 2) temp,
                                  option_map (fun x => round x 2) hum))
                           df_export |}
   end)%eff.

End Excel.

End ExcelService.

(* ================================================================== *)
(** * services/pdf_service.py *)
(* ================================================================== *)

Module PDFService.
Import Py Eff WeatherService WeatherDatabase.

Record report_metadata : Type := mkReportMetadata
  { location : string;
    date_range : string;
    generated_at : string;
    report_total_records : nat;
    hours_covered : Z }.

Record statistics : Type := mkStatistics
  { avg : pyfloat;
    max : pyfloat;
    min : pyfloat }.

Record stats : Type := mkStats
  { temperature : statistics;
    humidity : statistics }.

(** The HTML page that is turned into the PDF: what the template is filled
    with.  A row of the table is its label, the temperature cell and the
    humidity cell. *)
Record html_content : Type := mkHtml
  { html_metadata : report_metadata;
    html_chart : string;
    html_statistics : list (string * string * string) }.

(** [_generate_html_content(metadata, stats, chart_base64)] *)
Definition _generate_html_content (metadata : report_metadata) (s : stats)
    (chart_base64 : string) : html_content :=
  {| html_metadata := metadata;
     html_chart := chart_base64;
     html_statistics :=
       [ ("Average", format_f 2 (avg (temperature s)), format_f 1 (avg (humidity s)));
         ("Maximum", format_f 2 (max (temperature s)), format_f 1 (max (humidity s)));
         ("Minimum", format_f 2 (min (temperature s)), format_f 1 (min (humidity s))) ]%string |}.

Section Pdf.

Variable utcoffset : Z -> Z.
Variable within_hours : Z -> Z -> string -> bool.
Variable to_datetime : string -> result Z.
(** [_create_weather_chart(df)]: the chart as base64 text, or the empty
    string when matplotlib fails. *)
Variable _create_weather_chart : list (Z * weather_row) -> string.

Definition no_data : exn :=
  ValueError "No weather data available for the last hours".

(** The statistics of the frame. *)
Definition compute_stats (df : list (Z * weather_row)) : stats :=
  let temp := map (fun r => row_temperature_2m (snd r)) df in
  let hum := map (fun r => row_relative_humidity_2m (snd r)) df in
  {| temperature := {| avg := Pd.mean temp; max := Pd.max temp; min := Pd.min temp |};
     humidity := {| avg := Pd.mean hum; max := Pd.max hum; min := Pd.min hum |} |}.

(** [generate_pdf_report(db, hours)]: the page handed to the PDF writer. *)
Definition generate_pdf_report (now : Z) (hours : Z) : M database html_content :=
  (recent_data <- get_recent_data within_hours now hours ;;
   match recent_data with
   | [] => raise no_data
   | _ :: _ =>
       times <- lift_result
                  (Pd.to_datetime_all to_datetime (map row_timestamp recent_data)) ;;
       let df := Pd.sort_values (combine times recent_data) in
       let chart_base64 := _create_weather_chart df in
       match df with
       | [] => raise (Exception "single positional indexer is out-of-bounds")
       | (t0, first) :: _ =>
           let metadata :=
             {| location :=
                  ("Lat: " ++ format_f 4 (Fin (row_latitude first))
                   ++ ", Lon: " ++ format_f 4 (Fin (row_longitude first)))%string;
                date_range :=
                  (strftime_minutes (Pd.zmin (map fst df) t0) ++ " to "
                   ++ strftime_minutes (Pd.zmax (map fst df) t0))%string;
                generated_at := strftime_seconds (now + utcoffset now);
                report_total_records := List.length df;
                hours_covered := hours |} in
           ret (_generate_html_content metadata (compute_stats df) chart_base64)
       end
   end)%eff.

End Pdf.

End PDFService.

(* ================================================================== *)
(** * app.py *)
(* ================================================================== *)

Module App.
Import Py Eff WeatherService WeatherDatabase.

(** What a request can touch: the database file and the weather API, of
    which the calls made are logged. *)
Record world : Type := mkWorld
  { db : database;
    api_log : list api_call }.

Definition on_db {A} (m : M database A) : M world A :=
  zoom db (fun d w => {| db := d; api_log := api_log w |}) m.

Definition on_api {A} (m : M (list api_call) A) : M world A :=
  zoom api_log (fun l w => {| db := db w; api_log := l |}) m.

Inductive body : Type :=
| ErrorJson (error : string) (message : option string)
| ReportJson (result : weather_result) (database_stored : nat)
| ExcelFile (file : ExcelService.workbook)
| PdfFile (file : PDFService.html_content)
| SummaryJson (summary : data_summary)
| RecentJson (hours_requested : Z) (records_found : nat) (rows : list weather_row)
| InfoJson (message : string).

Record response : Type := mkResponse
  { status_code : Z;
    json : body }.

Section Handlers.

Variable utcoffset : Z -> Z.
Variable http_get : api_params -> result Z.
Variable weather_api : api_params -> result (list WeatherApiResponse).
Variable within_hours : Z -> Z -> string -> bool.
Variable to_datetime : string -> result Z.
Variable _create_weather_chart : list (Z * weather_row) -> string.

(** [request.args.get('hours', default=48, type=int)]: the argument is
    [None] when it is absent or not an integer. *)
Definition hours_or_default (hours : option Z) : Z :=
  match hours with Some h => h | None => 48 end.

(** [GET /weather-report?lat=..&lon=..] at the instant [now]; an argument is
    [None] when it is absent or not a float. *)
Definition get_weather_report (now : Z) (lat lon : option pyfloat) : M world response :=
  (catch
     match lat, lon with
     | Some lat, Some lon =>
         if negb (between (-90 # 1) lat (90 # 1)) then
           ret (mkResponse 400 (ErrorJson "Invalid latitude (-90 to 90)" None))
         else if negb (between (-180 # 1) lon (180 # 1)) then
           ret (mkResponse 400 (ErrorJson "Invalid longitude (-180 to 180)" None))
         else
           result <- on_api (fetch_weather_data utcoffset http_get weather_api
                               now lat lon 2) ;;
           match data result with
           | _ :: _ =>
               stored <- on_db (store_weather_data now (data result)) ;;
               ret (mkResponse 200 (ReportJson result stored))
           | [] => ret (mkResponse 200 (ReportJson result 0))
           end
     | _, _ =>
         ret (mkResponse 400
                (ErrorJson "Missing parameters"
                   (Some "Both 'lat' and 'lon' parameters required"%string)))
     end
     (fun e =>
        ret (mkResponse 500
               (ErrorJson "Failed to fetch weather data" (Some (str_of_exn e))))))%eff.

(** [GET /export/excel?hours=..] *)
Definition export_excel (now : Z) (hours : option Z) : M world response :=
  (catch
     (let hours := hours_or_default hours in
      if (hours <=? 0) || (168 <? hours) then
        ret (mkResponse 400 (ErrorJson "Invalid hours parameter (1-168)" None))
      else
        excel_file <- on_db (ExcelService.generate_excel_report
                               within_hours to_datetime now hours) ;;
        ret (mkResponse 200 (ExcelFile excel_file)))
     (fun e =>
        if is_ValueError e then
          ret (mkResponse 404 (ErrorJson "No data available" (Some (str_of_exn e))))
        else
          ret (mkResponse 500
                 (ErrorJson "Failed to generate Excel report" (Some (str_of_exn e))))))%eff.

(** [GET /export/pdf?hours=..] *)
Definition export_pdf (now : Z) (hours : option Z) : M world response :=
  (catch
     (let hours := hours_or_default hours in
      if (hours <=? 0) || (168 <? hours) then
        ret (mkResponse 400 (ErrorJson "Invalid hours parameter (1-168)" None))
      else
        pdf_file <- on_db (PDFService.generate_pdf_report
                             utcoffset within_hours to_datetime
                             _create_weather_chart now hours) ;;
        ret (mkResponse 200 (PdfFile pdf_file)))
     (fun e =>
        if is_ValueError e then
          ret (mkResponse 404 (ErrorJson "No data available" (Some (str_of_exn e))))
        else
          ret (mkResponse 500
                 (ErrorJson "Failed to generate PDF report" (Some (str_of_exn e))))))%eff.

(** [GET /data/summary] *)
Definition get_data_summary : M world response :=
  (catch
     (summary <- on_db WeatherDatabase.get_data_summary ;;
      ret (mkResponse 200 (SummaryJson summary)))
     (fun e => ret (mkResponse 500 (ErrorJson (str_of_exn e) None))))%eff.

(** [GET /data/recent?hours=..] *)
Definition get_recent_data (now : Z) (hours : option Z) : M world response :=
  (catch
     (let hours := hours_or_default hours in
      if (hours <=? 0) || (168 <? hours) then
        ret (mkResponse 400 (ErrorJson "Invalid hours parameter (1-168)" None))
      else
        rows <- on_db (WeatherDatabase.get_recent_data within_hours now hours) ;;
        ret (mkResponse 200 (RecentJson hours (List.length rows) (firstn 10 rows))))
     (fun e => ret (mkResponse 500 (ErrorJson (str_of_exn e) None))))%eff.

(** [GET /] and [GET /health] *)
Definition home : M world response :=
  ret (mkResponse 200 (InfoJson "Weather Service API")).

Definition health : M world response :=
  ret (mkResponse 200 (InfoJson "healthy")).

(** The routes of the service. *)
Inductive request : Type :=
| GetHome
| GetWeatherReport (lat lon : option pyfloat)
| GetExportExcel (hours : option Z)
| GetExportPdf (hours : option Z)
| GetDataSummary
| GetDataRecent (hours : option Z)
| GetHealth.

Definition handle (now : Z) (req : request) : M world response :=
  match req with
  | GetHome => home
  | GetWeatherReport lat lon => get_weather_report now lat lon
  | GetExportExcel hours => export_excel now hours
  | GetExportPdf hours => export_pdf now hours
  | GetDataSummary => get_data_summary
  | GetDataRecent hours => get_recent_data now hours
  | GetHealth => health
  end.

(** The service from a state of the world, through a sequence of requests
    with their instants. *)
Fixpoint serve (reqs : list (Z * request)) (w : world) : world :=
  match reqs with
  | [] => w
  | (now, req) :: rest => serve rest (snd (handle now req w))
  end.

End Handlers.

End App.

(* ================================================================== *)
(** * The vocabulary of the properties *)
(* ================================================================== *)

Module Spec.
Import Py Eff WeatherService WeatherDatabase.

(** [r] is [x] rounded to [d] decimal places: a whole number of units of
    [10^-d], at most half a unit away from [x]. *)
Definition rounded_to (d : nat) (x r : Q) : Prop :=
  (exists n : Z, r == inject_Z n / inject_Z (Zpos (pow10 d)))%Q
  /\ (Qabs (r - x) <= 1 # (2 * pow10 d))%Q.

(** The hourly block of a response with its first two value arrays:
    temperature and humidity. *)
Definition hourly_arrays (response : WeatherApiResponse)
  : option (VariablesWithTime * list pyfloat * list pyfloat) :=
  match Hourly response with
  | Some hourly =>
      match Variables hourly with
      | v0 :: v1 :: _ => Some (hourly, ValuesAsNumpy v0, ValuesAsNumpy v1)
      | _ => None
      end
  | None => None
  end.

Definition temperature_data (response : WeatherApiResponse) : list pyfloat :=
  match hourly_arrays response with Some (_, t, _) => t | None => [] end.

Definition humidity_data (response : WeatherApiResponse) : list pyfloat :=
  match hourly_arrays response with Some (_, _, h) => h | None => [] end.

(** The time points of the range of a response. *)
Definition time_points (response : WeatherApiResponse) : list Z :=
  match Hourly response with
  | Some hourly =>
      match range (Time hourly) (TimeEnd hourly) (Interval hourly) with
      | Ok times => times
      | Raise _ => []
      end
  | None => []
  end.

(** The list [records] at the end of the loop of [_process_response]. *)
Definition all_records (utcoffset : Z -> Z) (response : WeatherApiResponse)
    (lat lon : Q) : list weather_record :=
  match
    process_loop utcoffset (temperature_data response) (humidity_data response)
      lat lon (time_points response) 0 [] []
  with
  | Ok (records, _) => records
  | Raise _ => []
  end.

(** The record of one aligned triple: a time point with the temperature and
    the humidity of the same index. *)
Definition aligned_record (utcoffset : Z -> Z) (lat lon : Q)
    (x : Z * pyfloat * pyfloat) : result weather_record :=
  let '(time, t, h) := x in
  make_record utcoffset lat lon time (float_or_None t) (float_or_None h).

(** Both values of a record are there. *)
Definition both_present (r : weather_record) : bool :=
  is_not_None (temperature_2m r) && is_not_None (relative_humidity_2m r).

(** A response that the normalization accepts: it has an hourly block with
    a non-zero interval and two non-empty value arrays, and the time points
    that get a record are dates of the years 1 to 9999 in local time. *)
Definition normalizable (utcoffset : Z -> Z) (response : WeatherApiResponse) : Prop :=
  exists hourly temp hum,
    hourly_arrays response = Some (hourly, temp, hum)
    /\ Interval hourly <> 0
    /\ temp <> [] /\ hum <> []
    /\ Forall (fun time => exists dt, fromtimestamp utcoffset time = Ok dt)
         (firstn (Nat.min (List.length temp) (List.length hum))
                 (time_points response)).

(** The record that a row of the table stores. *)
Definition record_of_row (row : weather_row) : weather_record :=
  {| timestamp := row_timestamp row;
     temperature_2m := row_temperature_2m row;
     relative_humidity_2m := row_relative_humidity_2m row;
     latitude := row_latitude row;
     longitude := row_longitude row |}.

(** The row written for a record. *)
Definition row_of_record (now : Z) (rowid : Z) (record : weather_record) : weather_row :=
  {| id := rowid;
     row_timestamp := timestamp record;
     row_latitude := latitude record;
     row_longitude := longitude record;
     row_temperature_2m := temperature_2m record;
     row_relative_humidity_2m := relative_humidity_2m record;
     created_at := strftime_seconds now |}.

(** The rows written for a list of records, the first with the row id
    [rowid]. *)
Fixpoint rows_of_records (now : Z) (rowid : Z) (records : list weather_record)
  : list weather_row :=
  match records with
  | [] => []
  | record :: rest =>
      row_of_record now rowid record :: rows_of_records now (rowid + 1) rest
  end.

(** The rows that [get_recent_data] returns. *)
Definition recent_rows (within_hours : Z -> Z -> string -> bool) (now hours : Z)
    (db : database) : list weather_row :=
  firstn 1000
    (order_by_timestamp_desc
       (filter (fun r => within_hours now hours (row_timestamp r))
               (weather_data db))).

(** Every timestamp in the table is an ISO-8601 text. *)
Definition all_iso (d : database) : Prop :=
  Forall (fun row => is_iso8601 (row_timestamp row) = true) (weather_data d).

(** The table only grew: the old rows are there, unchanged and in place. *)
Definition extends (old new : database) : Prop :=
  exists added, weather_data new = weather_data old ++ added.





(** A float within [[a, b]]: NaN is within no interval. *)
Definition within (a b : Q) (x : pyfloat) : Prop :=
  exists q, x = Fin q /\ (a <= q)%Q /\ (q <= b)%Q.

(** ** Checks by enumeration *)

(** [f] holds of [0], ..., [n - 1]. *)
Definition holds_below (f : Z -> bool) (n : N) : Z * bool :=
  N.iter n (fun '(i, ok) => (i + 1, ok && f i)) (0, true).

(** The date of a day of the 400-year cycle is a date of the calendar. *)
Definition doe_ok (doe : Z) : bool :=
  let '(y, m, d) := civil_of_doe doe in
  valid_date y m d && (0 <=? y) && (y <=? 400).

End Spec.

(* ================================================================== *)
(** * A sample environment *)
(* ================================================================== *)

(** A machine one hour east of UTC, an API that answers every call with the
    same three hourly values (one temperature is missing), and date parsers
    that read the timestamps the service writes. *)
Module Sample.
Import Py Eff WeatherService WeatherDatabase.

Definition utcoffset : Z -> Z := fun _ => 3600.

Definition now : Z := 1700010000.

Definition hourly : VariablesWithTime :=
  {| Time := 1700000000;
     TimeEnd := 1700010800;
     Interval := 3600;
     Variables :=
       [ mkVariable [Fin (12345 # 1000); NaN; Fin (71 # 10)];
         mkVariable [Fin (8025 # 100); Fin (75 # 1); Fin (6005 # 100)] ] |}.

Definition api_response : WeatherApiResponse :=
  {| Latitude := Fin (4738 # 100);
     Longitude := Fin (8 # 1);
     Elevation := Fin (450 # 1);
     UtcOffsetSeconds := 3600;
     Hourly := Some hourly |}.

Definition http_get : api_params -> result Z := fun _ => Ok 200.

Definition weather_api : api_params -> result (list WeatherApiResponse) :=
  fun _ => Ok [api_response].

Definition within_hours (now hours : Z) (timestamp : string) : bool :=
  match parse_iso8601 timestamp with
  | Some dt => now - hours * 3600 <=? seconds_of_datetime dt
  | None => false
  end.

Definition to_datetime (s : string) : result Z :=
  match parse_iso8601 s with
  | Some dt => Ok (seconds_of_datetime dt)
  | None => Raise (ValueError "Unknown datetime string format")
  end.

Definition _create_weather_chart : list (Z * weather_row) -> string :=
  fun _ => EmptyString.

Definition lat : Q := 4737 # 100.
Definition lon : Q := 8 # 1.

Definition world0 : App.world :=
  {| App.db := init_database; App.api_log := [] |}.

Definition handle : Z -> App.request -> M App.world App.response :=
  App.handle utcoffset http_get weather_api within_hours to_datetime
    _create_weather_chart.

(** The world after one successful weather report. *)
Definition world1 : App.world :=
  snd (handle now (App.GetWeatherReport (Some (Fin lat)) (Some (Fin lon))) world0).

End Sample.

(* ================================================================== *)
(** * More vocabulary: the table, the routes, the calls *)
(* ================================================================== *)

Module Props.
Import Py Eff WeatherService WeatherDatabase Spec.

(** [a] is at least as recent as [b] in the order of the TEXT column. *)
Definition newer_or_same (a b : weather_row) : Prop :=
  String.leb (row_timestamp b) (row_timestamp a) = true.

(** The rows of the table that are within the window. *)
Definition rows_within (within_hours : Z -> Z -> string -> bool) (now hours : Z)
    (d : database) : list weather_row :=
  filter (fun r => within_hours now hours (row_timestamp r)) (weather_data d).

(** The row ids of a table that was only appended to: the i-th row, counted
    from 1, has the id i, and the largest id handed out is the number of
    rows. *)
Definition ids_count_rows (d : database) : Prop :=
  (forall i row, nth_error (weather_data d) i = Some row -> id row = Z.of_nat i + 1)
  /\ last_rowid d = Z.of_nat (List.length (weather_data d)).

(** A row with both values, and with coordinates on the globe. *)
Definition complete_row (row : weather_row) : Prop :=
  row_temperature_2m row <> None /\ row_relative_humidity_2m row <> None.

Definition row_on_globe (row : weather_row) : Prop :=
  ((-90 # 1) <= row_latitude row /\ row_latitude row <= (90 # 1)
   /\ (-180 # 1) <= row_longitude row /\ row_longitude row <= (180 # 1))%Q.


(** The status codes the handlers answer with. *)
Definition known_status (code : Z) : Prop :=
  code = 200 \/ code = 400 \/ code = 404 \/ code = 500.

Definition is_weather_report (req : App.request) : bool :=
  match req with App.GetWeatherReport _ _ => true | _ => false end.

Definition count_weather_reports (reqs : list (Z * App.request)) : nat :=
  List.length (filter (fun r => is_weather_report (snd r)) reqs).

(** The two values of a row as the spreadsheet shows them. *)
Definition excel_values (row : weather_row) : option Q * option Q :=
  (option_map (fun x => round x 2) (row_temperature_2m row),
   option_map (fun x => round x 2) (row_relative_humidity_2m row)).

(** The cell of a row of the spreadsheet whose timestamp pandas read as [t]. *)
Definition excel_cell (t : Z) (row : weather_row) : Z * option Q * option Q :=
  (t, fst (excel_values row), snd (excel_values row)).

(** A record as the normalization builds it, for the examples. *)
Definition sample_record : weather_record :=
  {| timestamp := "2023-11-14T23:13:20";
     temperature_2m := Some (1234 # 100)%Q;
     relative_humidity_2m := Some (802 # 10)%Q;
     latitude := Sample.lat;
     longitude := Sample.lon |}.

End Props.

(* ================================================================== *)
(** * Facts about the Python builtins *)
(* ================================================================== *)

Unset Implicit Arguments.

Module PyFacts.
Import Py Spec.

(** ** Rounding *)

Lemma round_half_even_close (x : Q) :
  (Qabs (inject_Z (round_half_even x) - x) <= 1 # 2)%Q.
Proof.
  unfold round_half_even.
  pose proof (Qfloor_le x) as Hlo.
  pose proof (Qlt_floor x) as Hhi.
  rewrite inject_Z_plus in Hhi.
  set (f := Qfloor x) in *.
  apply Qabs_Qle_condition.
  destruct (Qcompare (x - inject_Z f) (1 # 2)) eqn:Hc.
  - apply Qeq_alt in Hc.
    destruct (Z.even f); [| rewrite inject_Z_plus];
      change (inject_Z 1) with (1 # 1)%Q in *; split; lra.
  - apply Qlt_alt in Hc. split; lra.
  - apply Qgt_alt in Hc. rewrite inject_Z_plus.
    change (inject_Z 1) with (1 # 1)%Q in *. split; lra.
Qed.

Lemma round_rounded_to (d : nat) (x : Q) : rounded_to d x (round x d).
Proof.
  unfold rounded_to, round.
  set (p := pow10 d).
  set (n := round_half_even (x * inject_Z (Zpos p))).
  split.
  - exists n. apply Qmake_Qdiv.
  - pose proof (round_half_even_close (x * inject_Z (Zpos p))) as H.
    fold n in H.
    apply Qabs_Qle_condition in H. destruct H as [H1 H2].
    apply Qabs_Qle_condition.
    assert (Hp : (0 < inject_Z (Zpos p))%Q) by reflexivity.
    assert (Hn : (n # p == inject_Z n / inject_Z (Zpos p))%Q) by apply Qmake_Qdiv.
    assert (Hh : (1 # (2 * p) == (1 # 2) / inject_Z (Zpos p))%Q).
    { unfold Qeq, Qdiv, Qmult, Qinv; simpl. lia. }
    rewrite Hn, Hh.
    split.
    + apply Qle_minus_iff.
      setoid_replace (inject_Z n / inject_Z (Zpos p) - x + - - ((1 # 2) / inject_Z (Zpos p)))%Q
        with ((inject_Z n - x * inject_Z (Zpos p) + (1 # 2)) / inject_Z (Zpos p))%Q
        by (field; lra).
      apply Qle_shift_div_l; [exact Hp | lra].
    + apply Qle_minus_iff.
      setoid_replace ((1 # 2) / inject_Z (Zpos p) + - (inject_Z n / inject_Z (Zpos p) - x))%Q
        with (((1 # 2) - (inject_Z n - x * inject_Z (Zpos p))) / inject_Z (Zpos p))%Q
        by (field; lra).
      apply Qle_shift_div_l; [exact Hp | lra].
Qed.

(** ** The calendar *)

Lemma holds_below_spec (f : Z -> bool) (n : N) :
  fst (holds_below f n) = Z.of_N n
  /\ (snd (holds_below f n) = true -> forall i, 0 <= i < Z.of_N n -> f i = true).
Proof.
  unfold holds_below.
  induction n as [| n IH] using N.peano_ind.
  - simpl. split; [reflexivity | intros; lia].
  - rewrite N.iter_succ.
    destruct (N.iter n _ _) as [j ok]. simpl in *.
    destruct IH as [Hj IH]. subst j.
    split; [lia |].
    intros H i Hi.
    apply andb_true_iff in H. destruct H as [Hok Hf].
    destruct (Z.eq_dec i (Z.of_N n)) as [-> | Hne]; [exact Hf |].
    apply IH; [exact Hok | lia].
Qed.

Lemma doe_ok_all : snd (holds_below doe_ok 146097) = true.
Proof. vm_compute. reflexivity. Qed.

Lemma civil_of_doe_valid (doe : Z) :
  0 <= doe < 146097 -> doe_ok doe = true.
Proof.
  intros H.
  apply (proj2 (holds_below_spec doe_ok 146097) doe_ok_all). lia.
Qed.

Lemma is_leap_shift (y k : Z) : is_leap (y + 400 * k) = is_leap y.
Proof.
  unfold is_leap.
  replace ((y + 400 * k) mod 4) with (y mod 4)
    by (replace (y + 400 * k) with (y + (100 * k) * 4) by ring;
        symmetry; apply Z_mod_plus_full).
  replace ((y + 400 * k) mod 100) with (y mod 100)
    by (replace (y + 400 * k) with (y + (4 * k) * 100) by ring;
        symmetry; apply Z_mod_plus_full).
  replace ((y + 400 * k) mod 400) with (y mod 400)
    by (replace (y + 400 * k) with (y + k * 400) by ring;
        symmetry; apply Z_mod_plus_full).
  reflexivity.
Qed.

Lemma civil_from_days_valid (days : Z) :
  let '(y, m, d) := civil_from_days days in valid_date y m d = true.
Proof.
  unfold civil_from_days.
  set (z := days + 719468).
  pose proof (civil_of_doe_valid (z mod 146097)) as H.
  unfold doe_ok in H.
  destruct (civil_of_doe (z mod 146097)) as [[y m] d].
  assert (Hr : 0 <= z mod 146097 < 146097) by (apply Z.mod_pos_bound; lia).
  specialize (H Hr).
  apply andb_true_iff in H. destruct H as [H _].
  apply andb_true_iff in H. destruct H as [H _].
  unfold valid_date in *. unfold days_in_month in *.
  rewrite is_leap_shift. exact H.
Qed.

Lemma time_of_day_valid (s : Z) :
  0 <= s < 86400 -> valid_time (s / 3600) (s mod 3600 / 60) (s mod 60) = true.
Proof.
  intros H. unfold valid_time.
  repeat (apply andb_true_intro; split);
    first [apply Z.leb_le | apply Z.ltb_lt];
    Z.to_euclidean_division_equations; lia.
Qed.

(** ** Writing and reading the fields *)

Lemma digit_val_digit (n : Z) : digit_val (digit n) = Some (n mod 10).
Proof.
  unfold digit.
  pose proof (Z.mod_pos_bound n 10 ltac:(lia)) as H.
  set (k := n mod 10) in *.
  assert (Hk : k = 0 \/ k = 1 \/ k = 2 \/ k = 3 \/ k = 4 \/ k = 5 \/ k = 6
               \/ k = 7 \/ k = 8 \/ k = 9) by lia.
  repeat (destruct Hk as [-> | Hk]; [reflexivity |]).
  subst k. rewrite Hk. reflexivity.
Qed.

Lemma digits_pad2 (n acc : Z) (rest : string) :
  0 <= n < 100 ->
  digits 2 acc (pad2 n ++ rest) = Some (100 * acc + n, rest).
Proof.
  intros H. unfold pad2. cbn [digits append].
  rewrite !digit_val_digit. do 2 f_equal.
  Z.to_euclidean_division_equations; lia.
Qed.

Lemma digits_pad4 (n : Z) (rest : string) :
  0 <= n < 10000 -> digits 4 0 (pad4 n ++ rest) = Some (n, rest).
Proof.
  intros H. unfold pad4, pad2. cbn [digits append].
  rewrite !digit_val_digit. do 2 f_equal.
  Z.to_euclidean_division_equations; lia.
Qed.

Lemma parse_isoformat (dt : datetime) :
  0 <= year dt < 10000 -> 0 <= month dt < 100 -> 0 <= day dt < 100 ->
  0 <= hour dt < 100 -> 0 <= minute dt < 100 -> 0 <= second dt < 100 ->
  parse_iso8601 (isoformat dt) = Some dt.
Proof.
  intros Hy Hm Hd Hh Hmi Hs.
  destruct dt as [y m d h mi s].
  cbn [year month day hour minute second] in *.
  unfold parse_iso8601, isoformat.
  cbn [year month day hour minute second].
  rewrite digits_pad4 by assumption. cbn [obind append expect Ascii.eqb Bool.eqb].
  rewrite digits_pad2 by assumption. cbn [obind append expect Ascii.eqb Bool.eqb].
  rewrite digits_pad2 by assumption. cbn [obind append expect Ascii.eqb Bool.eqb].
  rewrite digits_pad2 by assumption. cbn [obind append expect Ascii.eqb Bool.eqb].
  rewrite digits_pad2 by assumption. cbn [obind append expect Ascii.eqb Bool.eqb].
  replace (pad2 s) with (pad2 s ++ "")%string
    by (unfold pad2; reflexivity).
  rewrite digits_pad2 by assumption. cbn [obind].
  reflexivity.
Qed.

Lemma valid_datetime_ranges (dt : datetime) :
  valid_datetime dt = true ->
  0 <= month dt < 100 /\ 0 <= day dt < 100 /\ 0 <= hour dt < 100
  /\ 0 <= minute dt < 100 /\ 0 <= second dt < 100.
Proof.
  unfold valid_datetime, valid_date, valid_time, days_in_month.
  intros H.
  repeat (apply andb_true_iff in H; destruct H as [H ?]).
  repeat match goal with
         | H : (_ <=? _) = true |- _ => apply Z.leb_le in H
         | H : (_ <? _) = true |- _ => apply Z.ltb_lt in H
         end.
  destruct (month dt =? 2); [destruct (is_leap (year dt)) |];
    try destruct (_ || _); lia.
Qed.

Section Fromtimestamp.
Variable utcoffset : Z -> Z.

Lemma fromtimestamp_valid (time : Z) (dt : datetime) :
  fromtimestamp utcoffset time = Ok dt ->
  valid_datetime dt = true /\ 1 <= year dt <= 9999.
Proof.
  unfold fromtimestamp.
  set (local := time + utcoffset time).
  pose proof (civil_from_days_valid (local / 86400)) as Hd.
  destruct (civil_from_days (local / 86400)) as [[y m] d].
  destruct ((1 <=? y) && (y <=? 9999)) eqn:Hy; [| discriminate].
  intros H. injection H as <-.
  unfold valid_datetime. cbn [year month day hour minute second].
  rewrite Hd, time_of_day_valid by (apply Z.mod_pos_bound; lia).
  apply andb_true_iff in Hy. destruct Hy as [H1 H2].
  apply Z.leb_le in H1. apply Z.leb_le in H2. auto.
Qed.

Lemma fromtimestamp_isoformat (time : Z) (dt : datetime) :
  fromtimestamp utcoffset time = Ok dt -> is_iso8601 (isoformat dt) = true.
Proof.
  intros H. apply fromtimestamp_valid in H. destruct H as [Hv Hy].
  unfold is_iso8601.
  pose proof (valid_datetime_ranges dt Hv) as (? & ? & ? & ? & ?).
  rewrite parse_isoformat by lia. exact Hv.
Qed.

End Fromtimestamp.

End PyFacts.

(* ================================================================== *)
(** * Facts about the normalization *)
(* ================================================================== *)

Module WeatherServiceFacts.
Import Py Eff WeatherService Spec PyFacts.

(** ** Lists *)

Lemma traverse_length {A B} (f : A -> result B) (l : list A) (ys : list B) :
  traverse f l = Ok ys -> List.length ys = List.length l.
Proof.
  revert ys. induction l as [| x l IH]; intros ys H; simpl in H.
  - injection H as <-. reflexivity.
  - destruct (f x) as [y | e]; [| discriminate]. simpl in H.
    destruct (traverse f l) as [ys' | e]; [| discriminate]. simpl in H.
    injection H as <-. simpl. f_equal. apply IH. reflexivity.
Qed.

Lemma traverse_nth_error {A B} (f : A -> result B) (l : list A) (ys : list B) :
  traverse f l = Ok ys ->
  forall i y, nth_error ys i = Some y ->
    exists x, nth_error l i = Some x /\ f x = Ok y.
Proof.
  revert ys. induction l as [| x l IH]; intros ys H i y Hy; simpl in H.
  - injection H as <-. destruct i; discriminate.
  - destruct (f x) as [y0 | e] eqn:Hx; [| discriminate]. simpl in H.
    destruct (traverse f l) as [ys' | e]; [| discriminate]. simpl in H.
    injection H as <-.
    destruct i as [| i]; simpl in *.
    + injection Hy as <-. exists x. auto.
    + eapply IH; eauto.
Qed.

Lemma traverse_total {A B} (f : A -> result B) (l : list A) :
  Forall (fun x => exists y, f x = Ok y) l -> exists ys, traverse f l = Ok ys.
Proof.
  induction 1 as [| x l [y Hy] _ [ys IH]]; simpl.
  - eauto.
  - rewrite Hy, IH. simpl. eauto.
Qed.

Lemma nth_error_combine {A B} (l : list A) (l' : list B) i a b :
  nth_error (combine l l') i = Some (a, b) ->
  nth_error l i = Some a /\ nth_error l' i = Some b.
Proof.
  revert l' i. induction l as [| x l IH]; intros [| y l'] [| i] H;
    simpl in *; try discriminate.
  - injection H as -> ->. auto.
  - auto.
Qed.

Lemma skipn_cons_nth_error {A} (l : list A) i x :
  nth_error l i = Some x -> skipn i l = x :: skipn (S i) l.
Proof.
  revert i. induction l as [| y l IH]; intros [| i] H; simpl in *;
    try discriminate.
  - injection H as ->. reflexivity.
  - rewrite (IH i H). reflexivity.
Qed.

Lemma skipn_nth_error_None {A} (l : list A) i :
  nth_error l i = None -> skipn i l = [] /\ skipn (S i) l = [].
Proof.
  intros H. apply nth_error_None in H.
  split; apply skipn_all2; lia.
Qed.

Lemma aligned_times {A B} (times : list Z) (l : list A) (l' : list B) :
  map (fun x => fst (fst x)) (combine (combine times l) l')
  = firstn (Nat.min (List.length l) (List.length l')) times.
Proof.
  revert l l'. induction times as [| t times IH]; intros l l'.
  - rewrite firstn_nil. reflexivity.
  - destruct l as [| a l]; [reflexivity |].
    destruct l' as [| b l']; [reflexivity |].
    simpl. f_equal. apply IH.
Qed.

Section Normalisation.

Variable utcoffset : Z -> Z.

Lemma make_record_fields lat lon time temp humidity record :
  make_record utcoffset lat lon time temp humidity = Ok record ->
  exists dt,
    fromtimestamp utcoffset time = Ok dt
    /\ timestamp record = isoformat dt
    /\ temperature_2m record = option_map (fun t => round t 2) temp
    /\ relative_humidity_2m record = option_map (fun h => round h 1) humidity
    /\ latitude record = lat /\ longitude record = lon.
Proof.
  unfold make_record.
  destruct (fromtimestamp utcoffset time) as [dt | e]; [| discriminate].
  simpl. intros H. injection H as <-. exists dt. simpl. auto 6.
Qed.

Lemma make_record_both_present lat lon time temp humidity record :
  make_record utcoffset lat lon time temp humidity = Ok record ->
  both_present record = is_not_None temp && is_not_None humidity.
Proof.
  intros H. apply make_record_fields in H.
  destruct H as (dt & _ & _ & Ht & Hh & _).
  unfold both_present. rewrite Ht, Hh.
  destruct temp, humidity; reflexivity.
Qed.

(** The loop builds the records of the aligned triples, in order, and keeps
    among them those with both values. *)
Lemma process_loop_traverse temp_data humidity_data lat lon :
  forall hourly_time i records valid,
    process_loop utcoffset temp_data humidity_data lat lon hourly_time i records valid
    = bind (traverse (aligned_record utcoffset lat lon)
              (combine (combine hourly_time (skipn i temp_data))
                       (skipn i humidity_data)))
        (fun new => Ok (records ++ new, valid ++ filter both_present new)).
Proof.
  induction hourly_time as [| time rest IH]; intros i records valid.
  - simpl. rewrite !app_nil_r. reflexivity.
  - cbn [process_loop].
    destruct (nth_error temp_data i) as [t |] eqn:Ht.
    + destruct (nth_error humidity_data i) as [h |] eqn:Hh.
      * rewrite (skipn_cons_nth_error _ _ _ Ht), (skipn_cons_nth_error _ _ _ Hh).
        cbn [combine traverse aligned_record].
        destruct (make_record utcoffset lat lon time (float_or_None t) (float_or_None h))
          as [record | e] eqn:Hr; [| reflexivity].
        cbn [bind]. rewrite IH.
        destruct (traverse _ _) as [new | e]; [| reflexivity].
        cbn [bind filter].
        rewrite (make_record_both_present _ _ _ _ _ _ Hr).
        rewrite <- app_assoc. cbn [app].
        destruct (is_not_None (float_or_None t) && is_not_None (float_or_None h));
          [rewrite <- app_assoc |]; reflexivity.
      * destruct (skipn_nth_error_None _ _ Hh) as [-> E].
        rewrite IH, E, !combine_nil. simpl. rewrite !app_nil_r. reflexivity.
    + destruct (skipn_nth_error_None _ _ Ht) as [-> E].
      rewrite IH, E. rewrite combine_nil. simpl. rewrite !app_nil_r. reflexivity.
Qed.

(** What a returned result says of the response it was built from. *)
Lemma process_response_inv response lat lon res :
  _process_response utcoffset response lat lon = Ok res ->
  exists hourly temp hum records,
    hourly_arrays response = Some (hourly, temp, hum)
    /\ Interval hourly <> 0
    /\ temp <> [] /\ hum <> []
    /\ traverse (aligned_record utcoffset lat lon)
         (combine (combine (time_points response) temp) hum) = Ok records
    /\ all_records utcoffset response lat lon = records
    /\ data res = filter both_present records
    /\ total_records (meta res) = List.length records
    /\ valid_records (meta res) = List.length (data res).
Proof.
  unfold _process_response, all_records, temperature_data, humidity_data,
    time_points, hourly_arrays.
  destruct (Hourly response) as [hourly |]; [| discriminate].
  unfold range.
  destruct (Interval hourly =? 0) eqn:Hstep; [discriminate |].
  cbn [bind].
  destruct (VariablesLength hourly <? 2)%nat; [discriminate |].
  destruct (Variables hourly) as [| v0 [| v1 vars]]; try discriminate.
  destruct (ValuesAsNumpy v0) as [| t0 temp] eqn:Ht.
  { simpl. discriminate. }
  destruct (ValuesAsNumpy v1) as [| h0 hum] eqn:Hh.
  { simpl. discriminate. }
  cbn [List.length Nat.eqb orb].
  rewrite process_loop_traverse. cbn [skipn app].
  destruct (traverse _ _) as [records |] eqn:Htr; [| discriminate].
  cbn [bind]. intros H. injection H as <-.
  exists hourly, (t0 :: temp), (h0 :: hum), records.
  cbn [data meta total_records valid_records].
  apply Z.eqb_neq in Hstep.
  repeat split; try assumption; try discriminate; reflexivity.
Qed.

(** The normalization returns a result on every response it accepts. *)
Lemma process_response_returns response lat lon :
  normalizable utcoffset response ->
  exists res, _process_response utcoffset response lat lon = Ok res.
Proof.
  intros (hourly & temp & hum & Harr & Hstep & Ht & Hh & Hall).
  assert (Htr : exists records,
             traverse (aligned_record utcoffset lat lon)
               (combine (combine (time_points response) temp) hum) = Ok records).
  { apply traverse_total.
    rewrite <- aligned_times in Hall.
    rewrite Forall_map in Hall.
    eapply Forall_impl; [| exact Hall].
    intros [[time t] h] [dt Hdt]. cbn [fst] in Hdt.
    unfold aligned_record, make_record. rewrite Hdt. simpl. eauto. }
  destruct Htr as [records Htr].
  revert Harr Htr.
  unfold _process_response, time_points, hourly_arrays.
  destruct (Hourly response) as [hourly' |]; [| discriminate].
  destruct (Variables hourly') as [| v0 [| v1 vars]] eqn:Hv; try discriminate.
  intros Harr. injection Harr as -> <- <-.
  unfold range. apply Z.eqb_neq in Hstep. rewrite Hstep. cbn [bind].
  intros Htr.
  unfold VariablesLength. rewrite Hv. cbn [List.length Nat.ltb Nat.leb].
  destruct (ValuesAsNumpy v0) as [| t0 temp]; [contradiction |].
  destruct (ValuesAsNumpy v1) as [| h0 hum]; [contradiction |].
  cbn [List.length Nat.eqb orb].
  rewrite process_loop_traverse. cbn [skipn app].
  rewrite Htr. cbn [bind]. eauto.
Qed.

(** C1.  The normalization aligns the time range with the temperature and
    humidity arrays.  It returns a result on every response it accepts
    ([normalizable]); and whenever it returns one, the response was such a
    one, the number of records it built, which is [total_records], is the
    minimum of the number of time points and of the lengths of the two
    arrays, and the timestamp of the i-th record is the ISO text of the local
    date and time of the i-th time point. *)
Theorem process_response_aligns response lat lon :
  (normalizable utcoffset response ->
   exists res, _process_response utcoffset response lat lon = Ok res)
  /\
  (forall res,
     _process_response utcoffset response lat lon = Ok res ->
     let records := all_records utcoffset response lat lon in
     normalizable utcoffset response
     /\ total_records (meta res) = List.length records
     /\ List.length records
        = Nat.min (List.length (time_points response))
            (Nat.min (List.length (temperature_data response))
                     (List.length (humidity_data response)))
     /\ forall i,
          (i < List.length records)%nat ->
          exists time dt record,
            nth_error (time_points response) i = Some time
            /\ fromtimestamp utcoffset time = Ok dt
            /\ nth_error records i = Some record
            /\ timestamp record = isoformat dt).
Proof.
  split; [apply process_response_returns |].
  intros res H records.
  destruct (process_response_inv _ _ _ _ H)
    as (hourly & temp & hum & recs & Harr & Hstep & Ht & Hh & Htr & Hall
        & _ & Htotal & _).
  subst records. rewrite Hall.
  unfold temperature_data, humidity_data. rewrite Harr.
  assert (Hnth : forall i record,
             nth_error recs i = Some record ->
             exists time dt,
               nth_error (time_points response) i = Some time
               /\ fromtimestamp utcoffset time = Ok dt
               /\ timestamp record = isoformat dt).
  { intros i record Hi.
    destruct (traverse_nth_error _ _ _ Htr i record Hi) as ([[time t] h] & Hx & Hf).
    apply nth_error_combine in Hx. destruct Hx as [Hx _].
    apply nth_error_combine in Hx. destruct Hx as [Hx _].
    apply make_record_fields in Hf. destruct Hf as (dt & Hdt & Hts & _).
    eauto. }
  repeat split.
  - exists hourly, temp, hum. repeat split; try assumption.
    rewrite <- aligned_times with (l := temp) (l' := hum).
    rewrite Forall_map. apply Forall_forall.
    intros [[time t] h] Hin. cbn [fst].
    apply In_nth_error in Hin. destruct Hin as [i Hi].
    assert (Hlt : (i < List.length recs)%nat).
    { rewrite (traverse_length _ _ _ Htr). apply nth_error_Some. congruence. }
    destruct (nth_error recs i) as [record |] eqn:Hrec;
      [| apply nth_error_None in Hrec; lia].
    destruct (Hnth i record Hrec) as (time' & dt & Htime & Hdt & _).
    apply nth_error_combine in Hi. destruct Hi as [Hi _].
    apply nth_error_combine in Hi. destruct Hi as [Hi _].
    exists dt. congruence.
  - exact Htotal.
  - rewrite (traverse_length _ _ _ Htr), !length_combine. lia.
  - intros i Hi.
    destruct (nth_error recs i) as [record |] eqn:Hrec;
      [| apply nth_error_None in Hrec; lia].
    destruct (Hnth i record Hrec) as (time & dt & Htime & Hdt & Hts).
    exists time, dt, record. auto.
Qed.


(** C5.  In every record the normalization builds, a temperature that is
    there is the source value of the same index rounded to 2 decimal places,
    and a relative humidity that is there is the source value rounded to 1
    decimal place. *)
Theorem process_response_rounds response lat lon res :
  _process_response utcoffset response lat lon = Ok res ->
  forall i record,
    nth_error (all_records utcoffset response lat lon) i = Some record ->
    (forall x, temperature_2m record = Some x ->
       exists q, nth_error (temperature_data response) i = Some (Fin q)
                 /\ x = round q 2 /\ rounded_to 2 q x)
    /\
    (forall x, relative_humidity_2m record = Some x ->
       exists q, nth_error (humidity_data response) i = Some (Fin q)
                 /\ x = round q 1 /\ rounded_to 1 q x).
Proof.
  intros H i record.
  destruct (process_response_inv _ _ _ _ H)
    as (hourly & temp & hum & recs & Harr & _ & _ & _ & Htr & Hall & _).
  rewrite Hall.
  unfold temperature_data, humidity_data. rewrite Harr.
  intros Hi.
  destruct (traverse_nth_error _ _ _ Htr i record Hi) as ([[time t] h] & Hx & Hf).
  apply nth_error_combine in Hx. destruct Hx as [Hx Hhum].
  apply nth_error_combine in Hx. destruct Hx as [_ Htemp].
  apply make_record_fields in Hf.
  destruct Hf as (dt & _ & _ & Ht & Hh & _).
  rewrite Ht, Hh, Htemp, Hhum.
  split; intros x Hx.
  - destruct t as [| q]; [discriminate |]. simpl in Hx. injection Hx as <-.
    exists q. auto using round_rounded_to.
  - destruct h as [| q]; [discriminate |]. simpl in Hx. injection Hx as <-.
    exists q. auto using round_rounded_to.
Qed.

(** Every timestamp the normalization writes is an ISO-8601 text. *)
Lemma all_records_iso response lat lon record :
  In record (all_records utcoffset response lat lon) ->
  is_iso8601 (timestamp record) = true.
Proof.
  unfold all_records.
  rewrite process_loop_traverse. cbn [skipn app].
  destruct (traverse _ _) as [records |] eqn:Htr; [| contradiction].
  cbn [bind]. intros Hin.
  apply In_nth_error in Hin. destruct Hin as [i Hi].
  destruct (traverse_nth_error _ _ _ Htr i record Hi) as ([[time t] h] & _ & Hf).
  apply make_record_fields in Hf. destruct Hf as (dt & Hdt & -> & _).
  eapply fromtimestamp_isoformat; eauto.
Qed.

End Normalisation.

End WeatherServiceFacts.

(* ================================================================== *)
(** * Facts about the database *)
(* ================================================================== *)

Module WeatherDatabaseFacts.
Import Py Eff WeatherService WeatherDatabase Spec.

(** The columns that a row holds without [option] are the ones the table
    declares NOT NULL. *)
Lemma not_null_columns :
  map (fun c => (name c, is_not_null (name c))) weather_data_columns
  = [ ("id", true); ("timestamp", true); ("latitude", true);
      ("longitude", true); ("temperature_2m", false);
      ("relative_humidity_2m", false); ("created_at", false) ]%string.
Proof. reflexivity. Qed.

(** An INSERT is accepted exactly when the timestamp, the latitude and the
    longitude are bound to a value. *)
Lemma execute_insert_accepts now p db :
  (exists db', execute_insert now p db = Ok db')
  <-> (bind_timestamp p <> None /\ bind_latitude p <> None
       /\ bind_longitude p <> None).
Proof.
  unfold execute_insert.
  destruct (bind_timestamp p) as [ts |], (bind_latitude p) as [la |],
    (bind_longitude p) as [lo |]; cbn [required bind constraint_failed];
    try (split; [intros [db' H]; discriminate
                | intros (H1 & H2 & H3); congruence]).
  split; [intros _; repeat split; discriminate |].
  intros _.
  unfold nullable.
  replace (is_not_null "temperature_2m") with false by reflexivity.
  replace (is_not_null "relative_humidity_2m") with false by reflexivity.
  cbn [andb bind]. eauto.
Qed.

Lemma record_of_row_of_record now rowid record :
  record_of_row (row_of_record now rowid record) = record.
Proof. destruct record. reflexivity. Qed.

Lemma execute_insert_record now record db :
  execute_insert now (params_of_record record) db
  = Ok {| weather_data :=
            weather_data db ++ [row_of_record now (last_rowid db + 1) record];
          last_rowid := last_rowid db + 1 |}.
Proof.
  unfold execute_insert, params_of_record, nullable.
  cbn [bind_timestamp bind_latitude bind_longitude bind_temperature_2m
       bind_relative_humidity_2m required bind].
  replace (is_not_null "temperature_2m") with false by reflexivity.
  replace (is_not_null "relative_humidity_2m") with false by reflexivity.
  reflexivity.
Qed.

Lemma rows_of_records_length now rowid records :
  List.length (rows_of_records now rowid records) = List.length records.
Proof.
  revert rowid. induction records as [| r l IH]; intros rowid; simpl;
    [reflexivity | f_equal; apply IH].
Qed.

Lemma rows_of_records_records now rowid records :
  map record_of_row (rows_of_records now rowid records) = records.
Proof.
  revert rowid. induction records as [| r l IH]; intros rowid; simpl.
  - reflexivity.
  - rewrite record_of_row_of_record, IH. reflexivity.
Qed.

Lemma insert_loop_appends now records :
  forall db count,
    insert_loop now records db count
    = Ok ({| weather_data :=
               weather_data db ++ rows_of_records now (last_rowid db + 1) records;
             last_rowid := last_rowid db + Z.of_nat (List.length records) |},
          (count + List.length records)%nat).
Proof.
  induction records as [| record rest IH]; intros db count.
  - simpl. rewrite app_nil_r, Z.add_0_r, Nat.add_0_r. destruct db; reflexivity.
  - cbn [insert_loop]. rewrite execute_insert_record. cbn [bind].
    rewrite IH. cbn [weather_data last_rowid rows_of_records List.length].
    rewrite <- app_assoc. cbn [app].
    replace (last_rowid db + 1 + Z.of_nat (List.length rest))
      with (last_rowid db + Z.of_nat (S (List.length rest))) by lia.
    replace (S count + List.length rest)%nat
      with (count + S (List.length rest))%nat by lia.
    reflexivity.
Qed.

(** [store_weather_data] writes one row per record, in order, after the
    rows that are there, and returns their number. *)
Lemma store_weather_data_appends now records db :
  store_weather_data now records db
  = (Ok (List.length records),
     {| weather_data :=
          weather_data db ++ rows_of_records now (last_rowid db + 1) records;
        last_rowid := last_rowid db + Z.of_nat (List.length records) |}).
Proof.
  unfold store_weather_data. rewrite insert_loop_appends. reflexivity.
Qed.

End WeatherDatabaseFacts.

(* ================================================================== *)
(** * Facts about the pandas operations *)
(* ================================================================== *)

Module PdFacts.
Import Py Spec.

Lemma insert_asc_perm {R} (r : Z * R) (l : list (Z * R)) :
  Permutation (Pd.insert_asc r l) (r :: l).
Proof.
  induction l as [| x l IH]; simpl.
  - reflexivity.
  - destruct (fst r <? fst x).
    + reflexivity.
    + rewrite IH. apply perm_swap.
Qed.

Lemma sort_values_perm {R} (df : list (Z * R)) :
  Permutation (Pd.sort_values df) df.
Proof.
  induction df as [| r df IH]; simpl.
  - reflexivity.
  - rewrite insert_asc_perm. apply perm_skip, IH.
Qed.



(** ** Sums *)





(** ** Extremes *)







End PdFacts.

(* ================================================================== *)
(** * Facts about the two reports *)
(* ================================================================== *)

Module ReportFacts.
Import Py Eff WeatherService WeatherDatabase Spec WeatherServiceFacts PdFacts.

Lemma traverse_raise {A B} (f : A -> result B) (l : list A) (e : exn) :
  traverse f l = Raise e -> exists x, In x l /\ f x = Raise e.
Proof.
  induction l as [| x l IH]; simpl; [discriminate |].
  destruct (f x) as [y | e'] eqn:Hx; simpl.
  - destruct (traverse f l) as [ys | e'']; simpl; [discriminate |].
    intros H. injection H as ->.
    destruct (IH eq_refl) as (x' & Hin & Hx'). eauto.
  - intros H. injection H as ->. eauto.
Qed.

Section Reports.

Variable utcoffset : Z -> Z.
Variable within_hours : Z -> Z -> string -> bool.
Variable to_datetime : string -> result Z.
Variable _create_weather_chart : list (Z * weather_row) -> string.

Abbreviation generate_excel_report :=
  (ExcelService.generate_excel_report within_hours to_datetime).
Abbreviation generate_pdf_report :=
  (PDFService.generate_pdf_report utcoffset within_hours to_datetime
     _create_weather_chart).

Lemma get_recent_data_reads now hours db :
  get_recent_data within_hours now hours db
  = (Ok (recent_rows within_hours now hours db), db).
Proof. reflexivity. Qed.

(** The outcome of a report is decided by the rows that [get_recent_data]
    returns, and the table is left as it was. *)
Lemma excel_report_frame now hours db :
  snd (generate_excel_report now hours db) = db.
Proof.
  unfold ExcelService.generate_excel_report, mbind.
  rewrite get_recent_data_reads.
  destruct (recent_rows within_hours now hours db); [reflexivity |].
  unfold lift_result. destruct (Pd.to_datetime_all _ _); reflexivity.
Qed.

Lemma pdf_report_frame now hours db :
  snd (generate_pdf_report now hours db) = db.
Proof.
  unfold PDFService.generate_pdf_report, mbind.
  rewrite get_recent_data_reads.
  destruct (recent_rows within_hours now hours db); [reflexivity |].
  unfold lift_result. destruct (Pd.to_datetime_all _ _); [| reflexivity].
  destruct (Pd.sort_values _) as [| [t0 first] df]; reflexivity.
Qed.

Lemma excel_report_reads now hours db db' :
  fst (get_recent_data within_hours now hours db')
  = fst (get_recent_data within_hours now hours db) ->
  fst (generate_excel_report now hours db')
  = fst (generate_excel_report now hours db).
Proof.
  rewrite !get_recent_data_reads. cbn [fst]. intros H. injection H as H.
  unfold ExcelService.generate_excel_report, mbind.
  rewrite !get_recent_data_reads, H.
  destruct (recent_rows within_hours now hours db); [reflexivity |].
  unfold lift_result. destruct (Pd.to_datetime_all _ _); reflexivity.
Qed.

Lemma pdf_report_reads now hours db db' :
  fst (get_recent_data within_hours now hours db')
  = fst (get_recent_data within_hours now hours db) ->
  fst (generate_pdf_report now hours db')
  = fst (generate_pdf_report now hours db).
Proof.
  rewrite !get_recent_data_reads. cbn [fst]. intros H. injection H as H.
  unfold PDFService.generate_pdf_report, mbind.
  rewrite !get_recent_data_reads, H.
  destruct (recent_rows within_hours now hours db); [reflexivity |].
  unfold lift_result. destruct (Pd.to_datetime_all _ _); [| reflexivity].
  destruct (Pd.sort_values _) as [| [t0 first] df]; reflexivity.
Qed.

(** C7.  The two report renderers leave the weather table as it was, and
    the rows that [get_recent_data] returns are all they read of it: on two
    tables on which [get_recent_data] returns the same rows, a renderer has
    the same outcome. *)
Theorem reports_leave_table_unchanged now hours db :
  snd (generate_excel_report now hours db) = db
  /\ snd (generate_pdf_report now hours db) = db
  /\ forall db',
       fst (get_recent_data within_hours now hours db')
       = fst (get_recent_data within_hours now hours db) ->
       fst (generate_excel_report now hours db')
       = fst (generate_excel_report now hours db)
       /\ fst (generate_pdf_report now hours db')
          = fst (generate_pdf_report now hours db).
Proof.
  split; [apply excel_report_frame |].
  split; [apply pdf_report_frame |].
  intros db' H. split; [apply excel_report_reads | apply pdf_report_reads];
    exact H.
Qed.

(** ** The empty window *)

Lemma excel_report_no_rows now hours db :
  recent_rows within_hours now hours db = [] ->
  generate_excel_report now hours db = (Raise ExcelService.no_data, db).
Proof.
  intros H. unfold ExcelService.generate_excel_report, mbind.
  rewrite get_recent_data_reads, H. reflexivity.
Qed.

Lemma pdf_report_no_rows now hours db :
  recent_rows within_hours now hours db = [] ->
  generate_pdf_report now hours db = (Raise PDFService.no_data, db).
Proof.
  intros H. unfold PDFService.generate_pdf_report, mbind.
  rewrite get_recent_data_reads, H. reflexivity.
Qed.

(** With a row in the window, whatever a renderer raises was raised by the
    parsing of a timestamp. *)
Lemma excel_report_some_rows now hours db e :
  recent_rows within_hours now hours db <> [] ->
  fst (generate_excel_report now hours db) = Raise e ->
  exists row, In row (recent_rows within_hours now hours db)
              /\ to_datetime (row_timestamp row) = Raise e.
Proof.
  intros Hne. unfold ExcelService.generate_excel_report, mbind.
  rewrite get_recent_data_reads.
  destruct (recent_rows within_hours now hours db) as [| r rows] eqn:Hrows;
    [contradiction |].
  unfold lift_result, Pd.to_datetime_all.
  destruct (traverse to_datetime _) as [times | e'] eqn:Htr; cbn [fst];
    [discriminate |].
  intros H. injection H as ->.
  apply traverse_raise in Htr. destruct Htr as (s & Hin & Hs).
  apply in_map_iff in Hin. destruct Hin as (row & <- & Hin). eauto.
Qed.

Lemma sort_values_nonempty {R} (x : Z * R) (l : list (Z * R)) :
  Pd.sort_values (x :: l) <> [].
Proof.
  intros H.
  pose proof (Permutation_length (sort_values_perm (x :: l))) as Hl.
  rewrite H in Hl. discriminate.
Qed.

Lemma pdf_report_some_rows now hours db e :
  recent_rows within_hours now hours db <> [] ->
  fst (generate_pdf_report now hours db) = Raise e ->
  exists row, In row (recent_rows within_hours now hours db)
              /\ to_datetime (row_timestamp row) = Raise e.
Proof.
  intros Hne. unfold PDFService.generate_pdf_report, mbind.
  rewrite get_recent_data_reads.
  destruct (recent_rows within_hours now hours db) as [| r rows] eqn:Hrows;
    [contradiction |].
  unfold lift_result, Pd.to_datetime_all.
  destruct (traverse to_datetime _) as [times | e'] eqn:Htr; cbn [fst].
  - pose proof (traverse_length _ _ _ Htr) as Hlen.
    destruct times as [| t times]; [discriminate |].
    cbn [combine].
    destruct (Pd.sort_values _) as [| [t0 first] df] eqn:Hs.
    + apply sort_values_nonempty in Hs. contradiction.
    + discriminate.
  - intros H. injection H as ->.
    apply traverse_raise in Htr. destruct Htr as (s & Hin & Hs).
    apply in_map_iff in Hin. destruct Hin as (row & <- & Hin). eauto.
Qed.

(** ** The statistics of the PDF report *)



End Reports.

End ReportFacts.

(* ================================================================== *)
(** * Facts about the request handlers *)
(* ================================================================== *)

Module AppFacts.
Import Py Eff WeatherService WeatherDatabase Spec.
Import WeatherServiceFacts WeatherDatabaseFacts ReportFacts.
Import App.

Lemma between_within (a b : Q) (x : pyfloat) :
  between a x b = true <-> within a b x.
Proof.
  unfold between, within. destruct x as [| q].
  - split; [discriminate | intros (q & H & _); discriminate].
  - rewrite andb_true_iff, !Qle_bool_iff. split.
    + intros [H1 H2]. exists q. auto.
    + intros (q' & H & H1 & H2). injection H as <-. auto.
Qed.

Lemma world_eta (w : world) : {| db := db w; api_log := api_log w |} = w.
Proof. destruct w; reflexivity. Qed.

Section Handlers.

Variable utcoffset : Z -> Z.
Variable http_get : api_params -> result Z.
Variable weather_api : api_params -> result (list WeatherApiResponse).
Variable within_hours : Z -> Z -> string -> bool.
Variable to_datetime : string -> result Z.
Variable _create_weather_chart : list (Z * weather_row) -> string.

Abbreviation fetch_weather_data :=
  (WeatherService.fetch_weather_data utcoffset http_get weather_api).
Abbreviation get_weather_report :=
  (App.get_weather_report utcoffset http_get weather_api).
Abbreviation export_excel := (App.export_excel within_hours to_datetime).
Abbreviation export_pdf :=
  (App.export_pdf utcoffset within_hours to_datetime _create_weather_chart).
Abbreviation handle :=
  (App.handle utcoffset http_get weather_api within_hours to_datetime
     _create_weather_chart).
Abbreviation serve :=
  (App.serve utcoffset http_get weather_api within_hours to_datetime
     _create_weather_chart).

(** ** [fetch_weather_data] *)

(** Coordinates outside the ranges: a [ValueError], and no call. *)
Lemma fetch_rejects now latitude longitude days log :
  between (-90 # 1) latitude (90 # 1) = false
  \/ between (-180 # 1) longitude (180 # 1) = false ->
  exists msg,
    fetch_weather_data now latitude longitude days log
    = (Raise (ValueError msg), log).
Proof.
  unfold WeatherService.fetch_weather_data.
  destruct (between (-90 # 1) latitude (90 # 1)) eqn:Hlat; cbn [negb].
  - intros [H | H]; [discriminate |]. rewrite H. cbn [negb].
    unfold raise. eauto.
  - intros _. unfold raise. eauto.
Qed.

(** Coordinates inside the ranges: the result of the normalization of an
    answer of the API, or an [Exception]; never a [ValueError]. *)
Lemma fetch_outcome now latitude longitude days log :
  between (-90 # 1) latitude (90 # 1) = true ->
  between (-180 # 1) longitude (180 # 1) = true ->
  exists lat lon,
    latitude = Fin lat /\ longitude = Fin lon
    /\ match fst (fetch_weather_data now latitude longitude days log) with
       | Ok result =>
           exists response,
             _process_response utcoffset response lat lon = Ok result
       | Raise e => exists msg, e = Exception msg
       end.
Proof.
  intros Hlat Hlon.
  unfold WeatherService.fetch_weather_data. rewrite Hlat, Hlon. cbn [negb].
  destruct latitude as [| lat]; [discriminate |].
  destruct longitude as [| lon]; [discriminate |].
  exists lat, lon. split; [reflexivity |]. split; [reflexivity |].
  unfold catch, mbind, modify, lift_result, raise.
  destruct (http_get _) as [code | e]; cbn [fst]; [| eauto].
  destruct (code =? 200); cbn [negb fst]; [| eauto].
  destruct (weather_api _) as [[| response rest] | e]; cbn [fst]; eauto.
  destruct (_process_response utcoffset response lat lon) eqn:Hp; cbn [fst]; eauto.
Qed.

(** ** [GET /weather-report] *)

(** What a served weather report has done. *)
Lemma weather_report_served now lat lon w result stored w' :
  get_weather_report now lat lon w
  = (Ok (mkResponse 200 (ReportJson result stored)), w') ->
  exists latitude longitude,
    lat = Some latitude /\ lon = Some longitude
    /\ between (-90 # 1) latitude (90 # 1) = true
    /\ between (-180 # 1) longitude (180 # 1) = true
    /\ fetch_weather_data now latitude longitude 2 (api_log w)
       = (Ok result, api_log w')
    /\ stored = List.length (data result)
    /\ db w' = match data result with
               | [] => db w
               | _ :: _ => snd (store_weather_data now (data result) (db w))
               end.
Proof.
  unfold App.get_weather_report, catch.
  destruct lat as [latitude |]; [| cbn; discriminate].
  destruct lon as [longitude |]; [| cbn; discriminate].
  destruct (between (-90 # 1) latitude (90 # 1)) eqn:Hlat; cbn [negb];
    [| cbn; discriminate].
  destruct (between (-180 # 1) longitude (180 # 1)) eqn:Hlon; cbn [negb];
    [| cbn; discriminate].
  unfold mbind, on_api, on_db, zoom.
  destruct (WeatherService.fetch_weather_data _ _ _ _ _ _ _ (api_log w))
    as [[res | e] log'] eqn:Hf; [| cbn; discriminate].
  destruct (data res) as [| record records] eqn:Hdata.
  - cbn. intros H. injection H as <- <- <-.
    exists latitude, longitude. rewrite Hdata. cbn. auto 10.
  - cbn [db api_log].
    rewrite store_weather_data_appends.
    cbn. intros H. injection H as <- <- <-.
    exists latitude, longitude. rewrite Hdata, store_weather_data_appends.
    cbn [db api_log snd]. auto 10.
Qed.

(** A weather report never raises: the handler answers. *)
Lemma weather_report_answers now lat lon w :
  exists resp, fst (get_weather_report now lat lon w) = Ok resp.
Proof.
  unfold App.get_weather_report, catch.
  destruct lat as [latitude |]; [| cbn; eauto].
  destruct lon as [longitude |]; [| cbn; eauto].
  destruct (negb (between (-90 # 1) latitude (90 # 1))); [cbn; eauto |].
  destruct (negb (between (-180 # 1) longitude (180 # 1))); [cbn; eauto |].
  unfold mbind, on_api, on_db, zoom.
  destruct (WeatherService.fetch_weather_data _ _ _ _ _ _ _ (api_log w))
    as [[res | e] log']; [| cbn; eauto].
  destruct (data res) as [| record records].
  - cbn. eauto.
  - cbn [db api_log]. rewrite store_weather_data_appends. cbn. eauto.
Qed.

(** What a weather report does to the table: nothing, or the storing of
    the data of a normalized answer of the API. *)
Lemma weather_report_db now lat lon w :
  let w' := snd (get_weather_report now lat lon w) in
  db w' = db w
  \/ exists response la lo result,
       _process_response utcoffset response la lo = Ok result
       /\ db w' = snd (store_weather_data now (data result) (db w)).
Proof.
  unfold App.get_weather_report, catch.
  destruct lat as [latitude |]; [| cbn; auto].
  destruct lon as [longitude |]; [| cbn; auto].
  destruct (between (-90 # 1) latitude (90 # 1)) eqn:Hlat; cbn [negb];
    [| cbn; auto].
  destruct (between (-180 # 1) longitude (180 # 1)) eqn:Hlon; cbn [negb];
    [| cbn; auto].
  destruct (fetch_outcome now latitude longitude 2 (api_log w) Hlat Hlon)
    as (la & lo & _ & _ & Hout).
  unfold mbind, on_api, on_db, zoom.
  destruct (WeatherService.fetch_weather_data _ _ _ _ _ _ _ (api_log w))
    as [[res | e] log'] eqn:Hf; [| cbn; auto].
  cbn [fst] in Hout. destruct Hout as [response Hp].
  destruct (data res) as [| record records] eqn:Hdata.
  - cbn. auto.
  - cbn [db api_log]. rewrite store_weather_data_appends. cbn.
    right. exists response, la, lo, res. split; [exact Hp |].
    rewrite Hdata, store_weather_data_appends. reflexivity.
Qed.

(** ** The export handlers *)

Lemma export_excel_world now hours w :
  snd (export_excel now hours w) = w.
Proof.
  unfold App.export_excel, catch.
  destruct ((hours_or_default hours <=? 0) || (168 <? hours_or_default hours));
    [reflexivity |].
  unfold mbind, on_db, zoom.
  pose proof (excel_report_frame within_hours to_datetime now
                (hours_or_default hours) (db w)) as Hfr.
  destruct (ExcelService.generate_excel_report _ _ _ _ (db w)) as [[wb | e] d];
    cbn [snd] in Hfr; subst d; cbn.
  - apply world_eta.
  - destruct (is_ValueError e); cbn; apply world_eta.
Qed.

Lemma export_pdf_world now hours w :
  snd (export_pdf now hours w) = w.
Proof.
  unfold App.export_pdf, catch.
  destruct ((hours_or_default hours <=? 0) || (168 <? hours_or_default hours));
    [reflexivity |].
  unfold mbind, on_db, zoom.
  pose proof (pdf_report_frame utcoffset within_hours to_datetime
                _create_weather_chart now (hours_or_default hours) (db w)) as Hfr.
  destruct (PDFService.generate_pdf_report _ _ _ _ _ _ (db w)) as [[page | e] d];
    cbn [snd] in Hfr; subst d; cbn.
  - apply world_eta.
  - destruct (is_ValueError e); cbn; apply world_eta.
Qed.

(** ** Every route *)

Lemma handle_db now req w :
  let w' := snd (handle now req w) in
  db w' = db w
  \/ exists response la lo result,
       _process_response utcoffset response la lo = Ok result
       /\ db w' = snd (store_weather_data now (data result) (db w)).
Proof.
  destruct req as [| lat lon | hours | hours | | hours |]; cbn [App.handle].
  - left. reflexivity.
  - apply weather_report_db.
  - left. rewrite export_excel_world. reflexivity.
  - left. rewrite export_pdf_world. reflexivity.
  - left. reflexivity.
  - left. unfold App.get_recent_data, catch.
    destruct ((hours_or_default hours <=? 0) || (168 <? hours_or_default hours));
      reflexivity.
  - left. reflexivity.
Qed.

Lemma handle_extends now req w :
  extends (db w) (db (snd (handle now req w))).
Proof.
  destruct (handle_db now req w) as [H | (response & la & lo & result & _ & H)];
    rewrite H.
  - exists []. rewrite app_nil_r. reflexivity.
  - rewrite store_weather_data_appends. cbn [snd weather_data]. eexists. reflexivity.
Qed.

Lemma extends_trans a b c : extends a b -> extends b c -> extends a c.
Proof.
  intros [x Hx] [y Hy]. exists (x ++ y). rewrite Hy, Hx, app_assoc. reflexivity.
Qed.

Lemma serve_extends reqs : forall w, extends (db w) (db (serve reqs w)).
Proof.
  induction reqs as [| [now req] reqs IH]; intros w; cbn [App.serve].
  - exists []. rewrite app_nil_r. reflexivity.
  - eapply extends_trans; [apply handle_extends | apply IH].
Qed.

Lemma rows_of_records_timestamps now rowid records :
  map row_timestamp (rows_of_records now rowid records) = map timestamp records.
Proof.
  revert rowid. induction records as [| r l IH]; intros rowid; simpl;
    [reflexivity | f_equal; apply IH].
Qed.

Lemma handle_all_iso now req w :
  all_iso (db w) -> all_iso (db (snd (handle now req w))).
Proof.
  intros Hw.
  destruct (handle_db now req w) as [H | (response & la & lo & result & Hp & H)];
    rewrite H; [exact Hw |].
  rewrite store_weather_data_appends. unfold all_iso. cbn [snd weather_data].
  apply Forall_app. split; [exact Hw |].
  apply Forall_forall. intros row Hin.
  assert (Hts : In (row_timestamp row) (map timestamp (data result))).
  { rewrite <- (rows_of_records_timestamps now (last_rowid (db w) + 1)).
    apply in_map. exact Hin. }
  apply in_map_iff in Hts. destruct Hts as (record & <- & Hrec).
  destruct (process_response_inv _ _ _ _ _ Hp)
    as (hourly & temp & hum & recs & _ & _ & _ & _ & _ & Hall & Hdata & _).
  rewrite Hdata in Hrec. apply filter_In in Hrec. destruct Hrec as [Hrec _].
  apply (all_records_iso utcoffset response la lo). rewrite Hall. exact Hrec.
Qed.

Lemma serve_all_iso reqs : forall w, all_iso (db w) -> all_iso (db (serve reqs w)).
Proof.
  induction reqs as [| [now req] reqs IH]; intros w Hw; cbn [App.serve].
  - exact Hw.
  - apply IH, handle_all_iso, Hw.
Qed.

(** ** The claims about the handlers and the table *)

(** C3 (amended).  The table takes a row exactly when its timestamp, its
    latitude and its longitude are bound to a value: these three columns are
    NOT NULL, and only the temperature and the relative humidity may be
    null.  Every record that the service builds is taken, whether its
    temperature and humidity are there or not.  And in every table that the
    service has filled from an empty one, the timestamp of every row is an
    ISO-8601 text. *)
Theorem stored_record_type :
  (forall now p d,
     (exists d', execute_insert now p d = Ok d')
     <-> (bind_timestamp p <> None /\ bind_latitude p <> None
          /\ bind_longitude p <> None))
  /\ (forall now record d,
        exists d', execute_insert now (params_of_record record) d = Ok d')
  /\ (forall reqs log row,
        In row (weather_data
                  (db (serve reqs {| db := init_database; api_log := log |}))) ->
        is_iso8601 (row_timestamp row) = true).
Proof.
  split; [apply execute_insert_accepts |].
  split.
  - intros now record d. rewrite execute_insert_record. eauto.
  - intros reqs log row Hin.
    assert (H : all_iso (db (serve reqs {| db := init_database; api_log := log |})))
      by (apply serve_all_iso; constructor).
    unfold all_iso in H. rewrite Forall_forall in H.
    apply H. exact Hin.
Qed.

(** C4.  The weather table is append-only and takes duplicates.
    [store_weather_data] called with k records returns k and leaves the
    table with k new rows after the old ones, one per record and in order;
    every route of the service leaves the old rows of the table in place,
    so over any sequence of requests the number of rows never decreases;
    and storing the same records twice stores their rows twice. *)
Theorem table_is_append_only :
  (forall now records d,
     let added := rows_of_records now (last_rowid d + 1) records in
     store_weather_data now records d
     = (Ok (List.length records),
        {| weather_data := weather_data d ++ added;
           last_rowid := last_rowid d + Z.of_nat (List.length records) |})
     /\ List.length added = List.length records
     /\ map record_of_row added = records)
  /\ (forall now req w, extends (db w) (db (snd (handle now req w))))
  /\ (forall reqs w,
        extends (db w) (db (serve reqs w))
        /\ (List.length (weather_data (db w))
            <= List.length (weather_data (db (serve reqs w))))%nat)
  /\ (forall now1 now2 records d,
        let d1 := snd (store_weather_data now1 records d) in
        let d2 := snd (store_weather_data now2 records d1) in
        exists first second,
          weather_data d2 = weather_data d ++ first ++ second
          /\ map record_of_row first = records
          /\ map record_of_row second = records).
Proof.
  split; [| split; [| split]].
  - intros now records d added. subst added.
    rewrite store_weather_data_appends, rows_of_records_length,
      rows_of_records_records. auto.
  - apply handle_extends.
  - intros reqs w. split; [apply serve_extends |].
    destruct (serve_extends reqs w) as [added ->].
    rewrite length_app. lia.
  - intros now1 now2 records d d1 d2. subst d1 d2.
    rewrite !store_weather_data_appends. cbn [snd weather_data last_rowid].
    do 2 eexists. rewrite <- app_assoc.
    split; [reflexivity |].
    split; apply rows_of_records_records.
Qed.

(** C8.  A weather-report request whose fetch succeeds is answered with
    status 200; every record of the ["data"] list of the fetch is written as
    a row of the table, after the rows that were there and in order, and
    [database_stored] is the number of these records.  With an empty
    ["data"] list [database_stored] is 0 and the database is unchanged. *)
Theorem weather_report_persists now latitude longitude w result log' :
  fetch_weather_data now latitude longitude 2 (api_log w) = (Ok result, log') ->
  exists w',
    get_weather_report now (Some latitude) (Some longitude) w
    = (Ok (mkResponse 200 (ReportJson result (List.length (data result)))), w')
    /\ api_log w' = log'
    /\ (exists added,
          weather_data (db w') = weather_data (db w) ++ added
          /\ map record_of_row added = data result)
    /\ (data result = [] -> List.length (data result) = 0%nat /\ db w' = db w).
Proof.
  intros Hf.
  assert (Hlat : between (-90 # 1) latitude (90 # 1) = true).
  { destruct (between (-90 # 1) latitude (90 # 1)) eqn:E; [reflexivity |].
    destruct (fetch_rejects now latitude longitude 2 (api_log w) (or_introl E))
      as [msg H]. congruence. }
  assert (Hlon : between (-180 # 1) longitude (180 # 1) = true).
  { destruct (between (-180 # 1) longitude (180 # 1)) eqn:E; [reflexivity |].
    destruct (fetch_rejects now latitude longitude 2 (api_log w) (or_intror E))
      as [msg H]. congruence. }
  unfold App.get_weather_report, catch. rewrite Hlat, Hlon. cbn [negb].
  unfold mbind, on_api, on_db, zoom. rewrite Hf.
  destruct (data result) as [| record records] eqn:Hdata.
  - cbn. eexists. split; [reflexivity |]. cbn.
    split; [reflexivity |].
    split; [exists []; rewrite app_nil_r; auto | auto].
  - cbn [db api_log]. rewrite store_weather_data_appends.
    eexists. split; [reflexivity |].
    cbn [db api_log weather_data].
    split; [reflexivity |].
    split; [| discriminate].
    eexists. split; [reflexivity |].
    apply rows_of_records_records.
Qed.

(** C9.  With a latitude outside [[-90, 90]] or a longitude outside
    [[-180, 180]], [fetch_weather_data] raises a [ValueError] and calls
    nothing, and the endpoint answers with status 400 and leaves the
    database and the log of API calls as they were.  With both coordinates
    inside their ranges, [fetch_weather_data] raises no [ValueError]. *)
Theorem coordinate_validation now latitude longitude days log w :
  (~ within (-90 # 1) (90 # 1) latitude
   \/ ~ within (-180 # 1) (180 # 1) longitude ->
   (exists msg,
      fetch_weather_data now latitude longitude days log
      = (Raise (ValueError msg), log))
   /\ (exists body,
         get_weather_report now (Some latitude) (Some longitude) w
         = (Ok (mkResponse 400 body), w)))
  /\
  (within (-90 # 1) (90 # 1) latitude ->
   within (-180 # 1) (180 # 1) longitude ->
   forall msg,
     fst (fetch_weather_data now latitude longitude days log)
     <> Raise (ValueError msg)).
Proof.
  split.
  - intros Hout.
    assert (Hb : between (-90 # 1) latitude (90 # 1) = false
                 \/ between (-180 # 1) longitude (180 # 1) = false).
    { destruct Hout as [H | H]; [left | right];
        apply not_true_is_false; rewrite between_within; exact H. }
    split; [apply fetch_rejects; exact Hb |].
    unfold App.get_weather_report, catch.
    destruct (between (-90 # 1) latitude (90 # 1)); cbn [negb].
    + destruct Hb as [Hb | Hb]; [discriminate |]. rewrite Hb. cbn. eauto.
    + cbn. eauto.
  - intros Hlat Hlon msg H.
    apply between_within in Hlat. apply between_within in Hlon.
    destruct (fetch_outcome now latitude longitude days log Hlat Hlon)
      as (la & lo & _ & _ & Hout).
    rewrite H in Hout. destruct Hout as [msg' Hout]. discriminate.
Qed.

(** C10 (amended).  When [get_recent_data] returns no rows, both renderers
    raise the [ValueError] of the empty window and leave the database as it
    was; with at least one row, whatever a renderer raises was raised by the
    parsing of a timestamp, not by that check.  The endpoints answer an
    empty window with status 404 when [hours] is one of 1 to 168; an
    [hours] outside 1 to 168 they answer with status 400, whatever the
    table holds.  Either way they leave the database unchanged. *)
Theorem empty_window now hours d :
  (fst (WeatherDatabase.get_recent_data within_hours now hours d) = Ok [] ->
   ExcelService.generate_excel_report within_hours to_datetime now hours d
   = (Raise (ValueError "No weather data available for the last hours"), d)
   /\ PDFService.generate_pdf_report utcoffset within_hours to_datetime
        _create_weather_chart now hours d
      = (Raise (ValueError "No weather data available for the last hours"), d))
  /\
  (forall rows,
     fst (WeatherDatabase.get_recent_data within_hours now hours d) = Ok rows ->
     rows <> [] ->
     forall e,
       fst (ExcelService.generate_excel_report within_hours to_datetime
              now hours d) = Raise e
       \/ fst (PDFService.generate_pdf_report utcoffset within_hours
                 to_datetime _create_weather_chart now hours d) = Raise e ->
       exists row, In row rows /\ to_datetime (row_timestamp row) = Raise e)
  /\
  (forall hours_arg w,
     hours_or_default hours_arg = hours ->
     db w = d ->
     (1 <= hours <= 168 ->
      fst (WeatherDatabase.get_recent_data within_hours now hours d) = Ok [] ->
      exists body,
        export_excel now hours_arg w = (Ok (mkResponse 404 body), w)
        /\ export_pdf now hours_arg w = (Ok (mkResponse 404 body), w))
     /\
     (hours < 1 \/ 168 < hours ->
      exists body,
        export_excel now hours_arg w = (Ok (mkResponse 400 body), w)
        /\ export_pdf now hours_arg w = (Ok (mkResponse 400 body), w))).
Proof.
  split; [| split].
  - rewrite get_recent_data_reads. cbn [fst]. intros H. injection H as H.
    split; [apply excel_report_no_rows | apply pdf_report_no_rows]; exact H.
  - rewrite get_recent_data_reads. cbn [fst].
    intros rows H Hne e He. injection H as <-.
    destruct He as [He | He];
      [eapply excel_report_some_rows | eapply pdf_report_some_rows]; eassumption.
  - intros hours_arg w Hh Hd. subst hours d. split.
    + intros Hrange. rewrite get_recent_data_reads. cbn [fst].
      intros H. injection H as H.
      unfold App.export_excel, App.export_pdf, catch.
      replace ((hours_or_default hours_arg <=? 0)
               || (168 <? hours_or_default hours_arg)) with false
        by (symmetry; apply orb_false_iff; split;
            [apply Z.leb_gt | apply Z.ltb_ge]; lia).
      unfold mbind, on_db, zoom.
      rewrite (excel_report_no_rows _ _ _ _ _ H), (pdf_report_no_rows _ _ _ _ _ _ _ H).
      cbn. rewrite world_eta. unfold ret. eauto.
    + intros Hrange.
      unfold App.export_excel, App.export_pdf, catch.
      replace ((hours_or_default hours_arg <=? 0)
               || (168 <? hours_or_default hours_arg)) with true
        by (symmetry; apply orb_true_iff; destruct Hrange;
            [left; apply Z.leb_le | right; apply Z.ltb_lt]; lia).
      unfold ret. eauto.
Qed.

End Handlers.

End AppFacts.

(* ================================================================== *)
(** * The properties on the sample environment *)
(* ================================================================== *)

Module Examples.
Import Py Eff WeatherService WeatherDatabase Spec.
Import WeatherServiceFacts WeatherDatabaseFacts ReportFacts AppFacts.

(** The sample response is normalized into three records, one per time
    point; two of them have both values. *)
Lemma process_response_aligns_sample :
  normalizable Sample.utcoffset Sample.api_response
  /\ exists res,
       _process_response Sample.utcoffset Sample.api_response
         Sample.lat Sample.lon = Ok res
       /\ total_records (meta res) = 3%nat
       /\ List.length (all_records Sample.utcoffset Sample.api_response
                         Sample.lat Sample.lon) = 3%nat.
Proof.
  destruct (process_response_aligns Sample.utcoffset Sample.api_response
              Sample.lat Sample.lon) as [Hreturns Haligned].
  assert (Hn : normalizable Sample.utcoffset Sample.api_response).
  { exists Sample.hourly.
    exists [Fin (12345 # 1000); NaN; Fin (71 # 10)].
    exists [Fin (8025 # 100); Fin (75 # 1); Fin (6005 # 100)].
    split; [reflexivity |].
    split; [discriminate |].
    split; [discriminate |].
    split; [discriminate |].
    replace (firstn _ (time_points Sample.api_response))
      with [1700000000; 1700003600; 1700007200] by (vm_compute; reflexivity).
    repeat (constructor; [eexists; lazy; reflexivity |]). constructor. }
  split; [exact Hn |].
  destruct (Hreturns Hn) as [res Hres].
  exists res. split; [exact Hres |].
  destruct (Haligned res Hres) as (_ & Htotal & Hlen & _).
  rewrite Htotal, Hlen. split; vm_compute; reflexivity.
Defined.


Lemma process_response_rounds_sample :
  exists res record,
    _process_response Sample.utcoffset Sample.api_response
      Sample.lat Sample.lon = Ok res
    /\ nth_error (all_records Sample.utcoffset Sample.api_response
                    Sample.lat Sample.lon) 0 = Some record
    /\ temperature_2m record = Some (1234 # 100)%Q
    /\ rounded_to 2 (12345 # 1000) (1234 # 100)
    /\ relative_humidity_2m record = Some (802 # 10)%Q
    /\ rounded_to 1 (8025 # 100) (802 # 10).
Proof.
  eexists. eexists.
  split; [vm_compute; reflexivity |].
  split; [vm_compute; reflexivity |].
  match goal with
  | |- temperature_2m ?rec = _ /\ _ =>
      destruct (process_response_rounds Sample.utcoffset Sample.api_response
                  Sample.lat Sample.lon _ eq_refl 0%nat rec eq_refl)
        as [Ht Hh]
  end.
  destruct (Ht (1234 # 100)%Q eq_refl) as (q & Hq & _ & Hr).
  destruct (Hh (802 # 10)%Q eq_refl) as (q' & Hq' & _ & Hr').
  vm_compute in Hq. injection Hq as <-.
  vm_compute in Hq'. injection Hq' as <-.
  split; [reflexivity |].
  split; [exact Hr |].
  split; [reflexivity | exact Hr'].
Defined.

(** The table rejects a row without latitude, and one without longitude:
    neither column is nullable. *)
Lemma null_latitude_rejected :
  execute_insert Sample.now
    {| bind_timestamp := Some "2023-11-14T23:13:20"%string;
       bind_latitude := None;
       bind_longitude := Some Sample.lon;
       bind_temperature_2m := Some (1234 # 100)%Q;
       bind_relative_humidity_2m := Some (802 # 10)%Q |}
    init_database
  = Raise (IntegrityError "NOT NULL constraint failed: weather_data.latitude")
  /\
  execute_insert Sample.now
    {| bind_timestamp := Some "2023-11-14T23:13:20"%string;
       bind_latitude := Some Sample.lat;
       bind_longitude := None;
       bind_temperature_2m := Some (1234 # 100)%Q;
       bind_relative_humidity_2m := Some (802 # 10)%Q |}
    init_database
  = Raise (IntegrityError "NOT NULL constraint failed: weather_data.longitude")
  /\
  ~ (exists now p d d',
       (bind_latitude p = None \/ bind_longitude p = None)
       /\ execute_insert now p d = Ok d').
Proof.
  split; [reflexivity |]. split; [reflexivity |].
  intros (now & p & d & d' & Hnull & Hok).
  assert (Hacc : exists d', execute_insert now p d = Ok d') by eauto.
  apply execute_insert_accepts in Hacc. destruct Hacc as (_ & Hlat & Hlon).
  destruct Hnull; contradiction.
Qed.

(** A row without temperature and humidity is taken. *)
Lemma stored_record_type_sample :
  exists d',
    execute_insert Sample.now
      {| bind_timestamp := Some "2023-11-14T23:13:20"%string;
         bind_latitude := Some Sample.lat;
         bind_longitude := Some Sample.lon;
         bind_temperature_2m := None;
         bind_relative_humidity_2m := None |}
      init_database = Ok d'.
Proof.
  apply (proj2 (proj1 (stored_record_type Sample.utcoffset Sample.http_get
                         Sample.weather_api Sample.within_hours
                         Sample.to_datetime Sample._create_weather_chart)
                  _ _ _)).
  repeat split; discriminate.
Defined.


(** The weather report of the sample: two records fetched, two rows
    written, [database_stored] 2. *)
Lemma weather_report_persists_sample :
  exists result log' w',
    fetch_weather_data Sample.utcoffset Sample.http_get Sample.weather_api
      Sample.now (Fin Sample.lat) (Fin Sample.lon) 2 (App.api_log Sample.world0)
    = (Ok result, log')
    /\ App.get_weather_report Sample.utcoffset Sample.http_get Sample.weather_api
         Sample.now (Some (Fin Sample.lat)) (Some (Fin Sample.lon)) Sample.world0
       = (Ok (App.mkResponse 200 (App.ReportJson result 2)), w')
    /\ map record_of_row (weather_data (App.db w')) = data result.
Proof.
  eexists. eexists.
  match goal with
  | |- exists w', ?f = (Ok ?r, ?l) /\ _ =>
      assert (Hf : f = (Ok r, l)) by (vm_compute; reflexivity)
  end.
  destruct (weather_report_persists Sample.utcoffset Sample.http_get
              Sample.weather_api Sample.now (Fin Sample.lat) (Fin Sample.lon)
              Sample.world0 _ _ Hf)
    as (w' & Hreport & _ & (added & Hrows & Hadded) & _).
  exists w'.
  split; [exact Hf |].
  split; [exact Hreport |].
  rewrite Hrows. cbn [App.db Sample.world0 init_database weather_data app].
  exact Hadded.
Defined.

(** A latitude of 91 degrees: a [ValueError], status 400, nothing done. *)
Lemma coordinate_validation_sample :
  ~ within (-90 # 1) (90 # 1) (Fin (91 # 1))
  /\ (exists msg,
        fetch_weather_data Sample.utcoffset Sample.http_get Sample.weather_api
          Sample.now (Fin (91 # 1)) (Fin Sample.lon) 2 []
        = (Raise (ValueError msg), []))
  /\ (exists body,
        App.get_weather_report Sample.utcoffset Sample.http_get Sample.weather_api
          Sample.now (Some (Fin (91 # 1))) (Some (Fin Sample.lon)) Sample.world0
        = (Ok (App.mkResponse 400 body), Sample.world0)).
Proof.
  assert (Hout : ~ within (-90 # 1) (90 # 1) (Fin (91 # 1))).
  { intros (q & Hq & _ & Hle). injection Hq as <-.
    apply Qle_bool_iff in Hle. discriminate. }
  split; [exact Hout |].
  apply (proj1 (coordinate_validation Sample.utcoffset Sample.http_get
                  Sample.weather_api Sample.now (Fin (91 # 1)) (Fin Sample.lon)
                  2 [] Sample.world0)).
  left. exact Hout.
Defined.

(** With [hours] = 0 and an empty table, [get_recent_data] returns no rows
    and the renderers raise their [ValueError], but the two endpoints answer
    with status 400, not 404. *)
Lemma empty_window_hours_out_of_range :
  fst (get_recent_data Sample.within_hours Sample.now 0 init_database) = Ok []
  /\ fst (ExcelService.generate_excel_report Sample.within_hours
            Sample.to_datetime Sample.now 0 init_database)
     = Raise (ValueError "No weather data available for the last hours")
  /\ (exists resp,
        fst (App.export_excel Sample.within_hours Sample.to_datetime
               Sample.now (Some 0) Sample.world0) = Ok resp
        /\ App.status_code resp = 400 /\ App.status_code resp <> 404)
  /\ (exists resp,
        fst (App.export_pdf Sample.utcoffset Sample.within_hours
               Sample.to_datetime Sample._create_weather_chart
               Sample.now (Some 0) Sample.world0) = Ok resp
        /\ App.status_code resp = 400 /\ App.status_code resp <> 404).
Proof.
  split; [reflexivity |]. split; [reflexivity |].
  split; eexists; (split; [reflexivity |]); split;
    [reflexivity | discriminate | reflexivity | discriminate].
Qed.

(** With [hours] = 5 and an empty table, both endpoints answer 404. *)
Lemma empty_window_sample :
  exists body,
    App.export_excel Sample.within_hours Sample.to_datetime
      Sample.now (Some 5) Sample.world0
    = (Ok (App.mkResponse 404 body), Sample.world0)
    /\ App.export_pdf Sample.utcoffset Sample.within_hours Sample.to_datetime
         Sample._create_weather_chart Sample.now (Some 5) Sample.world0
       = (Ok (App.mkResponse 404 body), Sample.world0).
Proof.
  apply (proj1 (proj2 (proj2 (empty_window Sample.utcoffset Sample.within_hours
                                Sample.to_datetime Sample._create_weather_chart
                                Sample.now 5 init_database))
                 (Some 5) Sample.world0 eq_refl eq_refl)).
  - lia.
  - reflexivity.
Defined.

End Examples.


(* ================================================================== *)
(** * Facts about the order of timestamps *)
(* ================================================================== *)

Module StringOrder.

Lemma ascii_compare_lt_trans (a b c : ascii) :
  Ascii.compare a b = Lt -> Ascii.compare b c = Lt -> Ascii.compare a c = Lt.
Proof.
  unfold Ascii.compare. rewrite !N.compare_lt_iff. apply N.lt_trans.
Qed.

Lemma compare_lt_trans (s1 : string) :
  forall s2 s3,
    String.compare s1 s2 = Lt -> String.compare s2 s3 = Lt ->
    String.compare s1 s3 = Lt.
Proof.
  induction s1 as [| a s1 IH]; intros [| b s2] [| c s3]; cbn [String.compare];
    try discriminate; try reflexivity.
  destruct (Ascii.compare a b) eqn:Hab; try discriminate;
    destruct (Ascii.compare b c) eqn:Hbc; try discriminate; intros H1 H2.
  - apply Ascii.compare_eq_iff in Hab, Hbc. subst.
    assert (Hcc : Ascii.compare c c = Eq)
      by (unfold Ascii.compare; apply N.compare_refl).
    rewrite Hcc. eapply IH; eassumption.
  - apply Ascii.compare_eq_iff in Hab. subst. rewrite Hbc. reflexivity.
  - apply Ascii.compare_eq_iff in Hbc. subst. rewrite Hab. reflexivity.
  - rewrite (ascii_compare_lt_trans _ _ _ Hab Hbc). reflexivity.
Qed.

Lemma leb_refl (s : string) : String.leb s s = true.
Proof. destruct (String.leb_total s s); assumption. Qed.

Lemma leb_trans (s1 s2 s3 : string) :
  String.leb s1 s2 = true -> String.leb s2 s3 = true -> String.leb s1 s3 = true.
Proof.
  intros H1 H2.
  destruct (String.compare s1 s2) eqn:H12.
  - rewrite (String.compare_eq_iff _ _ H12). exact H2.
  - destruct (String.compare s2 s3) eqn:H23.
    + rewrite <- (String.compare_eq_iff _ _ H23). exact H1.
    + unfold String.leb. rewrite (compare_lt_trans _ _ _ H12 H23). reflexivity.
    + unfold String.leb in H2. rewrite H23 in H2. discriminate.
  - unfold String.leb in H1. rewrite H12 in H1. discriminate.
Qed.

Lemma ltb_leb (s1 s2 : string) : String.ltb s1 s2 = true -> String.leb s1 s2 = true.
Proof.
  unfold String.ltb, String.leb. destruct (String.compare s1 s2); congruence.
Qed.

Lemma ltb_false_leb (s1 s2 : string) :
  String.ltb s1 s2 = false -> String.leb s2 s1 = true.
Proof.
  unfold String.ltb, String.leb. rewrite (String.compare_antisym s2 s1).
  destruct (String.compare s1 s2); simpl; congruence.
Qed.

End StringOrder.

(* ================================================================== *)
(** * More facts about the database *)
(* ================================================================== *)

Module WeatherDatabaseMore.
Import Py Eff WeatherService WeatherDatabase Spec Props.
Import WeatherDatabaseFacts StringOrder.

(** ** [ORDER BY timestamp DESC LIMIT 1000] *)

Lemma insert_desc_perm (r : weather_row) (l : list weather_row) :
  Permutation (insert_desc r l) (r :: l).
Proof.
  induction l as [| x l IH]; simpl.
  - reflexivity.
  - destruct (String.leb (row_timestamp x) (row_timestamp r)).
    + reflexivity.
    + rewrite IH. apply perm_swap.
Qed.

Lemma order_by_timestamp_desc_perm (l : list weather_row) :
  Permutation (order_by_timestamp_desc l) l.
Proof.
  induction l as [| r l IH]; simpl.
  - reflexivity.
  - rewrite insert_desc_perm. apply perm_skip, IH.
Qed.

Lemma insert_desc_sorted (r : weather_row) (l : list weather_row) :
  StronglySorted newer_or_same l -> StronglySorted newer_or_same (insert_desc r l).
Proof.
  induction 1 as [| x l Hl IH Hx]; simpl.
  - repeat constructor.
  - destruct (String.leb (row_timestamp x) (row_timestamp r)) eqn:Hle.
    + constructor; [constructor; assumption |].
      constructor; [exact Hle |].
      eapply Forall_impl; [| exact Hx].
      intros y Hy. unfold newer_or_same in *. eapply leb_trans; eassumption.
    + constructor; [exact IH |].
      apply (Permutation_Forall (Permutation_sym (insert_desc_perm r l))).
      constructor; [| exact Hx].
      unfold newer_or_same.
      destruct (String.leb_total (row_timestamp x) (row_timestamp r)) as [H | H];
        [congruence | exact H].
Qed.

Lemma order_by_timestamp_desc_sorted (l : list weather_row) :
  StronglySorted newer_or_same (order_by_timestamp_desc l).
Proof.
  induction l as [| r l IH]; simpl.
  - constructor.
  - apply insert_desc_sorted, IH.
Qed.

Lemma firstn_In {A} (n : nat) (l : list A) (x : A) :
  In x (firstn n l) -> In x l.
Proof.
  intros H. rewrite <- (firstn_skipn n l). apply in_or_app. left. exact H.
Qed.

Lemma sorted_app {A} (R : A -> A -> Prop) (l1 l2 : list A) :
  StronglySorted R (l1 ++ l2) ->
  StronglySorted R l1
  /\ forall a b, In a l1 -> In b l2 -> R a b.
Proof.
  induction l1 as [| x l1 IH]; simpl; intros H.
  - split; [constructor | contradiction].
  - inversion H as [| ? ? Hs Hx]; subst.
    destruct (IH Hs) as [H1 H2].
    apply Forall_app in Hx. destruct Hx as [Hx1 Hx2].
    split; [constructor; assumption |].
    intros a b [-> | Ha] Hb.
    + rewrite Forall_forall in Hx2. auto.
    + auto.
Qed.

(** X1.  [get_recent_data] never fails and leaves the database as it
    was.  It returns at most 1000 rows, each of them a row of the table
    that is within the window, the newest first in the order of the
    timestamp text. *)
Theorem recent_data_newest_first within_hours now hours d :
  exists rows,
    get_recent_data within_hours now hours d = (Ok rows, d)
    /\ (List.length rows <= 1000)%nat
    /\ Forall (fun row => In row (weather_data d)
                          /\ within_hours now hours (row_timestamp row) = true)
         rows
    /\ StronglySorted newer_or_same rows.
Proof.
  exists (recent_rows within_hours now hours d).
  split; [reflexivity |].
  unfold recent_rows.
  set (sorted := order_by_timestamp_desc _).
  split; [rewrite length_firstn; lia |].
  split.
  - apply Forall_forall. intros row Hin.
    apply firstn_In in Hin.
    apply (Permutation_in _ (order_by_timestamp_desc_perm _)) in Hin.
    apply filter_In in Hin. exact Hin.
  - pose proof (order_by_timestamp_desc_sorted
                  (filter (fun r => within_hours now hours (row_timestamp r))
                          (weather_data d))) as Hs.
    fold sorted in Hs.
    rewrite <- (firstn_skipn 1000 sorted) in Hs.
    apply sorted_app in Hs. apply Hs.
Qed.

(** X2.  The limit of [get_recent_data]: of the rows of the window it
    returns 1000, or all of them when they are fewer, and none of the rows
    it leaves out is newer than a row it returns. *)
Theorem recent_data_limit within_hours now hours d :
  exists rows dropped,
    get_recent_data within_hours now hours d = (Ok rows, d)
    /\ Permutation (rows ++ dropped) (rows_within within_hours now hours d)
    /\ List.length rows
       = Nat.min 1000 (List.length (rows_within within_hours now hours d))
    /\ (forall kept late, In kept rows -> In late dropped -> newer_or_same kept late)
    /\ ((List.length (rows_within within_hours now hours d) <= 1000)%nat ->
        dropped = []).
Proof.
  unfold rows_within.
  set (matching := filter _ (weather_data d)).
  exists (firstn 1000 (order_by_timestamp_desc matching)).
  exists (skipn 1000 (order_by_timestamp_desc matching)).
  split; [reflexivity |].
  pose proof (order_by_timestamp_desc_perm matching) as HP.
  split; [rewrite firstn_skipn; exact HP |].
  split; [rewrite length_firstn, (Permutation_length HP); reflexivity |].
  split.
  - pose proof (order_by_timestamp_desc_sorted matching) as Hs.
    rewrite <- (firstn_skipn 1000 (order_by_timestamp_desc matching)) in Hs.
    apply sorted_app in Hs. apply Hs.
  - intros Hlen. apply skipn_all2. rewrite (Permutation_length HP). exact Hlen.
Qed.

(** ** Storing, then reading *)

Lemma rows_of_records_In now rowid records record :
  In record records ->
  exists row, In row (rows_of_records now rowid records)
              /\ record_of_row row = record.
Proof.
  revert rowid. induction records as [| r l IH]; intros rowid Hin; simpl in *.
  - contradiction.
  - destruct Hin as [-> | Hin].
    + eexists. split; [left; reflexivity | apply record_of_row_of_record].
    + destruct (IH (rowid + 1) Hin) as (row & Hrow & Hrec). eauto.
Qed.

(** X3.  Store, then read: while the window holds at most 1000 rows,
    every record just stored whose timestamp is within the window is
    returned by [get_recent_data] with the five fields it was stored with,
    and the rows that were returned before the store still are. *)
Theorem stored_records_are_read_back within_hours now now' hours records d :
  let d' := snd (store_weather_data now records d) in
  (List.length (rows_within within_hours now' hours d') <= 1000)%nat ->
  (forall record,
     In record records ->
     within_hours now' hours (timestamp record) = true ->
     exists row,
       In row (recent_rows within_hours now' hours d')
       /\ record_of_row row = record)
  /\ (forall row,
        In row (recent_rows within_hours now' hours d) ->
        In row (recent_rows within_hours now' hours d')).
Proof.
  intros d' Hlen. subst d'.
  rewrite store_weather_data_appends in *. cbn [snd] in *.
  unfold rows_within in Hlen. cbn [weather_data] in Hlen.
  assert (Hall : forall row,
             In row (weather_data d ++ rows_of_records now (last_rowid d + 1) records) ->
             within_hours now' hours (row_timestamp row) = true ->
             In row (recent_rows within_hours now' hours
                       {| weather_data :=
                            weather_data d
                            ++ rows_of_records now (last_rowid d + 1) records;
                          last_rowid :=
                            last_rowid d + Z.of_nat (List.length records) |})).
  { intros row Hin Hw. unfold recent_rows. cbn [weather_data].
    rewrite firstn_all2
      by (rewrite (Permutation_length (order_by_timestamp_desc_perm _)); exact Hlen).
    apply (Permutation_in _ (Permutation_sym (order_by_timestamp_desc_perm _))).
    apply filter_In. auto. }
  split.
  - intros record Hin Hw.
    destruct (rows_of_records_In now (last_rowid d + 1) records record Hin)
      as (row & Hrow & Hrec).
    exists row. split; [| exact Hrec].
    apply Hall; [apply in_or_app; right; exact Hrow |].
    rewrite <- Hrec in Hw. exact Hw.
  - intros row Hin. unfold recent_rows in Hin.
    apply firstn_In in Hin.
    apply (Permutation_in _ (order_by_timestamp_desc_perm _)) in Hin.
    apply filter_In in Hin. destruct Hin as [Hin Hw].
    apply Hall; [apply in_or_app; left; exact Hin | exact Hw].
Qed.

End WeatherDatabaseMore.

(* ================================================================== *)
(** * Facts about the summary of the table *)
(* ================================================================== *)

Module SummaryFacts.
Import Py Eff WeatherService WeatherDatabase Spec Props.
Import StringOrder WeatherDatabaseMore.

Lemma min_string_spec (l : list string) :
  match min_string l with
  | None => l = []
  | Some m => In m l /\ forall s, In s l -> String.leb m s = true
  end.
Proof.
  induction l as [| s l IH]; simpl; [reflexivity |].
  destruct (min_string l) as [m |].
  - destruct IH as [Hin Hle].
    destruct (String.ltb s m) eqn:Hlt.
    + split; [left; reflexivity |].
      intros t [<- | Ht]; [apply leb_refl |].
      eapply leb_trans; [apply ltb_leb; exact Hlt | apply Hle; exact Ht].
    + split; [right; exact Hin |].
      intros t [<- | Ht]; [apply ltb_false_leb; exact Hlt | apply Hle; exact Ht].
  - subst l. split; [left; reflexivity |].
    intros t [<- | []]. apply leb_refl.
Qed.

Lemma max_string_spec (l : list string) :
  match max_string l with
  | None => l = []
  | Some m => In m l /\ forall s, In s l -> String.leb s m = true
  end.
Proof.
  induction l as [| s l IH]; simpl; [reflexivity |].
  destruct (max_string l) as [m |].
  - destruct IH as [Hin Hle].
    destruct (String.ltb m s) eqn:Hlt.
    + split; [left; reflexivity |].
      intros t [<- | Ht]; [apply leb_refl |].
      eapply leb_trans; [apply Hle; exact Ht | apply ltb_leb; exact Hlt].
    + split; [right; exact Hin |].
      intros t [<- | Ht]; [apply ltb_false_leb; exact Hlt | apply Hle; exact Ht].
  - subst l. split; [left; reflexivity |].
    intros t [<- | []]. apply leb_refl.
Qed.

Lemma same_location_refl (a : Q * Q) : same_location a a = true.
Proof.
  unfold same_location. apply andb_true_iff. split; apply Qeq_bool_iff; reflexivity.
Qed.

Lemma same_location_trans (a b c : Q * Q) :
  same_location a b = true -> same_location b c = true -> same_location a c = true.
Proof.
  unfold same_location. rewrite !andb_true_iff, !Qeq_bool_iff.
  intros [H1 H2] [H3 H4]. split; etransitivity; eassumption.
Qed.

Lemma distinct_spec (l : list (Q * Q)) :
  forall seen,
    Forall (fun x => In x l /\ existsb (same_location x) seen = false)
      (distinct seen l)
    /\ ForallOrdPairs (fun a b => same_location b a = false) (distinct seen l)
    /\ (forall x, In x l ->
          existsb (same_location x) (seen ++ distinct seen l) = true).
Proof.
  induction l as [| x l IH]; intros seen; cbn [distinct].
  - repeat split; [constructor | constructor | contradiction].
  - destruct (existsb (same_location x) seen) eqn:Hx.
    + destruct (IH seen) as (H1 & H2 & H3).
      split; [| split; [exact H2 |]].
      * eapply Forall_impl; [| exact H1]. intros y [Hy Hs]. split; [right |]; assumption.
      * intros y [<- | Hy]; [| apply H3; exact Hy].
        rewrite existsb_app, Hx. reflexivity.
    + destruct (IH (x :: seen)) as (H1 & H2 & H3).
      split; [| split].
      * constructor; [split; [left; reflexivity | exact Hx] |].
        eapply Forall_impl; [| exact H1]. intros y [Hy Hs].
        split; [right; exact Hy |].
        cbn [existsb] in Hs. apply orb_false_iff in Hs. apply Hs.
      * constructor; [| exact H2].
        eapply Forall_impl; [| exact H1]. intros y [_ Hs].
        cbn [existsb] in Hs. apply orb_false_iff in Hs. apply Hs.
      * intros y Hy.
        assert (Hgoal : existsb (same_location y) ((x :: seen) ++ distinct (x :: seen) l)
                        = true).
        { destruct Hy as [<- | Hy]; [| apply H3; exact Hy].
          cbn [app existsb]. rewrite same_location_refl. reflexivity. }
        rewrite existsb_app in Hgoal |- *. cbn [existsb] in Hgoal |- *.
        rewrite !orb_true_iff in Hgoal |- *. tauto.
Qed.

Lemma ForallOrdPairs_firstn {A} (R : A -> A -> Prop) (n : nat) (l : list A) :
  ForallOrdPairs R l -> ForallOrdPairs R (firstn n l).
Proof.
  intros H. revert n. induction H as [| x l Hx Hl IH]; intros [| n]; simpl;
    try constructor.
  - apply Forall_forall. intros y Hy. apply firstn_In in Hy.
    rewrite Forall_forall in Hx. auto.
  - apply IH.
Qed.

(** X4.  [get_data_summary] never fails and leaves the database as it
    was.  [total_records] is the number of rows; of an empty table [oldest]
    and [latest] are null, otherwise they are timestamps of the table, the
    least and the greatest in the order of the text. *)
Theorem data_summary_date_range d :
  exists s,
    get_data_summary d = (Ok s, d)
    /\ summary_total_records s = List.length (weather_data d)
    /\ match weather_data d with
       | [] => oldest s = None /\ latest s = None
       | _ :: _ =>
           exists first last,
             oldest s = Some first /\ latest s = Some last
             /\ In first (map row_timestamp (weather_data d))
             /\ In last (map row_timestamp (weather_data d))
             /\ forall row,
                  In row (weather_data d) ->
                  String.leb first (row_timestamp row) = true
                  /\ String.leb (row_timestamp row) last = true
       end.
Proof.
  eexists. split; [reflexivity |]. cbn [summary_total_records oldest latest].
  split; [reflexivity |].
  pose proof (min_string_spec (map row_timestamp (weather_data d))) as Hmin.
  pose proof (max_string_spec (map row_timestamp (weather_data d))) as Hmax.
  destruct (weather_data d) as [| r rows] eqn:Hrows.
  - split; reflexivity.
  - destruct (min_string _) as [first |]; [| discriminate].
    destruct (max_string _) as [last |]; [| discriminate].
    destruct Hmin as [Hin1 Hle1]. destruct Hmax as [Hin2 Hle2].
    exists first, last. repeat split; try assumption.
    + apply Hle1. apply in_map. assumption.
    + apply Hle2. apply in_map. assumption.
Qed.

(** X5.  The locations of the summary are at most ten, each the
    coordinates of a row, no two of them the same, and [unique_locations]
    is their number; when they are fewer than ten, every row of the table
    is at one of them. *)
Theorem data_summary_locations d :
  exists s,
    get_data_summary d = (Ok s, d)
    /\ unique_locations s = List.length (locations s)
    /\ (unique_locations s <= 10)%nat
    /\ Forall (fun loc =>
                 exists row, In row (weather_data d)
                             /\ loc = (row_latitude row, row_longitude row))
         (locations s)
    /\ ForallOrdPairs (fun a b => same_location b a = false) (locations s)
    /\ ((unique_locations s < 10)%nat ->
        forall row,
          In row (weather_data d) ->
          existsb (same_location (row_latitude row, row_longitude row))
            (locations s) = true).
Proof.
  eexists. split; [reflexivity |]. cbn [unique_locations locations].
  set (locs := map (fun r => (row_latitude r, row_longitude r)) (weather_data d)).
  destruct (distinct_spec locs []) as (H1 & H2 & H3).
  split; [reflexivity |].
  split; [rewrite length_firstn; lia |].
  split; [| split].
  - apply Forall_forall. intros loc Hin. apply firstn_In in Hin.
    rewrite Forall_forall in H1. destruct (H1 loc Hin) as [Hloc _].
    apply in_map_iff in Hloc. destruct Hloc as (row & Hrow & Hin').
    exists row. auto.
  - apply ForallOrdPairs_firstn. exact H2.
  - intros Hlt row Hin.
    rewrite length_firstn in Hlt.
    rewrite firstn_all2 by lia.
    apply (H3 (row_latitude row, row_longitude row)).
    apply (in_map (fun r => (row_latitude r, row_longitude r))). exact Hin.
Qed.

End SummaryFacts.

(* ================================================================== *)
(** * More facts about the weather service *)
(* ================================================================== *)

Module WeatherServiceMore.
Import Py Eff WeatherService Spec Props.
Import PyFacts WeatherServiceFacts.

(** ** [range] *)

Lemma range_nth start stop step times :
  range start stop step = Ok times ->
  forall i t,
    nth_error times i = Some t ->
    t = start + Z.of_nat i * step
    /\ (0 < step -> start <= t < stop)
    /\ (step < 0 -> stop < t <= start).
Proof.
  unfold range. destruct (step =? 0) eqn:Hz; [discriminate |].
  apply Z.eqb_neq in Hz.
  intros H i t Hi. injection H as <-.
  rewrite nth_error_map in Hi.
  destruct (nth_error (seq 0 _) i) as [k |] eqn:Hk; [| discriminate].
  injection Hi as <-.
  assert (Hlt : (i < Z.to_nat (range_len start stop step))%nat).
  { rewrite <- (length_seq (Z.to_nat (range_len start stop step)) 0).
    apply nth_error_Some. congruence. }
  rewrite nth_error_seq in Hk.
  destruct (Nat.ltb_spec i (Z.to_nat (range_len start stop step))); [| lia].
  injection Hk as <-. cbn [Nat.add].
  split; [reflexivity |].
  unfold range_len in Hlt.
  split; intros Hstep.
  - destruct (0 <? step) eqn:Hpos; [| apply Z.ltb_ge in Hpos; lia].
    destruct (start <? stop) eqn:Hss; [| simpl in Hlt; lia].
    apply Z.ltb_lt in Hss.
    pose proof (Z.mul_div_le (stop - start - 1) step Hstep) as Hq.
    assert (Hi : Z.of_nat i <= (stop - start - 1) / step) by lia.
    assert (Hm : Z.of_nat i * step <= (stop - start - 1) / step * step)
      by (apply Z.mul_le_mono_nonneg_r; lia).
    lia.
  - destruct (0 <? step) eqn:Hpos; [apply Z.ltb_lt in Hpos; lia |].
    destruct (stop <? start) eqn:Hss; [| simpl in Hlt; lia].
    apply Z.ltb_lt in Hss.
    assert (Hneg : 0 < - step) by lia.
    pose proof (Z.mul_div_le (start - stop - 1) (- step) Hneg) as Hq.
    assert (Hi : Z.of_nat i <= (start - stop - 1) / (- step)) by lia.
    assert (Hm : Z.of_nat i * (- step) <= (start - stop - 1) / (- step) * (- step))
      by (apply Z.mul_le_mono_nonneg_r; lia).
    lia.
Qed.

Section Service.

Variable utcoffset : Z -> Z.
Variable http_get : api_params -> result Z.
Variable weather_api : api_params -> result (list WeatherApiResponse).

Abbreviation fetch_weather_data :=
  (WeatherService.fetch_weather_data utcoffset http_get weather_api).

(** ** The result of the normalization, field by field *)

Lemma process_response_result response lat lon res :
  _process_response utcoffset response lat lon = Ok res ->
  let records := all_records utcoffset response lat lon in
  res = {| status := "success";
           meta :=
             {| meta_latitude := Latitude response;
                meta_longitude := Longitude response;
                meta_elevation := Elevation response;
                meta_timezone_offset := UtcOffsetSeconds response;
                total_records := List.length records;
                valid_records := List.length (filter both_present records);
                date_range_start := option_map timestamp (hd_error records);
                date_range_end :=
                  option_map timestamp (last (map Some records) None) |};
           data := filter both_present records;
           sample_data := firstn 5 (filter both_present records) |}.
Proof.
  unfold _process_response, all_records, temperature_data, humidity_data,
    time_points, hourly_arrays.
  destruct (Hourly response) as [hourly |]; [| discriminate].
  unfold range.
  destruct (Interval hourly =? 0) eqn:Hstep; [discriminate |].
  cbn [bind].
  destruct (VariablesLength hourly <? 2)%nat; [discriminate |].
  destruct (Variables hourly) as [| v0 [| v1 vars]]; try discriminate.
  destruct (ValuesAsNumpy v0) as [| t0 temp] eqn:Ht.
  { simpl. discriminate. }
  destruct (ValuesAsNumpy v1) as [| h0 hum] eqn:Hh.
  { simpl. discriminate. }
  cbn [List.length Nat.eqb orb].
  rewrite process_loop_traverse. cbn [skipn app].
  destruct (traverse _ _) as [records |] eqn:Htr; [| discriminate].
  cbn [bind]. intros H. injection H as <-. reflexivity.
Qed.

Lemma last_option {A} (l : list A) :
  last (map Some l) None = nth_error l (List.length l - 1).
Proof.
  induction l as [| x l IH]; [reflexivity |].
  destruct l as [| y l]; [reflexivity |].
  change (last (map Some (x :: y :: l)) None) with (last (map Some (y :: l)) None).
  rewrite IH. cbn [List.length Nat.sub nth_error]. rewrite ?Nat.sub_0_r. reflexivity.
Qed.

Lemma all_records_coordinates response lat lon record :
  In record (all_records utcoffset response lat lon) ->
  latitude record = lat /\ longitude record = lon.
Proof.
  unfold all_records.
  rewrite process_loop_traverse. cbn [skipn app].
  destruct (traverse _ _) as [records |] eqn:Htr; [| contradiction].
  cbn [bind]. intros Hin.
  apply In_nth_error in Hin. destruct Hin as [i Hi].
  destruct (traverse_nth_error _ _ _ Htr i record Hi) as ([[time t] h] & _ & Hf).
  apply make_record_fields in Hf.
  destruct Hf as (dt & _ & _ & _ & _ & Hlat & Hlon). auto.
Qed.

Lemma filter_length_le {A} (f : A -> bool) (l : list A) :
  (List.length (filter f l) <= List.length l)%nat.
Proof.
  induction l as [| x l IH]; simpl; [lia |]. destruct (f x); simpl; lia.
Qed.

(** Record [i] is the record of time point [i], and there are as many
    records as aligned triples. *)
Lemma records_nth response lat lon res :
  _process_response utcoffset response lat lon = Ok res ->
  let records := all_records utcoffset response lat lon in
  (List.length records <= List.length (time_points response))%nat
  /\ (time_points response <> [] -> records <> [])
  /\ forall i record,
       nth_error records i = Some record ->
       exists time dt,
         nth_error (time_points response) i = Some time
         /\ fromtimestamp utcoffset time = Ok dt
         /\ timestamp record = isoformat dt.
Proof.
  intros H records.
  destruct (process_response_inv utcoffset _ _ _ _ H)
    as (hourly & temp & hum & recs & Harr & _ & Ht & Hh & Htr & Hall & _).
  subst records. rewrite Hall.
  split; [| split].
  - rewrite (traverse_length _ _ _ Htr), !length_combine. lia.
  - intros Hne E. rewrite E in Htr.
    apply traverse_length in Htr. rewrite !length_combine in Htr.
    destruct temp; [contradiction |]. destruct hum; [contradiction |].
    destruct (time_points response); [contradiction |].
    simpl in Htr. rewrite ?E in Htr. discriminate.
  - intros i record Hi.
    destruct (traverse_nth_error _ _ _ Htr i record Hi) as ([[time t] h] & Hx & Hf).
    apply nth_error_combine in Hx. destruct Hx as [Hx _].
    apply nth_error_combine in Hx. destruct Hx as [Hx _].
    apply make_record_fields in Hf. destruct Hf as (dt & Hdt & Hts & _).
    eauto.
Qed.

(** X6.  In a result of the normalization, [valid_records] is at most
    [total_records], which is at most the number of time points; the sample
    is the first five records of [data]; the date range runs from the
    timestamp of the first record to that of the last, valid or not, and
    its start is null exactly when there is no time point; every record carries the
    coordinates of the request, the metadata those of the response. *)
Theorem process_response_metadata response lat lon res :
  _process_response utcoffset response lat lon = Ok res ->
  let records := all_records utcoffset response lat lon in
  (valid_records (meta res) <= total_records (meta res))%nat
  /\ (total_records (meta res) <= List.length (time_points response))%nat
  /\ sample_data res = firstn 5 (data res)
  /\ (List.length (sample_data res) <= 5)%nat
  /\ date_range_start (meta res) = option_map timestamp (nth_error records 0)
  /\ date_range_end (meta res)
     = option_map timestamp (nth_error records (List.length records - 1))
  /\ (date_range_start (meta res) = None <-> time_points response = [])
  /\ (forall record,
        In record (data res) -> latitude record = lat /\ longitude record = lon)
  /\ meta_latitude (meta res) = Latitude response
  /\ meta_longitude (meta res) = Longitude response.
Proof.
  intros H records.
  pose proof (process_response_result _ _ _ _ H) as Hres.
  destruct (records_nth _ _ _ _ H) as (Hlen & Hne & _).
  fold records in Hres, Hlen, Hne. cbv zeta in Hres, Hlen, Hne.
  rewrite Hres.
  cbn [meta data sample_data valid_records total_records date_range_start
       date_range_end meta_latitude meta_longitude].
  split; [apply filter_length_le |].
  split; [lia |].
  split; [reflexivity |].
  split; [rewrite length_firstn; lia |].
  split; [destruct records; reflexivity |].
  split; [rewrite last_option; reflexivity |].
  split.
  - destruct records as [| r rs]; destruct (time_points response) as [| t ts];
      cbn [List.length hd_error option_map] in *;
      split; intros E; try reflexivity; try discriminate; try lia.
    exfalso. apply Hne; [discriminate | reflexivity].
  - split; [| split; reflexivity].
    intros record Hin. apply filter_In in Hin. destruct Hin as [Hin _].
    apply (all_records_coordinates response lat lon record Hin).
Qed.

(** X7.  In a result of the normalization the i-th record is stamped
    with the local time of [Time + i * Interval], an instant from [Time]
    on and before [TimeEnd] (after it, when the interval is negative). *)
Theorem records_follow_the_interval response lat lon res :
  _process_response utcoffset response lat lon = Ok res ->
  exists hourly,
    Hourly response = Some hourly
    /\ forall i record,
         nth_error (all_records utcoffset response lat lon) i = Some record ->
         let time := Time hourly + Z.of_nat i * Interval hourly in
         (exists dt, fromtimestamp utcoffset time = Ok dt
                     /\ timestamp record = isoformat dt)
         /\ (0 < Interval hourly -> Time hourly <= time < TimeEnd hourly)
         /\ (Interval hourly < 0 -> TimeEnd hourly < time <= Time hourly).
Proof.
  intros H.
  destruct (records_nth _ _ _ _ H) as (_ & _ & Hnth).
  destruct (process_response_inv utcoffset _ _ _ _ H)
    as (hourly & temp & hum & recs & Harr & Hstep & _).
  assert (Hh : Hourly response = Some hourly).
  { unfold hourly_arrays in Harr. destruct (Hourly response) as [h |]; [| discriminate].
    destruct (Variables h) as [| v0 [| v1 vs]]; try discriminate.
    injection Harr as -> _ _. reflexivity. }
  exists hourly. split; [exact Hh |].
  intros i record Hi time.
  destruct (Hnth i record Hi) as (t & dt & Ht & Hdt & Hts).
  assert (Hrange : range (Time hourly) (TimeEnd hourly) (Interval hourly)
                   = Ok (time_points response)).
  { unfold time_points. rewrite Hh. unfold range.
    apply Z.eqb_neq in Hstep. rewrite Hstep. reflexivity. }
  destruct (range_nth _ _ _ _ Hrange i t Ht) as (Heq & Hpos & Hneg).
  subst time. rewrite <- Heq. split; [eauto | split; assumption].
Qed.

(** ** The guards of the normalization, in the order they are tried *)

(** X8.  The guards of the normalization, in the order they are tried:
    a response without hourly block, an interval of zero (where [range]
    raises its [ValueError]), fewer than two variables, an empty array of
    values. *)
Theorem process_response_errors response lat lon :
  (Hourly response = None ->
   _process_response utcoffset response lat lon
   = Raise (Exception "No hourly data in response"))
  /\ (forall hourly,
        Hourly response = Some hourly ->
        (Interval hourly = 0 ->
         _process_response utcoffset response lat lon
         = Raise (ValueError "range() arg 3 must not be zero"))
        /\ (Interval hourly <> 0 ->
            (List.length (Variables hourly) < 2)%nat ->
            exists got,
              _process_response utcoffset response lat lon
              = Raise (Exception
                         ("Expected 2 variables (temperature, humidity)" ++ got)))
        /\ (Interval hourly <> 0 ->
            forall v0 v1 rest,
              Variables hourly = v0 :: v1 :: rest ->
              ValuesAsNumpy v0 = [] \/ ValuesAsNumpy v1 = [] ->
              _process_response utcoffset response lat lon
              = Raise (Exception "No temperature or humidity data received"))).
Proof.
  unfold _process_response. split.
  - intros ->. reflexivity.
  - intros hourly ->. unfold range, VariablesLength. split; [| split].
    + intros ->. reflexivity.
    + intros Hstep Hlen. apply Z.eqb_neq in Hstep. rewrite Hstep. cbn [bind].
      exists EmptyString.
      destruct (Variables hourly) as [| v0 [| v1 vs]]; cbn in *; try reflexivity; lia.
    + intros Hstep v0 v1 rest -> Hempty.
      apply Z.eqb_neq in Hstep. rewrite Hstep. cbn [bind List.length Nat.ltb Nat.leb].
      destruct Hempty as [-> | ->]; [reflexivity |].
      destruct (ValuesAsNumpy v0); reflexivity.
Qed.

(** ** The calls of [fetch_weather_data] *)




End Service.

End WeatherServiceMore.

(* ================================================================== *)
(** * More facts about the two reports *)
(* ================================================================== *)

Module ReportMore.
Import Py Eff WeatherService WeatherDatabase Spec Props.
Import WeatherServiceFacts PdFacts ReportFacts WeatherDatabaseMore.

(** ** [sort_values] *)

Lemma insert_asc_sorted {R} (r : Z * R) (l : list (Z * R)) :
  StronglySorted (fun a b => fst a <= fst b) l ->
  StronglySorted (fun a b => fst a <= fst b) (Pd.insert_asc r l).
Proof.
  induction 1 as [| x l Hl IH Hx]; simpl.
  - repeat constructor.
  - destruct (fst r <? fst x) eqn:Hlt.
    + apply Z.ltb_lt in Hlt.
      constructor; [constructor; assumption |].
      constructor; [lia |].
      eapply Forall_impl; [| exact Hx]. intros y Hy. cbv beta in *. lia.
    + apply Z.ltb_ge in Hlt.
      constructor; [exact IH |].
      apply (Permutation_Forall (Permutation_sym (insert_asc_perm r l))).
      constructor; [exact Hlt | exact Hx].
Qed.

Lemma sort_values_sorted {R} (df : list (Z * R)) :
  StronglySorted (fun a b => fst a <= fst b) (Pd.sort_values df).
Proof.
  induction df as [| r df IH]; simpl.
  - constructor.
  - apply insert_asc_sorted, IH.
Qed.

Lemma sorted_map {A B} (f : A -> B) (R : A -> A -> Prop) (S : B -> B -> Prop)
    (l : list A) :
  (forall a b, R a b -> S (f a) (f b)) ->
  StronglySorted R l -> StronglySorted S (map f l).
Proof.
  intros HRS. induction 1 as [| x l Hl IH Hx]; simpl; constructor.
  - exact IH.
  - rewrite Forall_map. eapply Forall_impl; [| exact Hx]. intros y. apply HRS.
Qed.

Lemma combine_map_r {A B C} (g : B -> C) (l : list A) (l' : list B) :
  combine l (map g l') = map (fun p => (fst p, g (snd p))) (combine l l').
Proof.
  revert l'. induction l as [| a l IH]; intros [| b l']; simpl; try reflexivity.
  f_equal. apply IH.
Qed.

Lemma map_fst_combine {A B} (l : list A) (l' : list B) :
  List.length l = List.length l' -> map fst (combine l l') = l.
Proof.
  revert l'. induction l as [| a l IH]; intros [| b l'] H; simpl in *;
    try discriminate; [reflexivity |].
  f_equal. apply IH. lia.
Qed.

Section Reports.

Variable utcoffset : Z -> Z.
Variable within_hours : Z -> Z -> string -> bool.
Variable to_datetime : string -> result Z.
Variable _create_weather_chart : list (Z * weather_row) -> string.

(** ** The spreadsheet *)

(** X11.  The spreadsheet of a window with rows whose timestamps pandas
    reads: one sheet, "Weather Data", with the three columns timestamp,
    temperature_2m and relative_humidity_2m; one line for each row
    returned by [get_recent_data], holding its parsed timestamp and its two
    values with two decimals; the lines in ascending order of the
    timestamp. *)
Theorem excel_report_contents now hours d rows :
  fst (get_recent_data within_hours now hours d) = Ok rows ->
  rows <> [] ->
  Forall (fun r => exists t, to_datetime (row_timestamp r) = Ok t) rows ->
  exists wb times,
    ExcelService.generate_excel_report within_hours to_datetime now hours d
    = (Ok wb, d)
    /\ traverse to_datetime (map row_timestamp rows) = Ok times
    /\ ExcelService.sheet_name wb = "Weather Data"%string
    /\ ExcelService.header wb
       = ["timestamp"; "temperature_2m"; "relative_humidity_2m"]%string
    /\ List.length (ExcelService.cells wb) = List.length rows
    /\ Permutation (ExcelService.cells wb)
         (map (fun tr => excel_cell (fst tr) (snd tr)) (combine times rows))
    /\ StronglySorted (fun a b => fst (fst a) <= fst (fst b))
         (ExcelService.cells wb).
Proof.
  rewrite get_recent_data_reads. cbn [fst].
  intros Hrows Hne Hall. injection Hrows as Hrows.
  assert (Htr : exists times,
             traverse to_datetime (map row_timestamp rows) = Ok times).
  { apply traverse_total. rewrite Forall_map. exact Hall. }
  destruct Htr as [times Htr].
  pose proof (traverse_length _ _ _ Htr) as Hlen. rewrite length_map in Hlen.
  unfold ExcelService.generate_excel_report, mbind.
  rewrite get_recent_data_reads, Hrows.
  destruct rows as [| r rows']; [contradiction |].
  unfold lift_result, Pd.to_datetime_all. rewrite Htr.
  set (rows := r :: rows') in *.
  eexists. exists times. split; [reflexivity |].
  cbn [ExcelService.sheet_name ExcelService.header ExcelService.cells].
  split; [first [exact Htr | reflexivity] |].
  split; [reflexivity |]. split; [reflexivity |].
  set (values := map (fun r0 => (row_temperature_2m r0, row_relative_humidity_2m r0)) rows).
  set (cell := fun '(t, (temp, hum)) =>
                 (t, option_map (fun x : Q => round x 2) temp,
                  option_map (fun x : Q => round x 2) hum)).
  pose proof (sort_values_perm (combine times values)) as HP.
  split; [| split].
  - rewrite length_map, (Permutation_length HP), length_combine.
    unfold values. rewrite length_map. lia.
  - rewrite (Permutation_map cell HP).
    unfold values. rewrite combine_map_r, map_map.
    apply Permutation_refl'. apply map_ext. intros [t row]. reflexivity.
  - apply (sorted_map cell (fun a b => fst a <= fst b)); [| apply sort_values_sorted].
    intros [t1 [a1 b1]] [t2 [a2 b2]] H. exact H.
Qed.

(** ** The metadata of the PDF report *)

Lemma zmin_spec (l : list Z) (d : Z) :
  In (Pd.zmin l d) (d :: l) /\ Forall (fun t => Pd.zmin l d <= t) (d :: l).
Proof.
  unfold Pd.zmin. induction l as [| x l [Hin Hall]]; cbn [fold_right].
  - split; [left; reflexivity | repeat constructor; lia].
  - set (m := fold_right Z.min d l) in *.
    inversion Hall as [| ? ? Hd Hl]; subst.
    split.
    + destruct (Z.min_spec x m) as [[_ ->] | [_ ->]]; [right; left; reflexivity |].
      destruct Hin as [Hin | Hin]; [left; exact Hin | right; right; exact Hin].
    + constructor; [lia |]. constructor; [lia |].
      eapply Forall_impl; [| exact Hl]. intros t Ht. cbv beta in *. lia.
Qed.

Lemma zmax_spec (l : list Z) (d : Z) :
  In (Pd.zmax l d) (d :: l) /\ Forall (fun t => t <= Pd.zmax l d) (d :: l).
Proof.
  unfold Pd.zmax. induction l as [| x l [Hin Hall]]; cbn [fold_right].
  - split; [left; reflexivity | repeat constructor; lia].
  - set (m := fold_right Z.max d l) in *.
    inversion Hall as [| ? ? Hd Hl]; subst.
    split.
    + destruct (Z.max_spec x m) as [[_ ->] | [_ ->]]; [| right; left; reflexivity].
      destruct Hin as [Hin | Hin]; [left; exact Hin | right; right; exact Hin].
    + constructor; [lia |]. constructor; [lia |].
      eapply Forall_impl; [| exact Hl]. intros t Ht. cbv beta in *. lia.
Qed.

(** X12.  The head of the PDF report of a window with rows whose
    timestamps pandas reads: the number of rows returned, the hours asked
    for, the local time of the request, the range from the earliest to the
    latest timestamp, and the coordinates of a row with the earliest
    timestamp. *)
Theorem pdf_report_metadata now hours d rows :
  fst (get_recent_data within_hours now hours d) = Ok rows ->
  rows <> [] ->
  Forall (fun r => exists t, to_datetime (row_timestamp r) = Ok t) rows ->
  exists page times earliest latest first,
    PDFService.generate_pdf_report utcoffset within_hours to_datetime
      _create_weather_chart now hours d = (Ok page, d)
    /\ traverse to_datetime (map row_timestamp rows) = Ok times
    /\ PDFService.report_total_records (PDFService.html_metadata page)
       = List.length rows
    /\ PDFService.hours_covered (PDFService.html_metadata page) = hours
    /\ PDFService.generated_at (PDFService.html_metadata page)
       = strftime_seconds (now + utcoffset now)
    /\ PDFService.date_range (PDFService.html_metadata page)
       = (strftime_minutes earliest ++ " to " ++ strftime_minutes latest)%string
    /\ In earliest times /\ In latest times
    /\ Forall (fun t => earliest <= t <= latest) times
    /\ In (earliest, first) (combine times rows)
    /\ PDFService.location (PDFService.html_metadata page)
       = ("Lat: " ++ format_f 4 (Fin (row_latitude first))
          ++ ", Lon: " ++ format_f 4 (Fin (row_longitude first)))%string.
Proof.
  rewrite get_recent_data_reads. cbn [fst].
  intros Hrows Hne Hall. injection Hrows as Hrows.
  assert (Htr : exists times,
             traverse to_datetime (map row_timestamp rows) = Ok times).
  { apply traverse_total. rewrite Forall_map. exact Hall. }
  destruct Htr as [times Htr].
  pose proof (traverse_length _ _ _ Htr) as Hlen. rewrite length_map in Hlen.
  unfold PDFService.generate_pdf_report, mbind.
  rewrite get_recent_data_reads, Hrows.
  destruct rows as [| r rows']; [contradiction |].
  unfold lift_result, Pd.to_datetime_all. rewrite Htr.
  set (rows := r :: rows') in *.
  pose proof (sort_values_perm (combine times rows)) as HP.
  pose proof (sort_values_sorted (combine times rows)) as HS.
  destruct (Pd.sort_values (combine times rows)) as [| [t0 first] df] eqn:Hs.
  { destruct times as [| t times]; [discriminate |].
    apply sort_values_nonempty in Hs. contradiction. }
  assert (Htimes : Permutation (t0 :: map fst df) times).
  { rewrite <- (map_fst_combine times rows Hlen).
    change (t0 :: map fst df) with (map fst ((t0, first) :: df)).
    apply Permutation_map. exact HP. }
  destruct (zmin_spec (map fst ((t0, first) :: df)) t0) as [Hmin_in Hmin].
  destruct (zmax_spec (map fst ((t0, first) :: df)) t0) as [Hmax_in Hmax].
  set (earliest := Pd.zmin (map fst ((t0, first) :: df)) t0) in *.
  set (latest := Pd.zmax (map fst ((t0, first) :: df)) t0) in *.
  assert (Hearliest : earliest = t0).
  { apply StronglySorted_inv in HS. destruct HS as [_ Hfirst].
    pose proof (Forall_inv Hmin) as H0. cbv beta in H0.
    assert (Hge : t0 <= earliest).
    { cbn [map fst] in Hmin_in.
      destruct Hmin_in as [<- | [<- | Hin]]; try lia.
      apply in_map_iff in Hin. destruct Hin as (x & <- & Hx).
      rewrite Forall_forall in Hfirst. apply (Hfirst x Hx). }
    lia. }
  eexists. exists times, earliest, latest, first.
  split; [reflexivity |].
  cbn [PDFService._generate_html_content PDFService.html_metadata
       PDFService.report_total_records PDFService.hours_covered
       PDFService.generated_at PDFService.date_range PDFService.location].
  split; [first [exact Htr | reflexivity] |].
  split.
  { change (List.length ((t0, first) :: df) = List.length rows).
    rewrite (Permutation_length HP), length_combine. lia. }
  split; [reflexivity |]. split; [reflexivity |]. split; [reflexivity |].
  assert (Hsub : forall t, In t (t0 :: map fst ((t0, first) :: df)) -> In t times).
  { intros t [<- | Ht]; apply (Permutation_in _ Htimes); [left; reflexivity | exact Ht]. }
  split; [apply Hsub; exact Hmin_in |].
  split; [apply Hsub; exact Hmax_in |].
  split.
  - apply Forall_forall. intros t Ht.
    apply (Permutation_in _ (Permutation_sym Htimes)) in Ht.
    pose proof (Forall_inv_tail Hmin) as Hmin'.
    pose proof (Forall_inv_tail Hmax) as Hmax'.
    rewrite Forall_forall in Hmin', Hmax'.
    split; [apply Hmin' | apply Hmax']; exact Ht.
  - split; [| reflexivity].
    rewrite Hearliest. apply (Permutation_in _ HP). left. reflexivity.
Qed.

End Reports.

End ReportMore.

(* ================================================================== *)
(** * More facts about the request handlers *)
(* ================================================================== *)

Module AppMore.
Import Py Eff WeatherService WeatherDatabase Spec Props.
Import WeatherServiceFacts WeatherDatabaseFacts ReportFacts AppFacts.
Import StringOrder WeatherDatabaseMore WeatherServiceMore.
Import App.

Lemma store_nothing now d : snd (store_weather_data now [] d) = d.
Proof.
  rewrite store_weather_data_appends. cbn [snd rows_of_records List.length Z.of_nat].
  rewrite app_nil_r, Z.add_0_r. destruct d; reflexivity.
Qed.

Section Handlers.

Variable utcoffset : Z -> Z.
Variable http_get : api_params -> result Z.
Variable weather_api : api_params -> result (list WeatherApiResponse).
Variable within_hours : Z -> Z -> string -> bool.
Variable to_datetime : string -> result Z.
Variable _create_weather_chart : list (Z * weather_row) -> string.

Abbreviation fetch_weather_data :=
  (WeatherService.fetch_weather_data utcoffset http_get weather_api).
Abbreviation get_weather_report :=
  (App.get_weather_report utcoffset http_get weather_api).
Abbreviation export_excel := (App.export_excel within_hours to_datetime).
Abbreviation export_pdf :=
  (App.export_pdf utcoffset within_hours to_datetime _create_weather_chart).
Abbreviation handle :=
  (App.handle utcoffset http_get weather_api within_hours to_datetime
     _create_weather_chart).
Abbreviation serve :=
  (App.serve utcoffset http_get weather_api within_hours to_datetime
     _create_weather_chart).

(** ** The calls a fetch adds to the log *)

Lemma fetch_log now latitude longitude days log :
  exists calls,
    snd (fetch_weather_data now latitude longitude days log) = log ++ calls
    /\ (List.length calls <= 2)%nat.
Proof.
  unfold WeatherService.fetch_weather_data.
  destruct (negb (between (-90 # 1) latitude (90 # 1)));
    [exists []; rewrite app_nil_r; split; [reflexivity | simpl; lia] |].
  destruct (negb (between (-180 # 1) longitude (180 # 1)));
    [exists []; rewrite app_nil_r; split; [reflexivity | simpl; lia] |].
  destruct latitude as [| lat];
    [exists []; rewrite app_nil_r; split; [reflexivity | simpl; lia] |].
  destruct longitude as [| lon];
    [exists []; rewrite app_nil_r; split; [reflexivity | simpl; lia] |].
  unfold catch, mbind, modify, lift_result, raise.
  destruct (http_get _) as [code | e]; cbn [snd];
    [| eexists; split; [reflexivity | simpl; lia]].
  destruct (negb (code =? 200)); cbn [snd];
    [eexists; split; [reflexivity | simpl; lia] |].
  destruct (weather_api _) as [[| response rest] | e]; cbn [snd];
    try (rewrite <- app_assoc; eexists; split; [reflexivity | simpl; lia]).
  destruct (_process_response utcoffset response lat lon); cbn [snd];
    rewrite <- app_assoc; eexists; split; try reflexivity; simpl; lia.
Qed.

(** ** [GET /weather-report], case by case *)

Lemma weather_report_cases now lat lon w :
  (exists body, get_weather_report now lat lon w = (Ok (mkResponse 400 body), w)
                /\ (lat = None \/ lon = None
                    \/ exists latitude longitude,
                         lat = Some latitude /\ lon = Some longitude
                         /\ (between (-90 # 1) latitude (90 # 1) = false
                             \/ between (-180 # 1) longitude (180 # 1) = false)))
  \/ exists latitude longitude la lo,
       lat = Some latitude /\ lon = Some longitude
       /\ latitude = Fin la /\ longitude = Fin lo
       /\ within (-90 # 1) (90 # 1) latitude
       /\ within (-180 # 1) (180 # 1) longitude
       /\ match fetch_weather_data now latitude longitude 2 (api_log w) with
          | (Raise e, log') =>
              get_weather_report now lat lon w
              = (Ok (mkResponse 500
                       (ErrorJson "Failed to fetch weather data"
                          (Some (str_of_exn e)))),
                 {| db := db w; api_log := log' |})
          | (Ok result, log') =>
              (exists response,
                 _process_response utcoffset response la lo = Ok result)
              /\ get_weather_report now lat lon w
                 = (Ok (mkResponse 200
                          (ReportJson result (List.length (data result)))),
                    {| db := snd (store_weather_data now (data result) (db w));
                       api_log := log' |})
          end.
Proof.
  unfold App.get_weather_report, catch.
  destruct lat as [latitude |]; [| left; eexists; split; [reflexivity | auto]].
  destruct lon as [longitude |]; [| left; eexists; split; [reflexivity | auto]].
  destruct (between (-90 # 1) latitude (90 # 1)) eqn:Hlat; cbn [negb];
    [| left; eexists; split; [reflexivity | right; right; eauto 8]].
  destruct (between (-180 # 1) longitude (180 # 1)) eqn:Hlon; cbn [negb];
    [| left; eexists; split; [reflexivity | right; right; eauto 8]].
  right.
  destruct (fetch_outcome utcoffset http_get weather_api now latitude longitude 2
              (api_log w) Hlat Hlon) as (la & lo & -> & -> & Hout).
  exists (Fin la), (Fin lo), la, lo.
  do 4 (split; [reflexivity |]).
  split; [apply between_within; exact Hlat |].
  split; [apply between_within; exact Hlon |].
  unfold mbind, on_api, on_db, zoom.
  destruct (WeatherService.fetch_weather_data _ _ _ _ _ _ _ (api_log w))
    as [[res | e] log'] eqn:Hf; cbn [fst] in Hout.
  - split; [exact Hout |].
    destruct (data res) as [| record records] eqn:Hdata.
    + rewrite store_nothing. reflexivity.
    + cbn [db api_log]. rewrite store_weather_data_appends. reflexivity.
  - reflexivity.
Qed.

(** X13.  A weather-report request without both coordinates is
    answered with status 400 and changes nothing.  When the fetch fails,
    the answer is status 500 with the message of the exception, which
    starts with ["Weather API error: "], and nothing is written. *)
Theorem weather_report_failure now lat lon w :
  (lat = None \/ lon = None ->
   exists body, get_weather_report now lat lon w = (Ok (mkResponse 400 body), w))
  /\ (forall latitude longitude e log',
        lat = Some latitude -> lon = Some longitude ->
        within (-90 # 1) (90 # 1) latitude ->
        within (-180 # 1) (180 # 1) longitude ->
        fetch_weather_data now latitude longitude 2 (api_log w) = (Raise e, log') ->
        get_weather_report now lat lon w
        = (Ok (mkResponse 500
                 (ErrorJson "Failed to fetch weather data" (Some (str_of_exn e)))),
           {| db := db w; api_log := log' |})
        /\ exists msg, str_of_exn e = ("Weather API error: " ++ msg)%string).
Proof.
  split.
  - intros Hnone. unfold App.get_weather_report, catch.
    destruct Hnone as [-> | ->]; [| destruct lat]; eexists; reflexivity.
  - intros latitude longitude e log' -> -> Hlat Hlon Hf.
    destruct (weather_report_cases now (Some latitude) (Some longitude) w)
      as [(body & _ & [H | [H | (la' & lo' & H1 & H2 & Hout)]])
         | (la' & lo' & la & lo & H1 & H2 & -> & -> & _ & _ & Hcase)];
      try discriminate.
    + injection H1 as <-. injection H2 as <-.
      apply between_within in Hlat. apply between_within in Hlon.
      destruct Hout; congruence.
    + injection H1 as ->. injection H2 as ->.
      rewrite Hf in Hcase. split; [exact Hcase |].
      apply between_within in Hlat. apply between_within in Hlon.
      revert Hf. unfold WeatherService.fetch_weather_data.
      rewrite Hlat, Hlon. cbn [negb].
      unfold catch, mbind, modify, lift_result, raise.
      destruct (http_get _) as [code | e0];
        [| intros H; injection H as <- _; eexists; reflexivity].
      destruct (negb (code =? 200));
        [intros H; injection H as <- _; eexists; reflexivity |].
      destruct (weather_api _) as [[| response rest] | e0];
        try (intros H; injection H as <- _; eexists; reflexivity).
      destruct (_process_response utcoffset response la lo);
        [discriminate | intros H; injection H as <- _; eexists; reflexivity].
Qed.

(** ** Every route answers *)

Lemma export_excel_answers now hours w :
  exists resp, fst (export_excel now hours w) = Ok resp
               /\ known_status (status_code resp).
Proof.
  unfold App.export_excel, catch, known_status.
  destruct ((hours_or_default hours <=? 0) || (168 <? hours_or_default hours));
    [eexists; split; [reflexivity | cbn; auto] |].
  unfold mbind, on_db, zoom.
  destruct (ExcelService.generate_excel_report _ _ _ _ (db w)) as [[wb | e] d'].
  - eexists; split; [reflexivity | cbn; auto].
  - cbn. destruct (is_ValueError e); eexists; (split; [reflexivity | cbn; auto]).
Qed.

Lemma export_pdf_answers now hours w :
  exists resp, fst (export_pdf now hours w) = Ok resp
               /\ known_status (status_code resp).
Proof.
  unfold App.export_pdf, catch, known_status.
  destruct ((hours_or_default hours <=? 0) || (168 <? hours_or_default hours));
    [eexists; split; [reflexivity | cbn; auto] |].
  unfold mbind, on_db, zoom.
  destruct (PDFService.generate_pdf_report _ _ _ _ _ _ (db w)) as [[page | e] d'].
  - eexists; split; [reflexivity | cbn; auto].
  - cbn. destruct (is_ValueError e); eexists; (split; [reflexivity | cbn; auto]).
Qed.

(** X14.  No request makes a handler raise: every route answers, and
    with status 200, 400, 404 or 500. *)
Theorem handle_always_answers now req w :
  exists resp,
    fst (handle now req w) = Ok resp /\ known_status (status_code resp).
Proof.
  destruct req as [| lat lon | hours | hours | | hours |]; cbn [App.handle].
  - eexists; split; [reflexivity | cbn; unfold known_status; auto].
  - destruct (weather_report_cases now lat lon w)
      as [(body & H & _)
         | (la' & lo' & la & lo & _ & _ & _ & _ & _ & _ & Hcase)].
    + rewrite H. eexists; split; [reflexivity | cbn; unfold known_status; auto].
    + destruct (WeatherService.fetch_weather_data _ _ _ _ _ _ _ (api_log w))
        as [[res | e] log'].
      * destruct Hcase as [_ ->].
        eexists; split; [reflexivity | cbn; unfold known_status; auto].
      * rewrite Hcase.
        eexists; split; [reflexivity | cbn; unfold known_status; auto].
  - apply export_excel_answers.
  - apply export_pdf_answers.
  - eexists; split; [reflexivity | cbn; unfold known_status; auto].
  - unfold App.get_recent_data, catch.
    destruct ((hours_or_default hours <=? 0) || (168 <? hours_or_default hours));
      eexists; (split; [reflexivity | cbn; unfold known_status; auto]).
  - eexists; split; [reflexivity | cbn; unfold known_status; auto].
Qed.

Lemma data_summary_world w : snd (App.get_data_summary w) = w.
Proof. cbn. apply world_eta. Qed.

Lemma recent_data_world now hours w :
  snd (App.get_recent_data within_hours now hours w) = w.
Proof.
  unfold App.get_recent_data, catch.
  destruct ((hours_or_default hours <=? 0) || (168 <? hours_or_default hours));
    [reflexivity | cbn; apply world_eta].
Qed.

Lemma read_only_routes now req w :
  is_weather_report req = false ->
  db (snd (handle now req w)) = db w
  /\ api_log (snd (handle now req w)) = api_log w.
Proof.
  destruct req as [| lat lon | hours | hours | | hours |]; cbn [App.handle];
    intros Hreq; try discriminate.
  - split; reflexivity.
  - rewrite export_excel_world. split; reflexivity.
  - rewrite export_pdf_world. split; reflexivity.
  - rewrite data_summary_world. split; reflexivity.
  - rewrite recent_data_world. split; reflexivity.
  - split; reflexivity.
Qed.

(** X15.  Every route but the weather report leaves the database and
    the log of API calls as they were. *)
Theorem other_routes_change_nothing now req w :
  is_weather_report req = false -> snd (handle now req w) = w.
Proof.
  destruct req as [| lat lon | hours | hours | | hours |]; cbn [App.handle];
    intros Hreq; try discriminate.
  - reflexivity.
  - apply export_excel_world.
  - apply export_pdf_world.
  - apply data_summary_world.
  - apply recent_data_world.
  - reflexivity.
Qed.

(** ** [GET /data/recent] *)

(** X16.  [GET /data/recent] answers an [hours] outside 1 to 168 with
    status 400; inside, it counts every row that [get_recent_data] returns
    and shows the first ten of them, none of which is older than a row it
    leaves out.  Without the argument, [hours] is 48. *)
Theorem recent_endpoint_shows_newest now hours w :
  let h := hours_or_default hours in
  (hours = None -> h = 48)
  /\ (h < 1 \/ 168 < h ->
      exists body, App.get_recent_data within_hours now hours w
                   = (Ok (mkResponse 400 body), w))
  /\ (1 <= h <= 168 ->
      exists rows,
        WeatherDatabase.get_recent_data within_hours now h (db w) = (Ok rows, db w)
        /\ App.get_recent_data within_hours now hours w
           = (Ok (mkResponse 200
                    (RecentJson h (List.length rows) (firstn 10 rows))), w)
        /\ (List.length (firstn 10 rows) <= 10)%nat
        /\ forall shown hidden,
             In shown (firstn 10 rows) -> In hidden (skipn 10 rows) ->
             newer_or_same shown hidden).
Proof.
  intros h. subst h. split; [intros ->; reflexivity |].
  unfold App.get_recent_data, catch. split.
  - intros Hrange.
    replace ((hours_or_default hours <=? 0) || (168 <? hours_or_default hours))
      with true
      by (symmetry; apply orb_true_iff; destruct Hrange;
          [left; apply Z.leb_le | right; apply Z.ltb_lt]; lia).
    eexists. reflexivity.
  - intros Hrange.
    replace ((hours_or_default hours <=? 0) || (168 <? hours_or_default hours))
      with false
      by (symmetry; apply orb_false_iff; split;
          [apply Z.leb_gt | apply Z.ltb_ge]; lia).
    exists (recent_rows within_hours now (hours_or_default hours) (db w)).
    split; [reflexivity |].
    split; [cbn; rewrite world_eta; reflexivity |].
    split; [rewrite length_firstn; lia |].
    unfold recent_rows.
    pose proof (order_by_timestamp_desc_sorted
                  (filter (fun r => within_hours now (hours_or_default hours)
                                      (row_timestamp r))
                          (weather_data (db w)))) as Hs.
    set (sorted := order_by_timestamp_desc _) in *.
    rewrite <- (firstn_skipn 1000 sorted) in Hs.
    apply sorted_app in Hs. destruct Hs as [Hs _].
    rewrite <- (firstn_skipn 10 (firstn 1000 sorted)) in Hs.
    apply sorted_app in Hs. apply Hs.
Qed.

(** ** The status of the export routes *)

(** X17.  With [hours] in 1 to 168 an export route answers 200 with the
    file when the renderer returns one, 404 when the renderer raises a
    [ValueError], whether for an empty window or for a timestamp pandas
    cannot read, and 500 when it raises anything else; the world is left
    as it was. *)
Theorem export_status_codes now hours w :
  1 <= hours_or_default hours <= 168 ->
  match fst (ExcelService.generate_excel_report within_hours to_datetime now
               (hours_or_default hours) (db w)) with
  | Ok file => export_excel now hours w = (Ok (mkResponse 200 (ExcelFile file)), w)
  | Raise e =>
      exists body,
        export_excel now hours w
        = (Ok (mkResponse (if is_ValueError e then 404 else 500) body), w)
  end
  /\
  match fst (PDFService.generate_pdf_report utcoffset within_hours to_datetime
               _create_weather_chart now (hours_or_default hours) (db w)) with
  | Ok file => export_pdf now hours w = (Ok (mkResponse 200 (PdfFile file)), w)
  | Raise e =>
      exists body,
        export_pdf now hours w
        = (Ok (mkResponse (if is_ValueError e then 404 else 500) body), w)
  end.
Proof.
  intros Hrange.
  assert (Hguard : (hours_or_default hours <=? 0) || (168 <? hours_or_default hours)
                   = false)
    by (apply orb_false_iff; split; [apply Z.leb_gt | apply Z.ltb_ge]; lia).
  split.
  - unfold App.export_excel, catch. rewrite Hguard.
    unfold mbind, on_db, zoom.
    pose proof (excel_report_frame within_hours to_datetime now
                  (hours_or_default hours) (db w)) as Hfr.
    destruct (ExcelService.generate_excel_report _ _ _ _ (db w)) as [[file | e] d'];
      cbn [fst snd] in *; subst d'.
    + cbn. rewrite world_eta. reflexivity.
    + destruct (is_ValueError e); cbn; rewrite world_eta; eexists; reflexivity.
  - unfold App.export_pdf, catch. rewrite Hguard.
    unfold mbind, on_db, zoom.
    pose proof (pdf_report_frame utcoffset within_hours to_datetime
                  _create_weather_chart now (hours_or_default hours) (db w)) as Hfr.
    destruct (PDFService.generate_pdf_report _ _ _ _ _ _ (db w)) as [[file | e] d'];
      cbn [fst snd] in *; subst d'.
    + cbn. rewrite world_eta. reflexivity.
    + destruct (is_ValueError e); cbn; rewrite world_eta; eexists; reflexivity.
Qed.

(** ** The log of API calls *)

Lemma handle_log now req w :
  exists calls,
    api_log (snd (handle now req w)) = api_log w ++ calls
    /\ (List.length calls <= if is_weather_report req then 2 else 0)%nat.
Proof.
  destruct (is_weather_report req) eqn:Hreq.
  - destruct req as [| lat lon | | | | |]; try discriminate. cbn [App.handle].
    destruct (weather_report_cases now lat lon w)
      as [(body & H & _)
         | (la' & lo' & la & lo & _ & _ & _ & _ & _ & _ & Hcase)].
    + rewrite H. exists []. rewrite app_nil_r. split; [reflexivity | simpl; lia].
    + destruct (fetch_log now la' lo' 2 (api_log w))
        as (calls & Hcalls & Hlen).
      destruct (WeatherService.fetch_weather_data _ _ _ _ _ _ _ (api_log w))
        as [[res | e] log']; cbn [snd] in Hcalls.
      * destruct Hcase as [_ ->]. exists calls. auto.
      * rewrite Hcase. exists calls. auto.
  - rewrite (proj2 (read_only_routes now req w Hreq)).
    exists []. rewrite app_nil_r. split; [reflexivity | simpl; lia].
Qed.

(** X18.  Over any sequence of requests the log of API calls only
    grows, by at most two calls for each weather report and by none for any
    other route. *)
Theorem api_calls_are_bounded reqs :
  forall w,
    exists calls,
      api_log (serve reqs w) = api_log w ++ calls
      /\ (List.length calls <= 2 * count_weather_reports reqs)%nat.
Proof.
  induction reqs as [| [now req] reqs IH]; intros w; cbn [App.serve].
  - exists []. rewrite app_nil_r. split; [reflexivity | simpl; lia].
  - destruct (handle_log now req w) as (c1 & H1 & L1).
    destruct (IH (snd (handle now req w))) as (c2 & H2 & L2).
    exists (c1 ++ c2). rewrite H2, H1, app_assoc. split; [reflexivity |].
    rewrite length_app. unfold count_weather_reports in *. cbn [filter snd].
    destruct (is_weather_report req); cbn [List.length]; lia.
Qed.

(** ** What the table holds after any sequence of requests *)

Lemma handle_db_cases now req w :
  db (snd (handle now req w)) = db w
  \/ exists response la lo result,
       within (-90 # 1) (90 # 1) (Fin la)
       /\ within (-180 # 1) (180 # 1) (Fin lo)
       /\ _process_response utcoffset response la lo = Ok result
       /\ db (snd (handle now req w))
          = snd (store_weather_data now (data result) (db w)).
Proof.
  destruct (is_weather_report req) eqn:Hreq.
  - destruct req as [| lat lon | | | | |]; try discriminate. cbn [App.handle].
    destruct (weather_report_cases now lat lon w)
      as [(body & H & _)
         | (la' & lo' & la & lo & _ & _ & -> & -> & Hlat & Hlon & Hcase)].
    + rewrite H. left. reflexivity.
    + destruct (WeatherService.fetch_weather_data _ _ _ _ _ _ _ (api_log w))
        as [[res | e] log'].
      * destruct Hcase as [[response Hp] ->]. right.
        exists response, la, lo, res. auto.
      * rewrite Hcase. left. reflexivity.
  - left. apply (proj1 (read_only_routes now req w Hreq)).
Qed.

Lemma rows_of_records_ids now records :
  forall rowid k row,
    nth_error (rows_of_records now rowid records) k = Some row ->
    id row = rowid + Z.of_nat k.
Proof.
  induction records as [| r l IH]; intros rowid k row H.
  - destruct k; discriminate.
  - destruct k as [| k]; cbn [rows_of_records nth_error] in H.
    + injection H as <-. cbn. lia.
    + rewrite (IH _ _ _ H). lia.
Qed.

Lemma store_ids now records d :
  ids_count_rows d -> ids_count_rows (snd (store_weather_data now records d)).
Proof.
  intros [Hids Hlast]. rewrite store_weather_data_appends.
  unfold ids_count_rows. cbn [snd weather_data last_rowid].
  split.
  - intros i row Hi.
    destruct (Nat.lt_ge_cases i (List.length (weather_data d))) as [Hlt | Hge].
    + rewrite nth_error_app1 in Hi by exact Hlt. apply Hids. exact Hi.
    + rewrite nth_error_app2 in Hi by exact Hge.
      rewrite (rows_of_records_ids _ _ _ _ _ Hi), Hlast. lia.
  - rewrite length_app, rows_of_records_length, Hlast. lia.
Qed.

Lemma serve_ids reqs :
  forall w, ids_count_rows (db w) -> ids_count_rows (db (serve reqs w)).
Proof.
  induction reqs as [| [now req] reqs IH]; intros w Hw; cbn [App.serve].
  - exact Hw.
  - apply IH.
    destruct (handle_db_cases now req w)
      as [-> | (response & la & lo & result & _ & _ & _ & ->)];
      [exact Hw | apply store_ids; exact Hw].
Qed.

(** X19.  In a table that the service has filled from an empty one,
    the rows carry the ids 1, 2, 3, ... in the order of insertion, so no
    two rows share an id, and the largest id handed out is the number of
    rows. *)
Theorem row_ids_count_the_rows reqs log :
  let d := db (serve reqs {| db := init_database; api_log := log |}) in
  ids_count_rows d
  /\ forall i j a b,
       nth_error (weather_data d) i = Some a ->
       nth_error (weather_data d) j = Some b ->
       id a = id b -> i = j.
Proof.
  intros d.
  assert (H : ids_count_rows d).
  { apply serve_ids. split; [intros [| i] row; discriminate | reflexivity]. }
  split; [exact H |].
  destruct H as [Hids _].
  intros i j a b Ha Hb Hab.
  apply Hids in Ha. apply Hids in Hb. lia.
Qed.

Lemma store_rows_ok now la lo response result d :
  within (-90 # 1) (90 # 1) (Fin la) ->
  within (-180 # 1) (180 # 1) (Fin lo) ->
  _process_response utcoffset response la lo = Ok result ->
  Forall (fun row => complete_row row /\ row_on_globe row) (weather_data d) ->
  Forall (fun row => complete_row row /\ row_on_globe row)
    (weather_data (snd (store_weather_data now (data result) d))).
Proof.
  intros Hlat Hlon Hp Hd.
  rewrite store_weather_data_appends. cbn [snd weather_data].
  apply Forall_app. split; [exact Hd |].
  apply Forall_forall. intros row Hin.
  apply In_nth_error in Hin. destruct Hin as [k Hk].
  assert (Hrec : nth_error (data result) k = Some (record_of_row row)).
  { rewrite <- (rows_of_records_records now (last_rowid d + 1) (data result)) at 1.
    rewrite nth_error_map, Hk. reflexivity. }
  apply nth_error_In in Hrec.
  destruct (process_response_inv utcoffset _ _ _ _ Hp)
    as (hourly & temp & hum & recs & _ & _ & _ & _ & _ & Hall & Hdata & _).
  rewrite Hdata in Hrec. apply filter_In in Hrec. destruct Hrec as [Hrec Hboth].
  rewrite <- Hall in Hrec.
  apply all_records_coordinates in Hrec. destruct Hrec as [Hla Hlo].
  cbn [record_of_row latitude longitude] in Hla, Hlo.
  unfold both_present in Hboth. cbn [record_of_row temperature_2m relative_humidity_2m] in Hboth.
  apply andb_true_iff in Hboth. destruct Hboth as [Ht Hh].
  split.
  - unfold complete_row.
    destruct (row_temperature_2m row), (row_relative_humidity_2m row);
      try discriminate; split; discriminate.
  - unfold row_on_globe. rewrite Hla, Hlo.
    destruct Hlat as (q & Hq & H1 & H2). injection Hq as <-.
    destruct Hlon as (q' & Hq' & H3 & H4). injection Hq' as <-.
    auto.
Qed.

Lemma serve_rows_ok reqs :
  forall w,
    Forall (fun row => complete_row row /\ row_on_globe row) (weather_data (db w)) ->
    Forall (fun row => complete_row row /\ row_on_globe row)
      (weather_data (db (serve reqs w))).
Proof.
  induction reqs as [| [now req] reqs IH]; intros w Hw; cbn [App.serve].
  - exact Hw.
  - apply IH.
    destruct (handle_db_cases now req w)
      as [-> | (response & la & lo & result & Hlat & Hlon & Hp & ->)];
      [exact Hw | eapply store_rows_ok; eassumption].
Qed.

(** X20.  In a table that the service has filled from an empty one,
    every row has a temperature and a relative humidity, although the table
    allows them to be null, and a latitude in [[-90, 90]] and a longitude in
    [[-180, 180]]. *)
Theorem stored_rows_are_complete reqs log row :
  In row (weather_data
            (db (serve reqs {| db := init_database; api_log := log |}))) ->
  complete_row row /\ row_on_globe row.
Proof.
  intros Hin.
  assert (H : Forall (fun row => complete_row row /\ row_on_globe row)
               (weather_data
                  (db (serve reqs {| db := init_database; api_log := log |})))).
  { apply serve_rows_ok. constructor. }
  rewrite Forall_forall in H. apply H. exact Hin.
Qed.

End Handlers.

End AppMore.

(* ================================================================== *)
(** * More examples on the sample environment *)
(* ================================================================== *)

Module MoreExamples.
Import Py Eff WeatherService WeatherDatabase Spec Props.
Import WeatherDatabaseMore WeatherServiceMore ReportMore AppMore.



Lemma sample_rows_parse :
  Forall (fun r => exists t, Sample.to_datetime (row_timestamp r) = Ok t)
    (recent_rows Sample.within_hours Sample.now 48 (App.db Sample.world1)).
Proof.
  apply Forall_forall. intros r Hin.
  assert (Hb : forallb
                 (fun r => match Sample.to_datetime (row_timestamp r) with
                           | Ok _ => true
                           | Raise _ => false
                           end)
                 (recent_rows Sample.within_hours Sample.now 48
                    (App.db Sample.world1)) = true)
    by (vm_compute; reflexivity).
  rewrite forallb_forall in Hb. specialize (Hb r Hin). cbv beta in Hb.
  destruct (Sample.to_datetime (row_timestamp r));
    [eexists; reflexivity | discriminate].
Defined.

(** A record stored in the empty table is read back, as it was stored. *)
Lemma stored_records_are_read_back_sample :
  (List.length
     (rows_within Sample.within_hours Sample.now 48
        (snd (store_weather_data Sample.now [sample_record] init_database)))
   <= 1000)%nat
  /\ exists row,
       In row (recent_rows Sample.within_hours Sample.now 48
                 (snd (store_weather_data Sample.now [sample_record]
                         init_database)))
       /\ record_of_row row = sample_record.
Proof.
  assert (Hlen : (List.length
                    (rows_within Sample.within_hours Sample.now 48
                       (snd (store_weather_data Sample.now [sample_record]
                               init_database)))
                  <= 1000)%nat).
  { replace (List.length _) with 1%nat by (vm_compute; reflexivity). lia. }
  split; [exact Hlen |].
  apply (proj1 (stored_records_are_read_back Sample.within_hours Sample.now
                  Sample.now 48 [sample_record] init_database Hlen)
           sample_record).
  - left. reflexivity.
  - vm_compute. reflexivity.
Defined.

(** The metadata of the sample response: three records, two of them
    valid, from 23:13:20 to 01:13:20 local time. *)
Lemma process_response_metadata_sample :
  exists res,
    _process_response Sample.utcoffset Sample.api_response Sample.lat Sample.lon
    = Ok res
    /\ (valid_records (meta res) <= total_records (meta res))%nat
    /\ date_range_start (meta res) = Some "2023-11-14T23:13:20"%string
    /\ date_range_end (meta res) = Some "2023-11-15T01:13:20"%string.
Proof.
  destruct (_process_response Sample.utcoffset Sample.api_response
              Sample.lat Sample.lon) as [res | e] eqn:Hres;
    [| vm_compute in Hres; discriminate].
  exists res. split; [reflexivity |].
  destruct (process_response_metadata Sample.utcoffset Sample.api_response
              Sample.lat Sample.lon res Hres)
    as (Hvalid & _ & _ & _ & Hstart & Hend & _).
  split; [exact Hvalid |].
  rewrite Hstart, Hend. split; vm_compute; reflexivity.
Defined.

(** The second record of the sample is stamped one interval after the
    first time point. *)
Lemma records_follow_the_interval_sample :
  exists res record,
    _process_response Sample.utcoffset Sample.api_response Sample.lat Sample.lon
    = Ok res
    /\ nth_error (all_records Sample.utcoffset Sample.api_response
                    Sample.lat Sample.lon) 1 = Some record
    /\ (exists dt, fromtimestamp Sample.utcoffset (1700000000 + 1 * 3600) = Ok dt
                   /\ timestamp record = isoformat dt)
    /\ 1700000000 <= 1700000000 + 1 * 3600 < 1700010800.
Proof.
  destruct (_process_response Sample.utcoffset Sample.api_response
              Sample.lat Sample.lon) as [res | e] eqn:Hres;
    [| vm_compute in Hres; discriminate].
  destruct (nth_error (all_records Sample.utcoffset Sample.api_response
                         Sample.lat Sample.lon) 1) as [record |] eqn:Hnth;
    [| vm_compute in Hnth; discriminate].
  exists res, record. split; [reflexivity |]. split; [reflexivity |].
  destruct (records_follow_the_interval Sample.utcoffset Sample.api_response
              Sample.lat Sample.lon res Hres) as (hourly & Hh & Hall).
  cbn [Hourly Sample.api_response] in Hh. injection Hh as <-.
  destruct (Hall 1%nat record Hnth) as (Hstamp & Hup & _).
  split; [exact Hstamp |].
  apply Hup. reflexivity.
Defined.



(** The spreadsheet over the two rows of the sample. *)
Lemma excel_report_contents_sample :
  recent_rows Sample.within_hours Sample.now 48 (App.db Sample.world1) <> []
  /\ exists wb,
       ExcelService.generate_excel_report Sample.within_hours Sample.to_datetime
         Sample.now 48 (App.db Sample.world1)
       = (Ok wb, App.db Sample.world1)
       /\ List.length (ExcelService.cells wb) = 2%nat
       /\ StronglySorted (fun a b => fst (fst a) <= fst (fst b))
            (ExcelService.cells wb).
Proof.
  assert (Hne : recent_rows Sample.within_hours Sample.now 48
                  (App.db Sample.world1) <> [])
    by (vm_compute; discriminate).
  split; [exact Hne |].
  destruct (excel_report_contents Sample.within_hours Sample.to_datetime
              Sample.now 48 (App.db Sample.world1)
              (recent_rows Sample.within_hours Sample.now 48 (App.db Sample.world1))
              eq_refl Hne sample_rows_parse)
    as (wb & times & Hgen & _ & _ & _ & Hlen & _ & Hsorted).
  exists wb. split; [exact Hgen |]. split; [| exact Hsorted].
  rewrite Hlen. vm_compute. reflexivity.
Defined.

(** The head of the PDF report over the two rows of the sample. *)
Lemma pdf_report_metadata_sample :
  recent_rows Sample.within_hours Sample.now 48 (App.db Sample.world1) <> []
  /\ exists page,
       PDFService.generate_pdf_report Sample.utcoffset Sample.within_hours
         Sample.to_datetime Sample._create_weather_chart Sample.now 48
         (App.db Sample.world1)
       = (Ok page, App.db Sample.world1)
       /\ PDFService.report_total_records (PDFService.html_metadata page) = 2%nat
       /\ PDFService.hours_covered (PDFService.html_metadata page) = 48.
Proof.
  assert (Hne : recent_rows Sample.within_hours Sample.now 48
                  (App.db Sample.world1) <> [])
    by (vm_compute; discriminate).
  split; [exact Hne |].
  destruct (pdf_report_metadata Sample.utcoffset Sample.within_hours
              Sample.to_datetime Sample._create_weather_chart
              Sample.now 48 (App.db Sample.world1)
              (recent_rows Sample.within_hours Sample.now 48 (App.db Sample.world1))
              eq_refl Hne sample_rows_parse)
    as (page & times & earliest & latest & first & Hgen & _ & Htotal & Hhours & _).
  exists page. split; [exact Hgen |]. split; [| exact Hhours].
  rewrite Htotal. vm_compute. reflexivity.
Defined.

(** The summary route leaves the world of the sample as it was. *)
Lemma other_routes_change_nothing_sample :
  is_weather_report App.GetDataSummary = false
  /\ snd (App.handle Sample.utcoffset Sample.http_get Sample.weather_api
            Sample.within_hours Sample.to_datetime Sample._create_weather_chart
            Sample.now App.GetDataSummary Sample.world1)
     = Sample.world1.
Proof.
  split; [reflexivity |].
  apply (other_routes_change_nothing Sample.utcoffset Sample.http_get
           Sample.weather_api Sample.within_hours Sample.to_datetime
           Sample._create_weather_chart Sample.now App.GetDataSummary
           Sample.world1).
  reflexivity.
Defined.

(** With the two rows of the sample, the Excel export answers 200. *)
Lemma export_status_codes_sample :
  1 <= App.hours_or_default (Some 48) <= 168
  /\ exists file,
       App.export_excel Sample.within_hours Sample.to_datetime
         Sample.now (Some 48) Sample.world1
       = (Ok (App.mkResponse 200 (App.ExcelFile file)), Sample.world1).
Proof.
  assert (Hrange : 1 <= App.hours_or_default (Some 48) <= 168)
    by (cbn [App.hours_or_default]; lia).
  split; [exact Hrange |].
  destruct (export_status_codes Sample.utcoffset Sample.within_hours
              Sample.to_datetime Sample._create_weather_chart
              Sample.now (Some 48) Sample.world1 Hrange) as [Hexcel _].
  destruct (fst (ExcelService.generate_excel_report Sample.within_hours
                   Sample.to_datetime Sample.now
                   (App.hours_or_default (Some 48)) (App.db Sample.world1)))
    as [file | e] eqn:Hgen; [| vm_compute in Hgen; discriminate].
  exists file. exact Hexcel.
Defined.

(** The rows that one weather report of the sample writes have both
    values and coordinates on the globe. *)
Lemma stored_rows_are_complete_sample :
  exists row,
    In row (weather_data
              (App.db
                 (App.serve Sample.utcoffset Sample.http_get Sample.weather_api
                    Sample.within_hours Sample.to_datetime
                    Sample._create_weather_chart
                    [(Sample.now,
                      App.GetWeatherReport (Some (Fin Sample.lat))
                        (Some (Fin Sample.lon)))]
                    {| App.db := init_database; App.api_log := [] |})))
    /\ complete_row row /\ row_on_globe row.
Proof.
  destruct (weather_data
              (App.db
                 (App.serve Sample.utcoffset Sample.http_get Sample.weather_api
                    Sample.within_hours Sample.to_datetime
                    Sample._create_weather_chart
                    [(Sample.now,
                      App.GetWeatherReport (Some (Fin Sample.lat))
                        (Some (Fin Sample.lon)))]
                    {| App.db := init_database; App.api_log := [] |})))
    as [| row rest] eqn:Hrows; [vm_compute in Hrows; discriminate |].
  exists row. split; [left; reflexivity |].
  apply (stored_rows_are_complete Sample.utcoffset Sample.http_get
           Sample.weather_api Sample.within_hours Sample.to_datetime
           Sample._create_weather_chart
           [(Sample.now,
             App.GetWeatherReport (Some (Fin Sample.lat)) (Some (Fin Sample.lon)))]
           [] row).
  rewrite Hrows. left. reflexivity.
Defined.

End MoreExamples.
